(** * Comprehensive Website Analyzer: scoring and heuristic-detection rules

    A shallow embedding of the rule set of the analyzer:
    - [Utils]          : [validate_url] of utils.py;
    - [Protection]     : the probes and [analyze] of protection_analyzer.py;
    - [Structure]      : content detection, selector synthesis and [analyze]
                         of structure_analyzer.py;
    - [Comprehensive]  : result translation, recommendations and summary of
                         comprehensive_analyzer.py.

    Python strings are modelled as [string], a sequence of 8-bit characters
    (text outside ASCII appears as its UTF-8 bytes); [str.lower] and
    case-insensitive matching fold the ASCII letters only.  Python
    exceptions are modelled by the [result] type, [try ... except] by
    [try_except]. *)

From Stdlib Require Import ZArith QArith List String Ascii Bool Arith Lia.
From Stdlib Require Import DecimalString Permutation Sorted.
Import ListNotations.
Close Scope Q_scope.
Local Open Scope string_scope.

(* ================================================================== *)
(** ** Python values, exceptions, dictionaries and string primitives   *)
(* ================================================================== *)

Module Py.

(** Exceptions that the modelled code raises or catches.  All of them are
    subclasses of Python's [Exception]. *)
Inductive exn : Type :=
| Exception (msg : string)
| ValueError (msg : string)
| TypeError (msg : string)
| AttributeError (msg : string)
| KeyError (msg : string)
| RequestError (msg : string)
| OverflowError (msg : string).

(** [str(e)] *)
Definition str_exn (e : exn) : string :=
  match e with
  | Exception m | ValueError m | TypeError m | AttributeError m
  | KeyError m | RequestError m | OverflowError m => m
  end.

Inductive result (A : Type) : Type :=
| Ok (a : A)
| Raise (e : exn).
Arguments Ok {A} a.
Arguments Raise {A} e.

Definition bind {A B} (m : result A) (k : A -> result B) : result B :=
  match m with
  | Ok a => k a
  | Raise e => Raise e
  end.

(** [try: body  except Exception as e: handler e] *)
Definition try_except {A} (body : result A) (handler : exn -> result A)
  : result A :=
  match body with
  | Ok a => Ok a
  | Raise e => handler e
  end.

(** JSON-like Python values, as they are stored in the result
    dictionaries. *)
#[warnings="-register-all"]
Inductive pyval : Type :=
| VNone
| VBool (b : bool)
| VInt (z : Z)
| VFloat (q : Q)
| VStr (s : string)
| VList (l : list pyval)
| VDict (d : list (string * pyval)).

(** Python truthiness. *)
Definition truthy (v : pyval) : bool :=
  match v with
  | VNone => false
  | VBool b => b
  | VInt z => negb (z =? 0)%Z
  | VFloat q => negb (Qeq_bool q (0 # 1))
  | VStr s => negb (s =? "")
  | VList l => match l with [] => false | _ => true end
  | VDict d => match d with [] => false | _ => true end
  end.

(** *** Dictionaries

    A [dict] keeps its keys in insertion order; assigning to an existing
    key keeps the key's position. *)
Definition dict (V : Type) : Type := list (string * V).

Fixpoint dict_get {V} (k : string) (d : dict V) : option V :=
  match d with
  | [] => None
  | (k', v) :: d' => if k' =? k then Some v else dict_get k d'
  end.

Fixpoint dict_set {V} (k : string) (v : V) (d : dict V) : dict V :=
  match d with
  | [] => [(k, v)]
  | (k', v') :: d' =>
      if k' =? k then (k, v) :: d' else (k', v') :: dict_set k v d'
  end.

(** [d.get(k, default)] *)
Definition dict_get_default {V} (k : string) (default : V) (d : dict V) : V :=
  match dict_get k d with
  | Some v => v
  | None => default
  end.

(** [d[k]] *)
Definition dict_item {V} (k : string) (d : dict V) : result V :=
  match dict_get k d with
  | Some v => Ok v
  | None => Raise (KeyError k)
  end.

(** [k in d] *)
Definition dict_mem {V} (k : string) (d : dict V) : bool :=
  match dict_get k d with
  | Some _ => true
  | None => false
  end.

(** The dictionary without the key [k]. *)
Definition dict_remove {V} (k : string) (d : dict V) : dict V :=
  filter (fun kv => negb (fst kv =? k)) d.

(** [d.update(other)] *)
Definition dict_update {V} (d other : dict V) : dict V :=
  fold_left (fun acc kv => dict_set (fst kv) (snd kv) acc) other d.

Definition keys {V} (d : dict V) : list string := map fst d.
Definition values {V} (d : dict V) : list V := map snd d.

(** *** Strings *)

Definition is_upper (c : ascii) : bool :=
  let n := nat_of_ascii c in ((65 <=? n) && (n <=? 90))%nat.
Definition is_lower (c : ascii) : bool :=
  let n := nat_of_ascii c in ((97 <=? n) && (n <=? 122))%nat.
Definition is_digit (c : ascii) : bool :=
  let n := nat_of_ascii c in ((48 <=? n) && (n <=? 57))%nat.
Definition is_alpha (c : ascii) : bool := is_upper c || is_lower c.
Definition is_alnum (c : ascii) : bool := is_alpha c || is_digit c.

Definition lower_char (c : ascii) : ascii :=
  if is_upper c then ascii_of_nat (nat_of_ascii c + 32) else c.

(** [s.lower()] *)
Fixpoint lower (s : string) : string :=
  match s with
  | EmptyString => EmptyString
  | String c t => String (lower_char c) (lower t)
  end.

(** [s.startswith(p)] *)
Definition startswith (s p : string) : bool := String.prefix p s.

(** [needle in s] for strings *)
Fixpoint contains (needle s : string) : bool :=
  if String.prefix needle s then true
  else match s with
       | EmptyString => false
       | String _ t => contains needle t
       end.

(** Characters removed by [str.strip()]. *)
Definition is_space (c : ascii) : bool :=
  let n := nat_of_ascii c in
  (((9 <=? n) && (n <=? 13)) || ((28 <=? n) && (n <=? 32)))%nat.

Fixpoint lstrip (s : string) : string :=
  match s with
  | EmptyString => EmptyString
  | String c t => if is_space c then lstrip t else s
  end.

(** Removes trailing whitespace: a character is dropped when it is a
    space and everything after it has been dropped. *)
Fixpoint rstrip (s : string) : string :=
  match s with
  | EmptyString => EmptyString
  | String c t =>
      match rstrip t with
      | EmptyString => if is_space c then EmptyString else String c EmptyString
      | t' => String c t'
      end
  end.

(** [s.strip()] *)
Definition strip (s : string) : string := rstrip (lstrip s).

(** [s[:n]] *)
Fixpoint take (n : nat) (s : string) : string :=
  match n, s with
  | O, _ => EmptyString
  | _, EmptyString => EmptyString
  | S n', String c t => String c (take n' t)
  end.

(** [s[n:]] *)
Fixpoint drop (n : nat) (s : string) : string :=
  match n, s with
  | O, _ => s
  | _, EmptyString => EmptyString
  | S n', String _ t => drop n' t
  end.

(** [c in s] for a single character *)
Fixpoint mem_char (c : ascii) (s : string) : bool :=
  match s with
  | EmptyString => false
  | String c' t => Ascii.eqb c c' || mem_char c t
  end.

(** The part of [s] before the first character satisfying [stop], and the
    rest (starting at that character). *)
Fixpoint span_until (stop : ascii -> bool) (s : string) : string * string :=
  match s with
  | EmptyString => (EmptyString, EmptyString)
  | String c t =>
      if stop c then (EmptyString, s)
      else let (a, b) := span_until stop t in (String c a, b)
  end.

(** [s.split(sep)] for a one-character separator. *)
Fixpoint split_char (sep : ascii) (s : string) : list string :=
  match s with
  | EmptyString => [EmptyString]
  | String c t =>
      if Ascii.eqb c sep then EmptyString :: split_char sep t
      else match split_char sep t with
           | [] => [String c EmptyString]
           | w :: ws => String c w :: ws
           end
  end.

Fixpoint forallb_string (p : ascii -> bool) (s : string) : bool :=
  match s with
  | EmptyString => true
  | String c t => p c && forallb_string p t
  end.

Fixpoint filter_string (p : ascii -> bool) (s : string) : string :=
  match s with
  | EmptyString => EmptyString
  | String c t => if p c then String c (filter_string p t) else filter_string p t
  end.

(** Last character of a non-empty string. *)
Fixpoint last_char (s : string) : option ascii :=
  match s with
  | EmptyString => None
  | String c EmptyString => Some c
  | String _ t => last_char t
  end.

(** *** Characters

    A string holds a text as its UTF-8 bytes.  A character of the text
    is a byte that is not a continuation byte ([10xxxxxx]) together with
    the continuation bytes that follow it; [len] and the slices of
    Python count characters. *)

Definition is_continuation (c : ascii) : bool :=
  let n := nat_of_ascii c in ((128 <=? n) && (n <? 192))%nat.

(** [len(s)] *)
Fixpoint len_chars (s : string) : nat :=
  match s with
  | EmptyString => O
  | String c t => (if is_continuation c then 0 else 1) + len_chars t
  end.

(** [s[:n]] for [n >= 0] *)
Fixpoint take_chars (n : nat) (s : string) : string :=
  match s with
  | EmptyString => EmptyString
  | String c t =>
      if is_continuation c then String c (take_chars n t)
      else match n with
           | O => EmptyString
           | S n' => String c (take_chars n' t)
           end
  end.

(** *** Matching whatever the case

    With [re.IGNORECASE] a letter of the pattern matches its two cases
    and, for [i], [s] and [k], the letters that Unicode folds to them:
    the dotted capital and the dotless small i, the long s and the
    Kelvin sign. *)
Definition utf8 (bytes : list nat) : string :=
  fold_right (fun n s => String (ascii_of_nat n) s) EmptyString bytes.

(** The encodings of U+0130 and U+0131 for [i], of U+017F for [s] and of
    U+212A for [k]. *)
Definition folded_to (p : ascii) : list string :=
  let l := lower_char p in
  if Ascii.eqb l "i" then [utf8 [196; 176]; utf8 [196; 177]]
  else if Ascii.eqb l "s" then [utf8 [197; 191]]
  else if Ascii.eqb l "k" then [utf8 [226; 132; 170]]
  else [].

(** The rest of [s] behind one of the [variants] with which [s]
    starts. *)
Fixpoint behind_variant (variants : list string) (s : string)
  : option string :=
  match variants with
  | [] => None
  | v :: variants' =>
      if String.prefix v s then Some (drop (String.length v) s)
      else behind_variant variants' s
  end.

(** The rest of [s] behind a character that the character [p] of the
    pattern matches. *)
Definition match_char_ci (p : ascii) (s : string) : option string :=
  match s with
  | EmptyString => None
  | String c t =>
      if Ascii.eqb (lower_char c) (lower_char p) then Some t
      else behind_variant (folded_to p) s
  end.

(** The rest of [s] behind a match of the literal [pattern] at the start
    of [s]. *)
Fixpoint match_ci (pattern s : string) : option string :=
  match pattern with
  | EmptyString => Some s
  | String p pattern' =>
      match match_char_ci p s with
      | Some rest => match_ci pattern' rest
      | None => None
      end
  end.

(** [len(re.findall(pattern, s, re.I))] for a literal [pattern] that is
    not empty: the scan goes left to right and, after a match, resumes
    behind it.  [skip] is the number of bytes still covered by the last
    match. *)
Fixpoint findall_ci_from (skip : nat) (pattern s : string) : nat :=
  match s with
  | EmptyString => O
  | String _ t =>
      match skip with
      | S k => findall_ci_from k pattern t
      | O =>
          match match_ci pattern s with
          | Some rest =>
              S (findall_ci_from (String.length t - String.length rest)
                   pattern t)
          | None => findall_ci_from O pattern t
          end
      end
  end.

Definition count_findall_ci (pattern s : string) : nat :=
  findall_ci_from O pattern s.

(** The number of positions of [s] at which [pattern] matches, whatever
    the case. *)
Fixpoint occurrences_ci (pattern s : string) : nat :=
  match s with
  | EmptyString => O
  | String _ t =>
      (match match_ci pattern s with Some _ => 1 | None => 0 end)
      + occurrences_ci pattern t
  end.

(** The character is not [<]. *)
Definition not_lt (c : ascii) : bool := negb (Ascii.eqb c "<").

(** [s * n] *)
Fixpoint repeat_string (n : nat) (s : string) : string :=
  match n with
  | O => EmptyString
  | S n' => s ++ repeat_string n' s
  end.

(** [sum(flags)] for a list of booleans *)
Definition sum_bools (l : list bool) : nat :=
  List.length (filter (fun b => b) l).

(** [any(flags)] *)
Definition any (l : list bool) : bool := existsb (fun b => b) l.

End Py.

Notation "x <- m ;; k" := (Py.bind m (fun x => k))
  (at level 61, m at next level, right associativity).

(* ================================================================== *)
(** ** utils.py                                                        *)
(* ================================================================== *)

Module Utils.
Import Py.

Record ParseResult : Type := {
  scheme : string;
  netloc : string;
  rest : string
}.

(** A URL scheme is a letter followed by letters, digits, [+], [-]
    or [.]. *)
Definition scheme_char (c : ascii) : bool :=
  is_alnum c || mem_char c "+-.".

Definition valid_scheme (s : string) : bool :=
  match s with
  | EmptyString => false
  | String c _ => is_alpha c && forallb_string scheme_char s
  end.

(** [urllib.parse.urlparse], as far as [validate_url] uses it: tab,
    carriage return and line feed are removed, a leading [scheme:] is split
    off and lowered, and after [//] the network location runs up to the
    first [/], [?] or [#].  A network location with an unmatched square
    bracket is rejected with [ValueError].  The further checks of
    bracketed hosts made by recent Python versions, which also raise
    [ValueError], are not modelled. *)
Definition urlparse (url : string) : result ParseResult :=
  let url := filter_string (fun c => negb (mem_char c (String "009"
               (String "010" (String "013" EmptyString))))) url in
  let (pre, post) := span_until (fun c => Ascii.eqb c ":") url in
  let (sch, url) :=
    match post with
    | String _ after => if valid_scheme pre then (lower pre, after)
                        else (EmptyString, url)
    | EmptyString => (EmptyString, url)
    end in
  if startswith url "//" then
    let (loc, tail) := span_until (fun c => mem_char c "/?#") (drop 2 url) in
    if xorb (mem_char "[" loc) (mem_char "]" loc)
    then Raise (ValueError "Invalid IPv6 URL")
    else Ok {| scheme := sch; netloc := loc; rest := tail |}
  else Ok {| scheme := sch; netloc := EmptyString; rest := url |}.

(** One label of [domain_pattern]:
    [[a-zA-Z0-9]([a-zA-Z0-9\-]{0,61}[a-zA-Z0-9])?]. *)
Definition label_ok (l : string) : bool :=
  match l with
  | EmptyString => false
  | String c t =>
      is_alnum c
      && (String.length l <=? 63)%nat
      && forallb_string (fun x => is_alnum x || Ascii.eqb x "-") t
      && match last_char l with
         | Some z => is_alnum z
         | None => false
         end
  end.

(** [domain_pattern.match(host)]: dot-separated labels. *)
Definition domain_pattern_match (host : string) : bool :=
  forallb label_ok (split_char "." host).

Definition isinstance_str (v : pyval) : bool :=
  match v with
  | VStr _ => true
  | _ => false
  end.

(** [validate_url(url)].  The argument is any Python value; past the
    first test it is a string. *)
Definition validate_url (url : pyval) : result string :=
  if negb (truthy url) || negb (isinstance_str url)
  then Raise (ValueError "URL не может быть пустым")
  else
    match url with
    | VStr s =>
        let url := strip s in
        let url :=
          if startswith url "http://" || startswith url "https://"
          then url else "https://" ++ url in
        try_except
          (parsed <- urlparse url ;;
           if netloc parsed =? ""
           then Raise (ValueError "Невалидный URL: отсутствует домен")
           else if negb (existsb (String.eqb (scheme parsed)) ["http"; "https"])
           then Raise (ValueError "Поддерживаются только HTTP и HTTPS схемы")
           else if negb (domain_pattern_match
                           (hd EmptyString (split_char ":" (netloc parsed))))
           then Raise (ValueError "Невалидный формат домена")
           else Ok url)
          (fun e => Raise (ValueError ("Ошибка валидации URL: " ++ str_exn e)))
    | _ => Raise (TypeError "str expected")
    end.

End Utils.

(* ================================================================== *)
(** ** protection_analyzer.py                                          *)
(* ================================================================== *)

Module Protection.
Import Py.

(** What the code reads of a [requests] response.  [text] stands for both
    [response.text] and [response.content]; header names are matched
    case-insensitively, as [requests] does. *)
Record response : Type := {
  status_code : Z;
  headers : dict string;
  text : string;
  cookies : list string
}.

Fixpoint header_get (name : string) (hs : dict string) : option string :=
  match hs with
  | [] => None
  | (k, v) :: hs' => if lower k =? lower name then Some v else header_get name hs'
  end.

(** [headers.get(name, '')] *)
Definition header_get_default (name : string) (hs : dict string) : string :=
  match header_get name hs with
  | Some v => v
  | None => EmptyString
  end.

(** [name in headers] *)
Definition header_mem (name : string) (hs : dict string) : bool :=
  match header_get name hs with
  | Some _ => true
  | None => false
  end.

(** The environment of one analyzer: the optional capabilities found at
    import time and the outcome of every outbound call, in the order the
    calls are made.  An outcome [Raise e] stands for any exception raised
    by the call expression (transport failure, header generation). *)
Record world : Type := {
  UA_AVAILABLE : bool;
  CLOUDSCRAPER_AVAILABLE : bool;
  SELENIUM_AVAILABLE : bool;
  (** outcome of the n-th HTTP GET (session, fresh session or scraper) *)
  http_get : nat -> result response;
  (** outcome of the n-th [uc.Chrome(options=options)] *)
  chrome_launch : nat -> result unit;
  (** outcome of the n-th [driver.get(url)] and the [page_source] read
      after it *)
  page_source : nat -> result string;
  (** [SequenceMatcher(None, a, b).ratio()] *)
  sequence_ratio : string -> string -> Q;
  (** rendering of a number with one decimal ([:.1f]) *)
  format_1f : Q -> string;
  (** [time.strftime('%Y-%m-%d %H:%M:%S')] *)
  strftime : string
}.

(** The mutable state of the analyzer during a run: how many calls of
    each kind were made, and whether [self.driver] is set. *)
Record state : Type := {
  requests_sent : nat;
  launches : nat;
  navigations : nat;
  driver : bool
}.

Definition fresh : state :=
  {| requests_sent := 0; launches := 0; navigations := 0; driver := false |}.

(** Computations that read the world, update the state and may raise. *)
Definition M (A : Type) : Type := state -> result A * state.

Definition ret {A} (a : A) : M A := fun s => (Ok a, s).

Definition raise {A} (e : exn) : M A := fun s => (Raise e, s).

Definition bindM {A B} (m : M A) (k : A -> M B) : M B :=
  fun s =>
    match m s with
    | (Ok a, s') => k a s'
    | (Raise e, s') => (Raise e, s')
    end.

(** [try: body  except Exception as e: handler e]; the state changes made
    by [body] before it raised are kept. *)
Definition try_catch {A} (body : M A) (handler : exn -> M A) : M A :=
  fun s =>
    match body s with
    | (Ok a, s') => (Ok a, s')
    | (Raise e, s') => handler e s'
    end.

Notation "x <~ m ;; k" := (bindM m (fun x => k))
  (at level 61, m at next level, right associativity).

(** [for x in xs: ...] collecting one result per iteration. *)
Fixpoint for_each {A B} (f : A -> M B) (xs : list A) : M (list B) :=
  match xs with
  | [] => ret []
  | x :: xs' => y <~ f x ;; ys <~ for_each f xs' ;; ret (y :: ys)
  end.

Definition str_nat (n : nat) : string :=
  NilZero.string_of_uint (Nat.to_uint n).

Definition str_Z (z : Z) : string :=
  NilZero.string_of_int (Z.to_int z).

Definition mem_Z (z : Z) (l : list Z) : bool := existsb (Z.eqb z) l.

(** Result of [check_basic_access]; [response_time] is left out. *)
Record basic_access_info : Type := {
  ba_status_code : Z;
  accessible : bool;
  ba_error : option string;
  content_length : nat;
  ba_headers : dict string
}.

(** One entry of the per-request logs of the User-Agent and rate-limit
    probes: the agent or the request number, the status, the verdict.
    Sizes and timings are left out. *)
Record attempt : Type := {
  label : string;
  at_status_code : Z;
  blocked : bool;
  at_error : option string
}.

Record ua_report : Type := {
  ua_results : list attempt;
  ua_protection_detected : bool;
  protection_strength : Q;
  ua_description : string
}.

(** Result of [check_rate_limiting]; the wall-clock fields [total_time]
    and [requests_per_second] are not part of the model. *)
Record rate_report : Type := {
  rl_results : list attempt;
  total_requests : nat;
  blocked_requests : nat;
  rl_protection_detected : bool;
  rl_description : string
}.

(** Result of the Cloudflare and CAPTCHA probes. *)
Record detect_report : Type := {
  dr_detected : bool;
  dr_indicators_found : option nat;
  dr_error : option string;
  dr_description : string
}.

Record js_report : Type := {
  js_required : bool;
  js_indicators_found : option nat;
  content_difference : option Q;
  js_error : option string;
  js_description : string
}.

Record cookie_report : Type := {
  cookies_used : bool;
  cookies_count : option nat;
  ck_error : option string;
  ck_description : string
}.

Record bypass_attempt : Type := {
  success : bool;
  bp_status_code : option Z;
  bp_error : option string;
  bp_description : string
}.

(** An entry of [results['mechanisms']]. *)
Record finding : Type := {
  detected : bool;
  score : Z;
  description : string
}.

(** The dictionary returned by [analyze].  [best_method] and
    [bypass_success_rate] are set on the normal path only. *)
Record report : Type := {
  url : string;
  timestamp : string;
  mechanisms : dict finding;
  bypass_methods : dict bypass_attempt;
  total_score : Z;
  complexity_level : string;
  best_method : option string;
  bypass_success_rate : option Q
}.

Definition set_mechanism (k : string) (f : finding) (r : report) : report :=
  {| url := url r; timestamp := timestamp r;
     mechanisms := dict_set k f (mechanisms r);
     bypass_methods := bypass_methods r; total_score := total_score r;
     complexity_level := complexity_level r; best_method := best_method r;
     bypass_success_rate := bypass_success_rate r |}.

Definition set_bypass_methods (m : dict bypass_attempt) (r : report) : report :=
  {| url := url r; timestamp := timestamp r; mechanisms := mechanisms r;
     bypass_methods := m; total_score := total_score r;
     complexity_level := complexity_level r; best_method := best_method r;
     bypass_success_rate := bypass_success_rate r |}.

Definition set_total_score (n : Z) (r : report) : report :=
  {| url := url r; timestamp := timestamp r; mechanisms := mechanisms r;
     bypass_methods := bypass_methods r; total_score := n;
     complexity_level := complexity_level r; best_method := best_method r;
     bypass_success_rate := bypass_success_rate r |}.

Definition set_complexity_level (l : string) (r : report) : report :=
  {| url := url r; timestamp := timestamp r; mechanisms := mechanisms r;
     bypass_methods := bypass_methods r; total_score := total_score r;
     complexity_level := l; best_method := best_method r;
     bypass_success_rate := bypass_success_rate r |}.

Definition set_best_method (m : string) (rate : Q) (r : report) : report :=
  {| url := url r; timestamp := timestamp r; mechanisms := mechanisms r;
     bypass_methods := bypass_methods r; total_score := total_score r;
     complexity_level := complexity_level r; best_method := Some m;
     bypass_success_rate := Some rate |}.

(** [sum(mechanism['score'] for mechanism in mechanisms.values())] *)
Definition sum_scores (m : dict finding) : Z :=
  fold_left Z.add (map score (values m)) 0%Z.

Section Probes.

Variable w : world.

(** One HTTP GET: the next outcome of the world. *)
Definition http_request : M response :=
  fun s =>
    (http_get w (requests_sent s),
     {| requests_sent := S (requests_sent s); launches := launches s;
        navigations := navigations s; driver := driver s |}).

(** [if not self.driver: self.driver = uc.Chrome(options=options)] *)
Definition ensure_driver : M unit :=
  fun s =>
    if driver s then (Ok tt, s)
    else
      match chrome_launch w (launches s) with
      | Ok _ =>
          (Ok tt,
           {| requests_sent := requests_sent s; launches := S (launches s);
              navigations := navigations s; driver := true |})
      | Raise e =>
          (Raise e,
           {| requests_sent := requests_sent s; launches := S (launches s);
              navigations := navigations s; driver := false |})
      end.

(** [self.driver.get(url)], the pause, and [self.driver.page_source] *)
Definition driver_get : M string :=
  fun s =>
    (page_source w (navigations s),
     {| requests_sent := requests_sent s; launches := launches s;
        navigations := S (navigations s); driver := driver s |}).

Definition check_basic_access : M basic_access_info :=
  try_catch
    (response <~ http_request ;;
     ret {| ba_status_code := status_code response;
            accessible := (status_code response =? 200)%Z;
            ba_error := None;
            content_length := String.length (text response);
            ba_headers := headers response |})
    (fun e =>
       ret {| ba_status_code := 0; accessible := false;
              ba_error := Some (str_exn e); content_length := 0;
              ba_headers := [] |}).

Definition user_agents : list string :=
  [ "Mozilla/5.0 (Windows NT 10.0; Win64; x64) AppleWebKit/537.36";
    "Python-requests/2.25.1";
    "curl/7.68.0";
    "bot/1.0" ].

Definition count_blocked (results : list attempt) : nat :=
  List.length (filter blocked results).

Definition check_user_agent_protection : M ua_report :=
  results <~ for_each
    (fun ua =>
       try_catch
         (response <~ http_request ;;
          ret {| label := ua; at_status_code := status_code response;
                 blocked := mem_Z (status_code response) [403; 429; 503]%Z;
                 at_error := None |})
         (fun e =>
            ret {| label := ua; at_status_code := 0; blocked := true;
                   at_error := Some (str_exn e) |}))
    user_agents ;;
  let blocked_count := count_blocked results in
  ret {| ua_results := results;
         ua_protection_detected := (0 <? blocked_count)%nat;
         protection_strength :=
           Qmake (Z.of_nat blocked_count) (Pos.of_nat (List.length results));
         ua_description :=
           "Заблокировано " ++ str_nat blocked_count ++ " из "
           ++ str_nat (List.length results) ++ " User-Agent" |}.

Definition request_count : nat := 10.

Definition check_rate_limiting : M rate_report :=
  results <~ for_each
    (fun i =>
       try_catch
         (response <~ http_request ;;
          ret {| label := str_nat (i + 1);
                 at_status_code := status_code response;
                 blocked := mem_Z (status_code response) [429; 503]%Z;
                 at_error := None |})
         (fun e =>
            ret {| label := str_nat (i + 1); at_status_code := 0;
                   blocked := true; at_error := Some (str_exn e) |}))
    (seq 0 request_count) ;;
  let blocked_count := count_blocked results in
  ret {| rl_results := results;
         total_requests := request_count;
         blocked_requests := blocked_count;
         rl_protection_detected := (0 <? blocked_count)%nat;
         rl_description :=
           "Заблокировано " ++ str_nat blocked_count ++ " из "
           ++ str_nat request_count ++ " запросов" |}.

Definition check_cloudflare_protection : M detect_report :=
  try_catch
    (response <~ http_request ;;
     let cf_indicators :=
       [ contains "cloudflare"
           (lower (header_get_default "server" (headers response)));
         header_mem "cf-ray" (headers response);
         contains "__cfduid"
           (header_get_default "set-cookie" (headers response));
         contains "checking your browser" (lower (text response));
         contains "cloudflare ray id" (lower (text response));
         contains "cf-browser-verification" (text response) ] in
     let detected := any cf_indicators in
     ret {| dr_detected := detected;
            dr_indicators_found := Some (sum_bools cf_indicators);
            dr_error := None;
            dr_description :=
              if detected then "Cloudflare обнаружен"
              else "Cloudflare не обнаружен" |})
    (fun e =>
       ret {| dr_detected := false; dr_indicators_found := None;
              dr_error := Some (str_exn e);
              dr_description := "Ошибка проверки Cloudflare" |}).

(** The five indicators of the heuristic used without a headless
    browser.  The pattern [<script] is matched with [re.I], which also
    folds the letters beyond ASCII ([match_ci]); the three words are
    looked for in the lowered body, and no letter beyond ASCII is lowered
    to a letter that completes one of them; the length is that of the
    text, in characters. *)
Definition js_indicators (content_no_js : string) : list bool :=
  [ (10 <? count_findall_ci "<script" content_no_js)%nat;
    contains "loading" (lower content_no_js);
    contains "please wait" (lower content_no_js);
    contains "javascript" (lower content_no_js);
    (len_chars content_no_js <? 1000)%nat ].

Definition js_error_report (e : exn) : js_report :=
  {| js_required := false; js_indicators_found := None;
     content_difference := None; js_error := Some (str_exn e);
     js_description := "Ошибка проверки JavaScript" |}.

Definition check_javascript_protection : M js_report :=
  try_catch
    (response_no_js <~ http_request ;;
     let content_no_js := text response_no_js in
     if SELENIUM_AVAILABLE w then
       try_catch
         (_ <~ ensure_driver ;;
          content_with_js <~ driver_get ;;
          let similarity := sequence_ratio w content_no_js content_with_js in
          let difference := Qminus (1 # 1) similarity in
          ret {| js_required := negb (Qle_bool difference (3 # 10));
                 js_indicators_found := None;
                 content_difference := Some (Qmult difference (100 # 1));
                 js_error := None;
                 js_description :=
                   "Контент различается на "
                   ++ format_1f w (Qmult difference (100 # 1)) ++ "%" |})
         (fun e => ret (js_error_report e))
     else
       let indicators := js_indicators content_no_js in
       let detected := (2 <=? sum_bools indicators)%nat in
       ret {| js_required := detected;
              js_indicators_found := Some (sum_bools indicators);
              content_difference := None;
              js_error := None;
              js_description :=
                if detected then "JavaScript возможно требуется"
                else "JavaScript не требуется" |})
    (fun e => ret (js_error_report e)).

Definition check_captcha_protection : M detect_report :=
  try_catch
    (response <~ http_request ;;
     let content := lower (text response) in
     let captcha_indicators :=
       [ contains "recaptcha" content;
         contains "captcha" content;
         contains "hcaptcha" content;
         contains "solve the puzzle" content;
         contains "verify you are human" content;
         contains "geetest" content ] in
     let detected := any captcha_indicators in
     ret {| dr_detected := detected;
            dr_indicators_found := Some (sum_bools captcha_indicators);
            dr_error := None;
            dr_description :=
              if detected then "Капча обнаружена" else "Капча не обнаружена" |})
    (fun e =>
       ret {| dr_detected := false; dr_indicators_found := None;
              dr_error := Some (str_exn e);
              dr_description := "Ошибка проверки капчи" |}).

Definition check_cookie_requirements : M cookie_report :=
  try_catch
    (response_no_cookies <~ http_request ;;
     response_with_cookies <~ http_request ;;
     let count := List.length (cookies response_with_cookies) in
     ret {| cookies_used := (0 <? count)%nat;
            cookies_count := Some count;
            ck_error := None;
            ck_description :=
              "Используется " ++ str_nat count ++ " cookies" |})
    (fun e =>
       ret {| cookies_used := false; cookies_count := None;
              ck_error := Some (str_exn e);
              ck_description := "Ошибка проверки cookies" |}).

(** One HTTP-based bypass method: [success] is a 200 status. *)
Definition http_method (description : string) : M bypass_attempt :=
  try_catch
    (response <~ http_request ;;
     ret {| success := (status_code response =? 200)%Z;
            bp_status_code := Some (status_code response);
            bp_error := None; bp_description := description |})
    (fun e =>
       ret {| success := false; bp_status_code := None;
              bp_error := Some (str_exn e); bp_description := description |}).

Definition chrome_method : M bypass_attempt :=
  try_catch
    (_ <~ ensure_driver ;;
     source <~ driver_get ;;
     ret {| success := negb (contains "error" (lower source));
            bp_status_code := None; bp_error := None;
            bp_description := "Undetected Chrome" |})
    (fun e =>
       ret {| success := false; bp_status_code := None;
              bp_error := Some (str_exn e);
              bp_description := "Undetected Chrome" |}).

Definition test_bypass_methods : M (dict bypass_attempt) :=
  let methods := [] in
  m <~ http_method "Стандартный requests" ;;
  let methods := dict_set "requests" m methods in
  m <~ http_method "Requests с сессией" ;;
  let methods := dict_set "requests_session" m methods in
  methods <~ (if UA_AVAILABLE w
              then m <~ http_method "Fake User-Agent" ;;
                   ret (dict_set "fake_useragent" m methods)
              else ret methods) ;;
  methods <~ (if CLOUDSCRAPER_AVAILABLE w
              then m <~ http_method "CloudScraper" ;;
                   ret (dict_set "cloudscraper" m methods)
              else ret methods) ;;
  methods <~ (if SELENIUM_AVAILABLE w
              then m <~ chrome_method ;;
                   ret (dict_set "undetected_chrome" m methods)
              else ret methods) ;;
  ret methods.

(** The tier of a total score. *)
Definition level_of_score (total : Z) : string :=
  if (80 <=? total)%Z then "CRITICAL"
  else if (60 <=? total)%Z then "HIGH"
  else if (40 <=? total)%Z then "MEDIUM"
  else "LOW".

Definition basic_access_finding (b : basic_access_info) : finding :=
  {| detected := accessible b;
     score := if accessible b then 10%Z else 0%Z;
     description :=
       "Статус: " ++ str_Z (ba_status_code b) ++ ", Размер: "
       ++ str_nat (content_length b) ++ " байт" |}.

Definition analyze (url : string) : M report :=
  let results :=
    {| url := url; timestamp := strftime w; mechanisms := [];
       bypass_methods := []; total_score := 0; complexity_level := "LOW";
       best_method := None; bypass_success_rate := None |} in
  basic_access <~ check_basic_access ;;
  let results :=
    set_mechanism "basic_access" (basic_access_finding basic_access) results in
  if negb (accessible basic_access) then
    let results := set_total_score 100 results in
    let results := set_complexity_level "CRITICAL" results in
    ret results
  else
    ua_protection <~ check_user_agent_protection ;;
    let results :=
      set_mechanism "user_agent"
        {| detected := ua_protection_detected ua_protection;
           score := if ua_protection_detected ua_protection then 20%Z else 5%Z;
           description := ua_description ua_protection |} results in
    rate_limiting <~ check_rate_limiting ;;
    let results :=
      set_mechanism "rate_limiting"
        {| detected := rl_protection_detected rate_limiting;
           score := if rl_protection_detected rate_limiting then 15%Z else 5%Z;
           description := rl_description rate_limiting |} results in
    cloudflare <~ check_cloudflare_protection ;;
    let results :=
      set_mechanism "cloudflare"
        {| detected := dr_detected cloudflare;
           score := if dr_detected cloudflare then 25%Z else 0%Z;
           description := dr_description cloudflare |} results in
    javascript <~ check_javascript_protection ;;
    let results :=
      set_mechanism "javascript"
        {| detected := js_required javascript;
           score := if js_required javascript then 30%Z else 10%Z;
           description := js_description javascript |} results in
    captcha <~ check_captcha_protection ;;
    let results :=
      set_mechanism "captcha"
        {| detected := dr_detected captcha;
           score := if dr_detected captcha then 40%Z else 0%Z;
           description := dr_description captcha |} results in
    cookies <~ check_cookie_requirements ;;
    let results :=
      set_mechanism "cookies"
        {| detected := cookies_used cookies;
           score := if cookies_used cookies then 10%Z else 5%Z;
           description := ck_description cookies |} results in
    methods <~ test_bypass_methods ;;
    let results := set_bypass_methods methods results in
    let results := set_total_score (sum_scores (mechanisms results)) results in
    let results :=
      set_complexity_level (level_of_score (total_score results)) results in
    let successful_methods :=
      keys (filter (fun kv => success (snd kv)) (bypass_methods results)) in
    match successful_methods with
    | first :: _ =>
        ret (set_best_method first
               (Qmult (Qmake (Z.of_nat (List.length successful_methods))
                         (Pos.of_nat (List.length (bypass_methods results))))
                      (100 # 1))
               results)
    | [] => ret (set_best_method "selenium" (0 # 1) results)
    end.

End Probes.

(** *** Notions used to state the properties of the probes *)

(** A computation returns normally from every state. *)
Definition returns {A} (m : M A) : Prop :=
  forall s, exists a s', m s = (Ok a, s').

(** A computation issues exactly [n] HTTP requests, whatever their
    outcome. *)
Definition sends {A} (n : nat) (m : M A) : Prop :=
  forall s, requests_sent (snd (m s)) = requests_sent s + n.

(** What the basic-access probe reports when it is run in state [s]. *)
Definition reports_accessible (w : world) (s : state) : bool :=
  match fst (check_basic_access w s) with
  | Ok b => accessible b
  | Raise _ => false
  end.

(** The findings recorded on the normal path, from the probe results. *)
Definition normal_mechanisms (b : basic_access_info) (ua : ua_report)
    (rl : rate_report) (cf : detect_report) (js : js_report)
    (cp : detect_report) (ck : cookie_report) : dict finding :=
  [ ("basic_access", basic_access_finding b);
    ("user_agent",
     {| detected := ua_protection_detected ua;
        score := if ua_protection_detected ua then 20%Z else 5%Z;
        description := ua_description ua |});
    ("rate_limiting",
     {| detected := rl_protection_detected rl;
        score := if rl_protection_detected rl then 15%Z else 5%Z;
        description := rl_description rl |});
    ("cloudflare",
     {| detected := dr_detected cf;
        score := if dr_detected cf then 25%Z else 0%Z;
        description := dr_description cf |});
    ("javascript",
     {| detected := js_required js;
        score := if js_required js then 30%Z else 10%Z;
        description := js_description js |});
    ("captcha",
     {| detected := dr_detected cp;
        score := if dr_detected cp then 40%Z else 0%Z;
        description := dr_description cp |});
    ("cookies",
     {| detected := cookies_used ck;
        score := if cookies_used ck then 10%Z else 5%Z;
        description := ck_description ck |}) ].

(** *** Sample environments *)

Definition no_browser (http : nat -> result response) : world :=
  {| UA_AVAILABLE := false; CLOUDSCRAPER_AVAILABLE := false;
     SELENIUM_AVAILABLE := false;
     http_get := http;
     chrome_launch := fun _ => Raise (Exception "chrome not installed");
     page_source := fun _ => Raise (Exception "no driver");
     sequence_ratio := fun _ _ => (1 # 1)%Q;
     format_1f := fun _ => "0.0";
     strftime := "2025-09-14 12:00:00" |}.

Definition page (status : Z) (body : string) : response :=
  {| status_code := status; headers := []; text := body; cookies := [] |}.

(** Every request is answered 200 with a small static page. *)
Definition plain_site : world :=
  no_browser (fun _ => Ok (page 200 "<html><body>hello</body></html>")).

(** Every request is answered 503. *)
Definition unavailable_site : world :=
  no_browser (fun _ => Ok (page 503 "Service Unavailable")).

(** No request can be performed (name resolution fails). *)
Definition unreachable_site : world :=
  no_browser (fun _ => Raise (RequestError "Name or service not known")).

(** A page that is served, but shows a loader until scripts run. *)
Definition loader_site : world :=
  no_browser (fun _ => Ok (page 200 "<html>Loading... please wait</html>")).

(** A page of 600 Cyrillic letters and the word [javascript]: 611
    characters, 1211 bytes. *)
Definition cyrillic_body : string := repeat_string 600 "я" ++ " javascript".

Definition cyrillic_site : world :=
  no_browser (fun _ => Ok (page 200 cyrillic_body)).

(** The site answers the first request and none after it. *)
Definition dropping_site : world :=
  no_browser (fun n => match n with
                       | O => Ok (page 200 "<html>hello</html>")
                       | S _ => Raise (RequestError "Connection reset by peer")
                       end).

End Protection.

(* ================================================================== *)
(** ** structure_analyzer.py                                           *)
(* ================================================================== *)

Module Structure.
Import Py.

(** *** The parsed document

    A parsed page is a forest of nodes.  Two [Tag] objects of
    BeautifulSoup are equal (and hash alike) when they have the same name,
    attributes and contents, which is equality of [node] values. *)
#[warnings="-register-all"]
Inductive node : Type :=
| Element (name : string) (attrs : dict string) (children : list node)
| Text (s : string).

Definition soup : Type := list node.

Fixpoint attrs_eqb (a b : dict string) : bool :=
  match a, b with
  | [], [] => true
  | (k, v) :: a', (k', v') :: b' => (k =? k') && (v =? v') && attrs_eqb a' b'
  | _, _ => false
  end.

Fixpoint node_eqb (a b : node) : bool :=
  match a, b with
  | Text s, Text t => s =? t
  | Element n at1 ch1, Element m at2 ch2 =>
      (n =? m) && attrs_eqb at1 at2
      && (fix all_eqb (l1 l2 : list node) : bool :=
            match l1, l2 with
            | [], [] => true
            | x :: l1', y :: l2' => node_eqb x y && all_eqb l1' l2'
            | _, _ => false
            end) ch1 ch2
  | _, _ => false
  end.

(** [set(...)] of elements, as the list of its distinct members in order
    of first occurrence. *)
Fixpoint distinct (l : list node) : list node :=
  match l with
  | [] => []
  | x :: l' => x :: filter (fun y => negb (node_eqb x y)) (distinct l')
  end.

(** The element itself and the elements below it, in document order. *)
Fixpoint elements_of (n : node) : list node :=
  match n with
  | Text _ => []
  | Element _ _ ch => n :: flat_map elements_of ch
  end.

(** [soup.find_all()] *)
Definition find_all (s : soup) : list node := flat_map elements_of s.

(** [element.get_text()] *)
Fixpoint get_text (n : node) : string :=
  match n with
  | Text s => s
  | Element _ _ ch => fold_right (fun c acc => get_text c ++ acc) EmptyString ch
  end.

Definition tag_name (n : node) : string :=
  match n with
  | Element name _ _ => name
  | Text _ => EmptyString
  end.

(** [element.get(attr)] *)
Definition get_attr (attr : string) (n : node) : option string :=
  match n with
  | Element _ attrs _ => dict_get attr attrs
  | Text _ => None
  end.

(** Whitespace-separated tokens of an attribute value. *)
Fixpoint words_from (current : string) (s : string) : list string :=
  match s with
  | EmptyString =>
      match current with EmptyString => [] | _ => [current] end
  | String c t =>
      if is_space c
      then match current with
           | EmptyString => words_from EmptyString t
           | _ => current :: words_from EmptyString t
           end
      else words_from (current ++ String c EmptyString) t
  end.

Definition words (s : string) : list string := words_from EmptyString s.

(** *** CSS selectors

    The selector patterns of the tables below use a tag name, attribute
    tests and comma-separated alternatives. *)
Inductive attr_test : Type :=
| HasAttr (attr : string)                    (* [attr]          *)
| AttrContains (attr value : string)         (* [attr*="value"] *)
| AttrEquals (attr value : string)           (* [attr="value"]  *)
| HasClass (cls : string).                   (* .cls            *)

Record compound : Type := {
  sel_tag : option string;
  sel_tests : list attr_test
}.

(** A selector is a comma-separated list of compound selectors. *)
Definition css : Type := list compound.

Definition tag (t : string) : css := [{| sel_tag := Some t; sel_tests := [] |}].
Definition class_contains (v : string) : css :=
  [{| sel_tag := None; sel_tests := [AttrContains "class" v] |}].
Definition attr_contains (a v : string) : css :=
  [{| sel_tag := None; sel_tests := [AttrContains a v] |}].
Definition has_attr (a : string) : css :=
  [{| sel_tag := None; sel_tests := [HasAttr a] |}].
Definition attr_equals (a v : string) : css :=
  [{| sel_tag := None; sel_tests := [AttrEquals a v] |}].
Definition tag_class (t c : string) : css :=
  [{| sel_tag := Some t; sel_tests := [HasClass c] |}].
Definition tag_attr (t a : string) : css :=
  [{| sel_tag := Some t; sel_tests := [HasAttr a] |}].
Definition tags (ts : list string) : css :=
  map (fun t => {| sel_tag := Some t; sel_tests := [] |}) ts.

Definition dquote : string := String (ascii_of_nat 34) EmptyString.

Definition attr_test_text (t : attr_test) : string :=
  match t with
  | HasAttr a => "[" ++ a ++ "]"
  | AttrContains a v => "[" ++ a ++ "*=" ++ dquote ++ v ++ dquote ++ "]"
  | AttrEquals a v => "[" ++ a ++ "=" ++ dquote ++ v ++ dquote ++ "]"
  | HasClass c => "." ++ c
  end.

Definition compound_text (c : compound) : string :=
  match sel_tag c with Some t => t | None => EmptyString end
  ++ String.concat EmptyString (map attr_test_text (sel_tests c)).

(** The pattern as it is written in the source. *)
Definition css_text (sel : css) : string :=
  String.concat ", " (map compound_text sel).

Definition test_matches (n : node) (t : attr_test) : bool :=
  match t with
  | HasAttr a =>
      match get_attr a n with Some _ => true | None => false end
  | AttrContains a v =>
      match get_attr a n with Some x => contains v x | None => false end
  | AttrEquals a v =>
      match get_attr a n with Some x => x =? v | None => false end
  | HasClass c =>
      match get_attr "class" n with
      | Some x => existsb (String.eqb c) (words x)
      | None => false
      end
  end.

Definition compound_matches (n : node) (c : compound) : bool :=
  match sel_tag c with
  | Some t => tag_name n =? t
  | None => true
  end
  && forallb (test_matches n) (sel_tests c).

(** [soup.select(pattern)]: the matching elements in document order. *)
Definition select (pattern : css) (s : soup) : list node :=
  filter (fun n => existsb (compound_matches n) pattern) (find_all s).

(** [soup.find_all(attrs={attr: re.compile(keyword, re.I)})]: the
    elements whose attribute [attr] contains [keyword], whatever the
    case. *)
Definition find_all_attr_re (attr keyword : string) (s : soup) : list node :=
  filter
    (fun n =>
       match get_attr attr n with
       | Some x => contains (lower keyword) (lower x)
       | None => false
       end)
    (find_all s).

(** *** Content types *)

Record type_config : Type := {
  selectors : list css;
  keywords : list string
}.

(** The table [patterns] of [detect_content_types]. *)
Definition patterns : dict type_config :=
  [ ("products",
     {| selectors :=
          [ class_contains "product"; class_contains "item";
            class_contains "card"; has_attr "data-product";
            has_attr "data-item"; attr_contains "itemtype" "Product";
            class_contains "goods"; class_contains "catalog" ];
        keywords :=
          ["price"; "buy"; "cart"; "product"; "item"; "товар"; "цена"] |});
    ("articles",
     {| selectors :=
          [ tag "article"; class_contains "article"; class_contains "post";
            class_contains "news"; class_contains "blog";
            class_contains "content" ];
        keywords :=
          ["read"; "article"; "post"; "news"; "blog"; "статья"; "новости"] |});
    ("navigation",
     {| selectors :=
          [ tag "nav"; class_contains "nav"; class_contains "menu";
            class_contains "breadcrumb"; attr_equals "role" "navigation";
            tag_class "ul" "menu"; tag_class "ul" "nav" ];
        keywords :=
          ["menu"; "navigation"; "nav"; "breadcrumb"; "меню"; "навигация"] |});
    ("forms",
     {| selectors :=
          [ tag "form"; class_contains "form"; class_contains "search";
            class_contains "contact"; class_contains "subscribe";
            tag "input"; tag "textarea" ];
        keywords :=
          ["form"; "search"; "contact"; "subscribe"; "login"; "форма";
           "поиск"] |});
    ("lists",
     {| selectors :=
          [ class_contains "list"; class_contains "grid";
            class_contains "catalog"; tag "ul"; tag "ol";
            class_contains "items"; tag "table" ];
        keywords :=
          ["list"; "grid"; "catalog"; "items"; "collection"; "список";
           "каталог"] |});
    ("media",
     {| selectors :=
          [ tag "img"; tag "video"; tag "audio"; class_contains "image";
            class_contains "photo"; class_contains "gallery"; tag "picture" ];
        keywords :=
          ["image"; "photo"; "gallery"; "video"; "media"; "изображение";
           "фото"] |});
    ("text_content",
     {| selectors :=
          [ tag "p"; tag "div"; tag "span"; class_contains "text";
            class_contains "description"; class_contains "content" ];
        keywords :=
          ["text"; "description"; "content"; "paragraph"; "текст";
           "описание"] |}) ].

(** The elements collected for one content type: by selector, then by
    keyword in [class] and in [id]. *)
Definition elements_found (s : soup) (config : type_config) : list node :=
  (flat_map (fun selector => select selector s) (selectors config)
   ++ flat_map
        (fun keyword =>
           find_all_attr_re "class" keyword s
           ++ find_all_attr_re "id" keyword s)
        (keywords config))%list.

Definition detect_content_types (s : soup) : dict nat :=
  fold_left
    (fun content_types entry =>
       dict_set (fst entry)
         (List.length (distinct (elements_found s (snd entry))))
         content_types)
    patterns [].

(** *** Selector synthesis *)

(** An entry of a candidate list.  Entries of the content categories
    carry [sample_text], entries of the common selectors carry
    [cand_description]. *)
Record candidate : Type := {
  selector : string;
  count : nat;
  sample_text : option string;
  cand_description : option string
}.

(** The table [content_patterns] of [generate_selectors]. *)
Definition content_patterns : dict (list css) :=
  [ ("products",
     [class_contains "product"; class_contains "item"; class_contains "card"]);
    ("articles",
     [tag "article"; class_contains "article"; class_contains "post"]);
    ("navigation", [tag "nav"; class_contains "menu"; class_contains "nav"]);
    ("forms", [tag "form"; class_contains "form"]);
    ("lists", [tag "ul"; tag "ol"; class_contains "list"]) ].

(** The table [common_selectors] of [generate_selectors]. *)
Definition common_selectors : dict css :=
  [ ("all_links", tag_attr "a" "href");
    ("all_images", tag_attr "img" "src");
    ("all_forms", tag "form");
    ("all_inputs", tags ["input"; "textarea"; "select"]);
    ("headings", tags ["h1"; "h2"; "h3"; "h4"; "h5"; "h6"]);
    ("paragraphs", tag "p");
    ("lists", tags ["ul"; "ol"]);
    ("tables", tag "table") ].

(** [sorted(l, key=lambda x: x['count'], reverse=True)]: Python's sort is
    stable, also with [reverse=True]. *)
Fixpoint insert_desc (x : candidate) (l : list candidate) : list candidate :=
  match l with
  | [] => [x]
  | y :: l' =>
      if (count x <? count y)%nat then y :: insert_desc x l' else x :: l
  end.

Fixpoint sorted_by_count_desc (l : list candidate) : list candidate :=
  match l with
  | [] => []
  | x :: l' => insert_desc x (sorted_by_count_desc l')
  end.

(** The list [type_selectors] built by the inner loop: one entry for each
    pattern that matches at least one element, in pattern order. *)
Definition type_selectors (s : soup) (pats : list css) : list candidate :=
  flat_map
    (fun pattern =>
       match select pattern s with
       | [] => []
       | (first :: _) as elements =>
           [ {| selector := css_text pattern;
                count := List.length elements;
                sample_text := Some (take_chars 100 (strip (get_text first)));
                cand_description := None |} ]
       end)
    pats.

Fixpoint replace_char (a b : ascii) (s : string) : string :=
  match s with
  | EmptyString => EmptyString
  | String c t =>
      String (if Ascii.eqb c a then b else c) (replace_char a b t)
  end.

(** Body of the loop over [content_patterns]: the category gets a key
    only when its candidate list is not empty ([if type_selectors:]). *)
Definition add_category (s : soup) (selectors : dict (list candidate))
    (entry : string * list css) : dict (list candidate) :=
  let type_selectors := type_selectors s (snd entry) in
  match type_selectors with
  | [] => selectors
  | _ => dict_set (fst entry) (sorted_by_count_desc type_selectors) selectors
  end.

(** Body of the loop over [common_selectors]. *)
Definition add_common (s : soup) (selectors : dict (list candidate))
    (entry : string * css) : dict (list candidate) :=
  let elements := select (snd entry) s in
  match elements with
  | [] => selectors
  | _ =>
      dict_set ("common_" ++ fst entry)
        [ {| selector := css_text (snd entry);
             count := List.length elements;
             sample_text := None;
             cand_description :=
               Some ("Все " ++ replace_char "_" " " (fst entry)) |} ]
        selectors
  end.

(** [generate_selectors(soup, content_types)]; the second argument is not
    used.  Every pattern of the two tables is well formed, so [select]
    does not raise and the [except] arms are not entered. *)
Definition generate_selectors (s : soup) (content_types : dict nat)
  : dict (list candidate) :=
  let selectors := fold_left (add_category s) content_patterns [] in
  fold_left (add_common s) common_selectors selectors.

(** *** The two passes as operations on the document

    Both passes work on the document object that [analyze] hands to
    them.  An operation takes the document and gives its result
    together with the document that it leaves.  [select], [find_all] and
    [get_text] build new lists and strings and leave the tree as it
    is. *)
Definition reading (A : Type) : Type := soup -> A * soup.

Definition read_ret {A} (a : A) : reading A := fun s => (a, s).

Definition read_bind {A B} (m : reading A) (k : A -> reading B) : reading B :=
  fun s => let (a, s') := m s in k a s'.

(** A [for] loop that updates [b]. *)
Fixpoint read_fold {A B} (f : B -> A -> reading B) (l : list A) (b : B)
  : reading B :=
  match l with
  | [] => read_ret b
  | x :: l' => read_bind (f b x) (read_fold f l')
  end.

(** [soup.select(selector)] *)
Definition soup_select (selector : css) : reading (list node) :=
  fun s => (select selector s, s).

(** [soup.find_all(attrs={attr: re.compile(keyword, re.I)})] *)
Definition soup_find_all (attr keyword : string) : reading (list node) :=
  fun s => (find_all_attr_re attr keyword s, s).

(** [element.get_text()] *)
Definition tag_get_text (element : node) : reading string :=
  fun s => (get_text element, s).

Module OnDocument.

(** The body of the loop of [detect_content_types] over [patterns]; the
    set [elements_found] is kept as the list of what was added to it. *)
Definition count_type (content_types : dict nat)
    (entry : string * type_config) : reading (dict nat) :=
  read_bind
    (read_fold
       (fun elements_found selector =>
          read_bind (soup_select selector)
            (fun found => read_ret (elements_found ++ found)%list))
       (selectors (snd entry)) [])
    (fun elements_found =>
       read_bind
         (read_fold
            (fun elements_found keyword =>
               read_bind (soup_find_all "class" keyword)
                 (fun class_elements =>
                    read_bind (soup_find_all "id" keyword)
                      (fun id_elements =>
                         read_ret
                           (elements_found ++ class_elements ++ id_elements)%list)))
            (keywords (snd entry)) elements_found)
         (fun elements_found =>
            read_ret
              (dict_set (fst entry) (List.length (distinct elements_found))
                 content_types))).

Definition detect_content_types : reading (dict nat) :=
  read_fold count_type patterns [].

(** The inner loop of [generate_selectors] over the patterns of one
    content type. *)
Definition collect_pattern (type_selectors : list candidate) (pattern : css)
  : reading (list candidate) :=
  read_bind (soup_select pattern)
    (fun elements =>
       match elements with
       | [] => read_ret type_selectors
       | first :: _ =>
           read_bind (tag_get_text first)
             (fun text =>
                read_ret
                  (type_selectors
                   ++ [ {| selector := css_text pattern;
                           count := List.length elements;
                           sample_text := Some (take_chars 100 (strip text));
                           cand_description := None |} ])%list)
       end).

Definition add_category (selectors : dict (list candidate))
    (entry : string * list css) : reading (dict (list candidate)) :=
  read_bind (read_fold collect_pattern (snd entry) [])
    (fun type_selectors =>
       match type_selectors with
       | [] => read_ret selectors
       | _ =>
           read_ret
             (dict_set (fst entry) (sorted_by_count_desc type_selectors)
                selectors)
       end).

Definition add_common (selectors : dict (list candidate))
    (entry : string * css) : reading (dict (list candidate)) :=
  read_bind (soup_select (snd entry))
    (fun elements =>
       match elements with
       | [] => read_ret selectors
       | _ =>
           read_ret
             (dict_set ("common_" ++ fst entry)
                [ {| selector := css_text (snd entry);
                     count := List.length elements;
                     sample_text := None;
                     cand_description :=
                       Some ("Все " ++ replace_char "_" " " (fst entry)) |} ]
                selectors)
       end).

Definition generate_selectors (content_types : dict nat)
  : reading (dict (list candidate)) :=
  read_bind (read_fold add_category content_patterns [])
    (fun selectors => read_fold add_common common_selectors selectors).

End OnDocument.

(** One run of content detection and selector synthesis, as [analyze]
    chains them on the document, together with the document that the
    run leaves. *)
Definition classification_run : reading (dict nat * dict (list candidate)) :=
  read_bind OnDocument.detect_content_types
    (fun content_types =>
       read_bind (OnDocument.generate_selectors content_types)
         (fun selectors => read_ret (content_types, selectors))).

(** The candidates are in descending order of match count. *)
Definition count_desc (a b : candidate) : Prop := count b <= count a.

(** The candidates of [l] that have [n] matches, in the order of [l]. *)
Definition with_count (n : nat) (l : list candidate) : list candidate :=
  filter (fun c => (count c =? n)%nat) l.

(** *** The whole analysis *)

(** What [get_page_content] reads of the HTTP response: the status, the
    declared encoding (there may be none) and what the HTML parser makes
    of the body. *)
Record page_response : Type := {
  page_status : Z;
  encoding : option string;
  parsed : result soup
}.

Record world : Type := {
  (** outcome of [self.session.get(url, ...)] *)
  fetch : result page_response;
  (** [time.strftime('%Y-%m-%d %H:%M:%S')] *)
  strftime : string
}.

(** [response.raise_for_status()] *)
Definition raise_for_status (r : page_response) : result unit :=
  if ((400 <=? page_status r) && (page_status r <? 600))%Z
  then Raise (RequestError ("HTTP error " ++ Protection.str_Z (page_status r)))
  else Ok tt.

Definition get_page_content (w : world) : result soup :=
  try_except
    (response <- fetch w ;;
     _ <- raise_for_status response ;;
     _ <- match encoding response with
          | Some _ => Ok tt
          | None => Raise (AttributeError "'NoneType' object has no attribute 'lower'")
          end ;;
     soup <- parsed response ;;
     Ok soup)
    (fun e => Raise (Exception ("Ошибка загрузки страницы: " ++ str_exn e))).

Definition content_types_value (c : dict nat) : pyval :=
  VDict (map (fun kv => (fst kv, VInt (Z.of_nat (snd kv)))) c).

Definition candidate_value (c : candidate) : pyval :=
  VDict
    ([("selector", VStr (selector c)); ("count", VInt (Z.of_nat (count c)))]
     ++ match sample_text c with
        | Some t => [("sample_text", VStr t)]
        | None => []
        end
     ++ match cand_description c with
        | Some t => [("description", VStr t)]
        | None => []
        end)%list.

Definition selectors_value (sel : dict (list candidate)) : pyval :=
  VDict (map (fun kv => (fst kv, VList (map candidate_value (snd kv)))) sel).

(** The [except] arm of [analyze]: the dictionary built so far, with the
    error recorded. *)
Definition failed (results : dict pyval) (e : exn) : dict pyval :=
  dict_set "success" (VBool false) (dict_set "error" (VStr (str_exn e)) results).

(** One step inside the [try] of [analyze]: when the step raises, the
    [except] arm returns what was built before it. *)
Definition step {A} (results : dict pyval) (m : result A)
    (k : A -> result (dict pyval)) : result (dict pyval) :=
  match m with
  | Ok a => k a
  | Raise e => Ok (failed results e)
  end.

Section Analyze.

(** The passes of the analyzer that are not modelled here; each may
    raise. *)
Variable analyze_basic_info : soup -> result (dict pyval).
Variable analyze_dom_structure : soup -> result (dict pyval).
Variable analyze_links_and_forms : soup -> string -> result (dict pyval).
Variable analyze_scripts_and_styles : soup -> result (dict pyval).
Variable analyze_performance_indicators : soup -> result (dict pyval).
Variable evaluate_parsing_complexity : dict pyval -> result (dict pyval).

Definition analyze (w : world) (url : string) : result (dict pyval) :=
  let results :=
    [ ("url", VStr url); ("timestamp", VStr (strftime w));
      ("analysis_type", VStr "structure") ] in
  step results (get_page_content w) (fun soup =>
  step results (analyze_basic_info soup) (fun basic_info =>
  let results := dict_update results basic_info in
  step results (analyze_dom_structure soup) (fun dom_structure =>
  let results := dict_update results dom_structure in
  let content_types := detect_content_types soup in
  let results :=
    dict_set "content_types" (content_types_value content_types) results in
  step results (analyze_links_and_forms soup url) (fun links_forms =>
  let results := dict_update results links_forms in
  step results (analyze_scripts_and_styles soup) (fun scripts_styles =>
  step results (dict_item "scripts" scripts_styles) (fun scripts =>
  let results := dict_set "scripts" scripts results in
  step results (dict_item "styles" scripts_styles) (fun styles =>
  let results := dict_set "styles" styles results in
  step results (dict_item "frameworks_detected" scripts_styles) (fun fw =>
  let results := dict_set "frameworks_detected" fw results in
  let selectors := generate_selectors soup content_types in
  let results :=
    dict_set "suggested_selectors" (selectors_value selectors) results in
  step results (analyze_performance_indicators soup) (fun performance =>
  let results := dict_set "performance" (VDict performance) results in
  step results (evaluate_parsing_complexity results) (fun parsing_complexity =>
  let results :=
    dict_set "parsing_complexity" (VDict parsing_complexity) results in
  Ok results)))))))))).

End Analyze.

(** *** Sample documents and environments *)

(** Three articles and nothing that looks like a product. *)
Definition three_articles : soup :=
  [ Element "html" []
      [ Element "body" []
          [ Element "article" [] [Text "First"];
            Element "article" [] [Text "Second"];
            Element "article" [] [Text "Third"] ] ] ].

(** A blog page: one [article] element, two elements whose class contains
    [article], two whose class contains [post]. *)
Definition blog_page : soup :=
  [ Element "html" []
      [ Element "body" []
          [ Element "article" [("class", "article featured")] [Text " Lead "];
            Element "div" [("class", "post")] [Text "One"];
            Element "div" [("class", "post article")] [Text "Two"] ] ] ].

(** The page cannot be retrieved. *)
Definition unreachable_page : world :=
  {| fetch := Raise (RequestError "Name or service not known");
     strftime := "2025-09-14 12:00:00" |}.

(** The server answers 404. *)
Definition missing_page : world :=
  {| fetch := Ok {| page_status := 404; encoding := Some "utf-8";
                    parsed := Ok [] |};
     strftime := "2025-09-14 12:00:00" |}.

(** A stand-in for a pass that is not modelled: it raises when run. *)
Definition not_modelled {A} (_ : A) : result (dict pyval) :=
  Raise (Exception "pass outside the model").

End Structure.

(* ================================================================== *)
(** ** comprehensive_analyzer.py                                       *)
(* ================================================================== *)

Module Comprehensive.
Import Py.

(** *** The dictionary returned by [ProtectionAnalyzer.analyze] *)

Definition finding_value (f : Protection.finding) : pyval :=
  VDict [ ("detected", VBool (Protection.detected f));
          ("score", VInt (Protection.score f));
          ("description", VStr (Protection.description f)) ].

Definition bypass_value (b : Protection.bypass_attempt) : pyval :=
  VDict
    ([("success", VBool (Protection.success b))]
     ++ match Protection.bp_status_code b with
        | Some c => [("status_code", VInt c)]
        | None => []
        end
     ++ match Protection.bp_error b with
        | Some e => [("error", VStr e)]
        | None => []
        end
     ++ [("description", VStr (Protection.bp_description b))])%list.

Definition map_values {A} (f : A -> pyval) (d : dict A) : dict pyval :=
  map (fun kv => (fst kv, f (snd kv))) d.

(** The keys are those that [ProtectionAnalyzer.analyze] assigns, in the
    order of their first assignment. *)
Definition protection_dict (r : Protection.report) : dict pyval :=
  ([ ("url", VStr (Protection.url r));
     ("timestamp", VStr (Protection.timestamp r));
     ("mechanisms", VDict (map_values finding_value (Protection.mechanisms r)));
     ("bypass_methods",
      VDict (map_values bypass_value (Protection.bypass_methods r)));
     ("total_score", VInt (Protection.total_score r));
     ("complexity_level", VStr (Protection.complexity_level r)) ]
   ++ match Protection.best_method r with
      | Some m => [("best_method", VStr m)]
      | None => []
      end
   ++ match Protection.bypass_success_rate r with
      | Some q => [("bypass_success_rate", VFloat q)]
      | None => []
      end)%list.

(** *** Dynamic operations on values *)

(** The dictionary behind a value on which [.get] or [.items] is
    called. *)
Definition as_dict (v : pyval) : result (dict pyval) :=
  match v with
  | VDict d => Ok d
  | _ => Raise (AttributeError "object has no attribute 'get'")
  end.

(** [v < n] for an integer literal [n] *)
Definition lt_int (v : pyval) (n : Z) : result bool :=
  match v with
  | VInt z => Ok (z <? n)%Z
  | VBool b => Ok ((if b then 1 else 0) <? n)%Z
  | VFloat q => Ok (negb (Qle_bool (inject_Z n) q))
  | _ => Raise (TypeError "'<' not supported")
  end.

(** [len(v)] *)
Definition len (v : pyval) : result nat :=
  match v with
  | VStr s => Ok (len_chars s)
  | VList l => Ok (List.length l)
  | VDict d => Ok (List.length d)
  | _ => Raise (TypeError "object has no len()")
  end.

Fixpoint sum_results (l : list (result nat)) : result nat :=
  match l with
  | [] => Ok O
  | m :: l' => n <- m ;; total <- sum_results l' ;; Ok (n + total)%nat
  end.

Section Synthesizer.

(** [get_current_language()] *)
Variable language : string.
(** [get_text(key)] in the current language *)
Variable get_text : string -> string.
(** [datetime.now().isoformat()] *)
Variable now : string.

Definition _translate_protection_results (results : dict pyval) : dict pyval :=
  let translated := results in
  let translated :=
    match dict_get "complexity_level" translated with
    | Some level =>
        let level_map :=
          [ ("LOW", VStr (get_text "protection_low"));
            ("MEDIUM", VStr (get_text "protection_medium"));
            ("HIGH", VStr (get_text "protection_high"));
            ("CRITICAL", VStr (get_text "protection_critical")) ] in
        dict_set "complexity_level_localized"
          (match level with
           | VStr l => dict_get_default l level level_map
           | _ => level
           end)
          translated
    | None => translated
    end in
  let translated :=
    match dict_get "bypass_methods" translated with
    | Some methods =>
        let bypass_map :=
          [ ("requests", get_text "bypass_requests");
            ("cloudscraper", get_text "bypass_cloudscraper");
            ("selenium", get_text "bypass_selenium");
            ("undetected", get_text "bypass_undetected");
            ("proxy", get_text "bypass_proxy") ] in
        dict_set "bypass_methods_localized"
          (VList
             (map (fun method => VStr (dict_get_default method method bypass_map))
                (match methods with VDict d => keys d | _ => [] end)))
          translated
    | None => translated
    end in
  let protection_map :=
    [ ("cloudflare_detected", get_text "cloudflare_detected");
      ("javascript_required", get_text "javascript_required");
      ("rate_limiting", get_text "rate_limiting");
      ("user_agent_blocking", get_text "user_agent_blocking");
      ("captcha_detected", get_text "captcha_detected");
      ("cookies_required", get_text "cookies_required") ] in
  dict_set "protection_details_localized"
    (VDict
       (fold_left
          (fun acc kv =>
             dict_set (dict_get_default (fst kv) (fst kv) protection_map)
               (snd kv) acc)
          (match dict_get_default "protection_details" (VDict []) translated with
           | VDict d => d
           | _ => []
           end)
          []))
    translated.

(** The recommendation strings of the four protection branches. *)
Definition low_recommendations : list string :=
  if language =? "ru"
  then [ "✅ Простой парсинг: используйте requests + BeautifulSoup";
         "🔧 Добавьте User-Agent заголовки для стабильности" ]
  else [ "✅ Simple scraping: use requests + BeautifulSoup";
         "🔧 Add User-Agent headers for stability" ].

Definition medium_recommendations : list string :=
  if language =? "ru"
  then [ "⚠️ Средняя сложность: требуется cloudscraper или fake-useragent";
         "🛡️ Добавьте задержки между запросами" ]
  else [ "⚠️ Medium complexity: requires cloudscraper or fake-useragent";
         "🛡️ Add delays between requests" ].

Definition high_recommendations : list string :=
  if language =? "ru"
  then [ "🚨 Высокая сложность: обязательно Selenium или undetected-chrome";
         "🔄 Используйте ротацию прокси и User-Agent" ]
  else [ "🚨 High complexity: mandatory Selenium or undetected-chrome";
         "🔄 Use proxy and User-Agent rotation" ].

Definition critical_recommendations : list string :=
  if language =? "ru"
  then [ "💥 Критическая защита: нужны продвинутые методы обхода";
         "🤖 Рассмотрите использование капча-сервисов";
         "⏱️ Значительные задержки и ручная обработка" ]
  else [ "💥 Critical protection: need advanced bypass methods";
         "🤖 Consider using captcha-solving services";
         "⏱️ Significant delays and manual processing" ].

(** The protection part of [_generate_recommendations]. *)
Definition protection_recommendations (results : dict pyval)
  : result (list string) :=
  match dict_get "protection" results with
  | Some protection =>
      protection <- as_dict protection ;;
      let complexity_score :=
        dict_get_default "complexity_score" (VInt 0) protection in
      lt40 <- lt_int complexity_score 40 ;;
      if lt40 then Ok low_recommendations
      else
        lt60 <- lt_int complexity_score 60 ;;
        if lt60 then Ok medium_recommendations
        else
          lt80 <- lt_int complexity_score 80 ;;
          if lt80 then Ok high_recommendations
          else Ok critical_recommendations
  | None => Ok []
  end.

(** [structure.get('content_types', {}).get(key)] *)
Definition content_type_signal (structure : dict pyval) (key : string)
  : result bool :=
  content_types <- as_dict (dict_get_default "content_types" (VDict []) structure) ;;
  Ok (truthy (dict_get_default key VNone content_types)).

(** The structure part of [_generate_recommendations]. *)
Definition structure_recommendations (results : dict pyval)
  : result (list string) :=
  match dict_get "structure" results with
  | Some structure =>
      structure <- as_dict structure ;;
      products <- content_type_signal structure "products" ;;
      pagination <- content_type_signal structure "pagination" ;;
      Ok ((if products
           then [ if language =? "ru"
                  then "🛒 Обнаружены товары: используйте готовые селекторы"
                  else "🛒 Products detected: use provided selectors" ]
           else [])
          ++ (if pagination
              then [ if language =? "ru"
                     then "📄 Пагинация найдена: автоматизируйте переход по страницам"
                     else "📄 Pagination found: automate page navigation" ]
              else []))%list
  | None => Ok []
  end.

Definition _generate_recommendations (results : dict pyval)
  : result (list string) :=
  from_protection <- protection_recommendations results ;;
  from_structure <- structure_recommendations results ;;
  Ok (from_protection ++ from_structure)%list.

(** [{table.get(k, k): v for k, v in d.items()}] *)
Definition relabel (table : dict string) (d : dict pyval) : dict pyval :=
  fold_left
    (fun acc kv => dict_set (dict_get_default (fst kv) (fst kv) table) (snd kv) acc)
    d [].

Definition _translate_structure_results (results : dict pyval)
  : result (dict pyval) :=
  let translated := results in
  translated <-
    match dict_get "content_types" translated with
    | Some content_types =>
        let content_map :=
          [ ("products", get_text "products_detected");
            ("articles", get_text "articles_detected");
            ("navigation", get_text "navigation_detected");
            ("forms", get_text "forms_detected");
            ("pagination", get_text "pagination_detected") ] in
        items <- as_dict content_types ;;
        Ok (dict_set "content_types_localized"
              (VDict (relabel content_map items)) translated)
    | None => Ok translated
    end ;;
  translated <-
    match dict_get "dom_stats" translated with
    | Some dom_stats =>
        dom_stats <- as_dict dom_stats ;;
        Ok (dict_set "dom_stats_localized"
              (VDict
                 (fold_left
                    (fun acc k =>
                       dict_set (get_text k)
                         (dict_get_default k (VInt 0) dom_stats) acc)
                    [ "total_elements"; "unique_tags"; "classes_count";
                      "ids_count"; "forms_count"; "links_count";
                      "images_count" ]
                    []))
              translated)
    | None => Ok translated
    end ;;
  match dict_get "suggested_selectors" translated with
  | Some selectors =>
      let selector_map :=
        [ ("products", get_text "selector_products");
          ("prices", get_text "selector_prices");
          ("titles", get_text "selector_titles");
          ("descriptions", get_text "selector_descriptions");
          ("links", get_text "selector_links");
          ("images", get_text "selector_images") ] in
      items <- as_dict selectors ;;
      Ok (dict_set "suggested_selectors_localized"
            (VDict (relabel selector_map items)) translated)
  | None => Ok translated
  end.

(** The difficulty and time estimate of [_generate_summary]. *)
Definition difficulty_of (complexity_score : pyval) : result (string * string) :=
  lt40 <- lt_int complexity_score 40 ;;
  if lt40
  then Ok (get_text "protection_low",
           "1-2 " ++ (if language =? "ru" then "дня" else "days"))
  else
    lt60 <- lt_int complexity_score 60 ;;
    if lt60
    then Ok (get_text "protection_medium",
             "3-5 " ++ (if language =? "ru" then "дней" else "days"))
    else
      lt80 <- lt_int complexity_score 80 ;;
      if lt80
      then Ok (get_text "protection_high",
               "1-2 " ++ (if language =? "ru" then "недели" else "weeks"))
      else Ok (get_text "protection_critical",
               "2+ " ++ (if language =? "ru" then "недели" else "weeks")).

Definition _generate_summary (results : dict pyval) : result (dict pyval) :=
  url <- dict_item "url" results ;;
  let summary :=
    [ ("url", url); ("analysis_time", VStr now); ("language", VStr language) ] in
  summary <-
    match dict_get "protection" results with
    | Some protection =>
        protection <- as_dict protection ;;
        let summary :=
          dict_set "protection_level"
            (dict_get_default "complexity_level" (VStr "UNKNOWN") protection)
            summary in
        let summary :=
          dict_set "protection_score"
            (dict_get_default "complexity_score" (VInt 0) protection) summary in
        Ok (dict_set "protection_level_localized"
              (dict_get_default "complexity_level_localized" (VStr "UNKNOWN")
                 protection)
              summary)
    | None => Ok summary
    end ;;
  summary <-
    match dict_get "structure" results with
    | Some structure =>
        structure <- as_dict structure ;;
        dom_stats <- as_dict (dict_get_default "dom_stats" (VDict []) structure) ;;
        let summary :=
          dict_set "dom_elements"
            (dict_get_default "total_elements" (VInt 0) dom_stats) summary in
        content_types <-
          as_dict (dict_get_default "content_types" (VDict []) structure) ;;
        let summary :=
          dict_set "content_types_found"
            (VInt (Z.of_nat
                     (List.length
                        (filter (fun kv => truthy (snd kv)) content_types))))
            summary in
        selectors <-
          as_dict (dict_get_default "suggested_selectors" (VDict []) structure) ;;
        generated <- sum_results (map len (values selectors)) ;;
        Ok (dict_set "selectors_generated" (VInt (Z.of_nat generated)) summary)
    | None => Ok summary
    end ;;
  protection <- as_dict (dict_get_default "protection" (VDict []) results) ;;
  let complexity_score :=
    dict_get_default "complexity_score" (VInt 0) protection in
  estimate <- difficulty_of complexity_score ;;
  let summary := dict_set "scraping_difficulty" (VStr (fst estimate)) summary in
  let summary :=
    dict_set "estimated_development_time" (VStr (snd estimate)) summary in
  Ok summary.

(** *** [analyze_website] *)

(** The test [if not validate_url(url)] at the start of
    [analyze_website]: either [validate_url] raises, or its result is
    falsy and the branch raising [get_text('invalid_url')] is taken, or
    the analysis goes on. *)
Inductive gate : Type :=
| FalsyResult
| Validated (normalized : string).

Definition url_gate (url : pyval) : result gate :=
  validated <- Utils.validate_url url ;;
  if negb (truthy (VStr validated)) then Ok FalsyResult
  else Ok (Validated validated).

(** [get_text('analysis_error').format(error=...)] *)
Variable format_error : string -> string -> string.

(** The unmodelled passes of the structure analyzer. *)
Variable analyze_basic_info : Structure.soup -> result (dict pyval).
Variable analyze_dom_structure : Structure.soup -> result (dict pyval).
Variable analyze_links_and_forms :
  Structure.soup -> string -> result (dict pyval).
Variable analyze_scripts_and_styles : Structure.soup -> result (dict pyval).
Variable analyze_performance_indicators :
  Structure.soup -> result (dict pyval).
Variable evaluate_parsing_complexity : dict pyval -> result (dict pyval).

Variable pw : Protection.world.
Variable sw : Structure.world.

(** [analyze_website(url, analysis_type)] with the language left as it
    is; logging and the analysis counter are left out.  The analyzers
    receive the URL as it was given. *)
Definition analyze_website (url : string) (analysis_type : string)
    (s : Protection.state) : result (dict pyval) * Protection.state :=
  match url_gate (VStr url) with
  | Raise e => (Raise e, s)
  | Ok FalsyResult => (Raise (ValueError (get_text "invalid_url")), s)
  | Ok (Validated _) =>
      let results :=
        [ ("url", VStr url); ("analysis_type", VStr analysis_type);
          ("language", VStr language); ("timestamp", VStr now);
          ("version", VStr "3.1.0") ] in
      let wrap (e : exn) : result (dict pyval) :=
        Raise (Exception (format_error (get_text "analysis_error") (str_exn e))) in
      let (protection, s') :=
        if existsb (String.eqb analysis_type) ["protection"; "both"]
        then
          match Protection.analyze pw url s with
          | (Ok report, s') =>
              (Ok (dict_set "protection"
                     (VDict (_translate_protection_results
                               (protection_dict report)))
                     results), s')
          | (Raise e, s') => (Raise e, s')
          end
        else (Ok results, s) in
      (try_except
         (results <- protection ;;
          results <-
            (if existsb (String.eqb analysis_type) ["structure"; "both"]
             then
               structure_results <-
                 Structure.analyze analyze_basic_info analyze_dom_structure
                   analyze_links_and_forms analyze_scripts_and_styles
                   analyze_performance_indicators evaluate_parsing_complexity
                   sw url ;;
               translated <- _translate_structure_results structure_results ;;
               Ok (dict_set "structure" (VDict translated) results)
             else Ok results) ;;
          recommendations <- _generate_recommendations results ;;
          let results :=
            dict_set "recommendations" (VList (map VStr recommendations))
              results in
          summary <- _generate_summary results ;;
          Ok (dict_set "summary" (VDict summary) results))
         wrap,
       s')
  end.

End Synthesizer.

(** *** Sample translation table *)

(** The texts of the four tiers in English, other keys being returned
    as they are. *)
Definition english (key : string) : string :=
  dict_get_default key key
    [ ("protection_low", "LOW"); ("protection_medium", "MEDIUM");
      ("protection_high", "HIGH"); ("protection_critical", "CRITICAL") ].

End Comprehensive.


(* ================================================================== *)
(** ** Notions used to describe the probes of protection_analyzer.py   *)
(* ================================================================== *)

Module ProbeOutcomes.
Import Py Protection.

(** Whether the [n]-th request of the run counts as blocked for a probe
    that takes the statuses [codes] as blocks; a request that raises
    counts as blocked. *)
Definition blocked_at (w : world) (codes : list Z) (n : nat) : bool :=
  match http_get w n with
  | Ok r => mem_Z (status_code r) codes
  | Raise _ => true
  end.

(** The entries logged by a loop that sends one guarded request per
    item, the first of them being the [n]-th request of the run. *)
Fixpoint guarded_results {A B} (w : world) (g : A -> response -> B)
    (h : A -> exn -> B) (n : nat) (xs : list A) : list B :=
  match xs with
  | [] => []
  | x :: xs' =>
      match http_get w n with
      | Ok r => g x r
      | Raise e => h x e
      end :: guarded_results w g h (S n) xs'
  end.

(** The state after [n] more requests. *)
Definition after_requests (n : nat) (s : state) : state :=
  {| requests_sent := requests_sent s + n; launches := launches s;
     navigations := navigations s; driver := driver s |}.

(** The names of the bypass methods that are tried, given the optional
    capabilities, in the order in which they are tried. *)
Definition methods_tried (w : world) : list string :=
  (["requests"; "requests_session"]
   ++ (if UA_AVAILABLE w then ["fake_useragent"] else [])
   ++ (if CLOUDSCRAPER_AVAILABLE w then ["cloudscraper"] else [])
   ++ (if SELENIUM_AVAILABLE w then ["undetected_chrome"] else []))%list.

(** A page that embeds a reCAPTCHA widget. *)
Definition captcha_site : world :=
  no_browser
    (fun _ => Ok (page 200 "<html><div class='g-recaptcha'></div></html>")).

(** A site behind Cloudflare: the header [CF-RAY] is set and the body is
    the interstitial page. *)
Definition cloudflare_site : world :=
  no_browser
    (fun _ =>
       Ok {| status_code := 200;
             headers := [("CF-RAY", "8c1e2f3a4b5c6d7e-FRA")];
             text := "<html>Checking your browser before accessing</html>";
             cookies := [] |}).

End ProbeOutcomes.

(* ================================================================== *)
(** ** structure_analyzer.py: nesting depth and parsing complexity     *)
(* ================================================================== *)

Module StructurePasses.
Import Py Structure.

(** [calculate_max_depth(element, current_depth)]: only the children
    that are tags (they have [children]) are descended into. *)
Fixpoint calculate_max_depth (element : node) (current_depth : nat) : nat :=
  match element with
  | Text _ => current_depth
  | Element _ _ children =>
      fold_left
        (fun max_depth child =>
           match child with
           | Element _ _ _ =>
               Nat.max max_depth (calculate_max_depth child (S current_depth))
           | Text _ => max_depth
           end)
        children current_depth
  end.

(** The [BeautifulSoup] object itself: a tag named [[document]] whose
    children are the top-level nodes. *)
Definition document (s : soup) : node := Element "[document]" [] s.

(** [self.calculate_max_depth(soup)] *)
Definition max_nesting_depth (s : soup) : nat :=
  calculate_max_depth (document s) 0.

(** The depth reached below a node: at least the depth of the node, and
    for a tag less than that depth plus the number of elements of its
    subtree. *)
Definition depth_bounded (n : node) : Prop :=
  forall k,
    k <= calculate_max_depth n k
    /\ match n with
       | Element _ _ _ =>
           calculate_max_depth n k < k + List.length (elements_of n)
       | Text _ => True
       end.

(** [v > n] for an integer literal [n] *)
Definition gt_int (v : pyval) (n : Z) : result bool :=
  match v with
  | VInt z => Ok (n <? z)%Z
  | VBool b => Ok (n <? (if b then 1 else 0))%Z
  | VFloat q => Ok (negb (Qle_bool q (inject_Z n)))
  | _ => Raise (TypeError "'>' not supported")
  end.

(** [len(v)] *)
Definition len (v : pyval) : result nat :=
  match v with
  | VStr s => Ok (len_chars s)
  | VList l => Ok (List.length l)
  | VDict d => Ok (List.length d)
  | _ => Raise (TypeError "object has no len()")
  end.

(** [d.keys()] of a value *)
Definition keys_of (v : pyval) : result (list string) :=
  match v with
  | VDict d => Ok (keys d)
  | _ => Raise (AttributeError "object has no attribute 'keys'")
  end.

(** [v.get(k)] of a value *)
Definition get_of (k : string) (v : pyval) : result pyval :=
  match v with
  | VDict d => Ok (dict_get_default k VNone d)
  | _ => Raise (AttributeError "object has no attribute 'get'")
  end.

(** [v == 'HIGH'] for a value [v] *)
Definition is_str (text : string) (v : pyval) : bool :=
  match v with
  | VStr s => s =? text
  | _ => false
  end.

(** The level and the recommendation of a score. *)
Definition level_of (score : Z) : string * string :=
  if (70 <=? score)%Z
  then ("VERY_HIGH", "Selenium или Playwright обязательны")
  else if (50 <=? score)%Z then ("HIGH", "Рекомендуется Selenium")
  else if (30 <=? score)%Z
  then ("MEDIUM", "Requests + BeautifulSoup с осторожностью")
  else ("LOW", "Простой requests + BeautifulSoup").

(** [evaluate_parsing_complexity(results)] *)
Definition evaluate_parsing_complexity (results : dict pyval)
  : result (dict pyval) :=
  let complexity_factors := [] in
  let score := 0%Z in
  js_count <- len (dict_get_default "scripts" (VList []) results) ;;
  let (complexity_factors, score) :=
    if (10 <? js_count)%nat
    then ((complexity_factors ++ ["Много JavaScript файлов"])%list,
          (score + 30)%Z)
    else if (5 <? js_count)%nat then (complexity_factors, (score + 15)%Z)
    else (complexity_factors, score) in
  let frameworks := dict_get_default "frameworks_detected" (VDict []) results in
  step1 <-
    (if truthy frameworks
     then names <- keys_of frameworks ;;
          Ok ((complexity_factors
               ++ [("Обнаружены фреймворки: "
                    ++ String.concat ", " names)%string])%list,
              (score + 25)%Z)
     else Ok (complexity_factors, score)) ;;
  let (complexity_factors, score) := step1 in
  let forms_count := dict_get_default "forms_count" (VInt 0) results in
  many_forms <- gt_int forms_count 3 ;;
  let (complexity_factors, score) :=
    if many_forms
    then ((complexity_factors
           ++ ["Много форм - может потребоваться аутентификация"])%list,
          (score + 15)%Z)
    else (complexity_factors, score) in
  let performance := dict_get_default "performance" (VDict []) results in
  loading <- get_of "loading_complexity" performance ;;
  let (complexity_factors, score) :=
    if is_str "HIGH" loading
    then ((complexity_factors ++ ["Высокая сложность загрузки"])%list,
          (score + 20)%Z)
    else (complexity_factors, score) in
  deep <- gt_int (dict_get_default "max_nesting_depth" (VInt 0) results) 15 ;;
  let (complexity_factors, score) :=
    if deep
    then ((complexity_factors ++ ["Глубокая вложенность DOM"])%list,
          (score + 10)%Z)
    else (complexity_factors, score) in
  let (level, recommendation) := level_of score in
  Ok [ ("score", VInt score);
       ("level", VStr level);
       ("factors", VList (map VStr complexity_factors));
       ("recommendation", VStr recommendation);
       ("estimated_effort",
        VStr (dict_get_default level "Неизвестно"
                [ ("VERY_HIGH", "Очень высокие"); ("HIGH", "Высокие");
                  ("MEDIUM", "Средние"); ("LOW", "Низкие") ])) ].

(** A page with two nested lists. *)
Definition nested_lists : soup :=
  [ Element "html" []
      [ Element "body" []
          [ Element "ul" []
              [ Element "li" [] [ Element "ul" [] [ Element "li" [] [Text "x"] ] ] ];
            Text "tail" ] ] ].

End StructurePasses.

(* ================================================================== *)
(** ** utils.py: file names, text and numbers                          *)
(* ================================================================== *)

Module UtilsText.
Import Py.

(** The characters replaced by [safe_filename]: less-than,
    greater-than, colon, double quote, slash, backslash, bar, question
    mark and star. *)
Definition unsafe_char (c : ascii) : bool :=
  mem_char c "<>:/\|?*" || Ascii.eqb c (ascii_of_nat 34).

(** [re.sub] of the unsafe characters by an underscore *)
Fixpoint replace_unsafe (s : string) : string :=
  match s with
  | EmptyString => EmptyString
  | String c t => String (if unsafe_char c then "_"%char else c) (replace_unsafe t)
  end.

(** [s.lstrip(c)] for one character *)
Fixpoint lstrip_char (c : ascii) (s : string) : string :=
  match s with
  | EmptyString => EmptyString
  | String d t => if Ascii.eqb d c then lstrip_char c t else s
  end.

(** [s.rstrip(c)] for one character *)
Fixpoint rstrip_char (c : ascii) (s : string) : string :=
  match s with
  | EmptyString => EmptyString
  | String d t =>
      match rstrip_char c t with
      | EmptyString => if Ascii.eqb d c then EmptyString else String d EmptyString
      | t' => String d t'
      end
  end.

(** [s.strip(c)] for one character *)
Definition strip_char (c : ascii) (s : string) : string :=
  rstrip_char c (lstrip_char c s).

(** [safe_filename(filename)]; [stamp] is
    [datetime.now().strftime('%Y%m%d_%H%M%S')]. *)
Definition safe_filename (stamp : string) (filename : string) : string :=
  let safe_chars := replace_unsafe filename in
  let safe_chars :=
    if (200 <? len_chars safe_chars)%nat then take_chars 200 safe_chars
    else safe_chars in
  let safe_chars := strip_char "." safe_chars in
  if safe_chars =? "" then "file_" ++ stamp else safe_chars.

(** A time stamp as [strftime('%Y%m%d_%H%M%S')] prints it: digits and
    underscores. *)
Definition stamp_like (stamp : string) : bool :=
  forallb_string (fun c => is_digit c || Ascii.eqb c "_") stamp.

(** The properties of a name produced by [safe_filename]. *)
Definition safe_name (name : string) : Prop :=
  name <> ""
  /\ forallb_string (fun c => negb (unsafe_char c)) name = true
  /\ len_chars name <= 200
  /\ match name with
     | EmptyString => True
     | String d _ => Ascii.eqb d "." = false
     end
  /\ match last_char name with
     | Some d => Ascii.eqb d "." = false
     | None => True
     end.

(** [re.sub(r'\s+', ' ', s)]: every run of whitespace becomes one space.
    [in_run] tells that the previous character was whitespace. *)
Fixpoint collapse_from (in_run : bool) (s : string) : string :=
  match s with
  | EmptyString => EmptyString
  | String c t =>
      if is_space c
      then if in_run then collapse_from true t
           else String " " (collapse_from true t)
      else String c (collapse_from false t)
  end.

Definition collapse_whitespace (s : string) : string := collapse_from false s.

(** [s[:k]] for an integer [k], negative ones counting from the end. *)
Definition slice_to (k : Z) (s : string) : string :=
  if (0 <=? k)%Z then take_chars (Z.to_nat k) s
  else take_chars (len_chars s - Z.to_nat (- k)) s.

(** [clean_text(text, max_length)]; [max_length] is [None] or an
    integer. *)
Definition clean_text (text : string) (max_length : option Z) : string :=
  if text =? "" then ""
  else
    let text := collapse_whitespace (strip text) in
    match max_length with
    | Some m =>
        if negb (m =? 0)%Z && (m <? Z.of_nat (len_chars text))%Z
        then slice_to (m - 3) text ++ "..."
        else text
    | None => text
    end.

(** Whether two adjacent characters of [s] are both whitespace. *)
Fixpoint has_double_space (s : string) : bool :=
  match s with
  | EmptyString => false
  | String c t =>
      match t with
      | EmptyString => false
      | String d _ => (is_space c && is_space d) || has_double_space t
      end
  end.

(** The digits of [s] in groups of three counted from the right, the
    groups separated by [sep]; [k] is the number of characters left in
    the current group. *)
Fixpoint group_from (sep : ascii) (k : nat) (s : string) : string :=
  match s with
  | EmptyString => EmptyString
  | String c t =>
      match t with
      | EmptyString => String c EmptyString
      | _ =>
          match k with
          | O | S O => String c (String sep (group_from sep 3 t))
          | S k' => String c (group_from sep k' t)
          end
      end
  end.

Definition group_thousands (sep : ascii) (digits : string) : string :=
  group_from sep (S ((String.length digits - 1) mod 3)) digits.

(** [f"{number:,}".replace(',', ' ')] *)
Definition format_number (number : Z) : string :=
  if (number <? 0)%Z
  then "-" ++ group_thousands " " (Protection.str_Z (- number))
  else group_thousands " " (Protection.str_Z number).

(** The first character of [s] is not whitespace (or [s] is empty). *)
Definition starts_clean (s : string) : Prop :=
  match s with
  | EmptyString => True
  | String c _ => is_space c = false
  end.

(** The last character of [s] is not whitespace (or [s] is empty). *)
Definition ends_clean (s : string) : Prop :=
  match last_char s with
  | Some c => is_space c = false
  | None => True
  end.

(** Every whitespace character of [s] is a plain space. *)
Definition plain_spaces (s : string) : bool :=
  forallb_string (fun c => negb (is_space c) || Ascii.eqb c " ") s.

Definition not_space (c : ascii) : bool := negb (Ascii.eqb c " ").

End UtilsText.

(* ================================================================== *)
(** ** utils.py: [parse_robots_txt]                                    *)
(* ================================================================== *)

Module Robots.
Import Py.

(** The rules of one user agent. *)
Record agent_rules : Type := {
  disallow : list string;
  allow : list string
}.

Section Parser.

(** The values of [crawl_delay], and the builtin [float]: [None] when it
    raises. *)
Variable F : Type.
Variable float_of : string -> option F.

(** The dictionary [rules]. *)
Record rules : Type := {
  user_agents : dict agent_rules;
  sitemaps : list string;
  crawl_delay : option F
}.

(** The state of the loop: the rules so far and [current_user_agent]
    ([None] before the first [User-agent] line). *)
Definition loop_state : Type := (rules * option string)%type.

(** The key and the value of a line that is neither empty nor a comment
    and holds a colon: the key is what precedes the first colon,
    stripped and lowered, the value what follows it, stripped. *)
Definition entry_of_line (raw : string) : option (string * string) :=
  let line := strip raw in
  if (line =? "") || startswith line "#" then None
  else if mem_char ":" line then
    let (key, rest) := span_until (fun c => Ascii.eqb c ":") line in
    Some (lower (strip key), strip (drop 1 rest))
  else None.

(** [current_user_agent] is set and not empty. *)
Definition current_agent (current : option string) : option string :=
  match current with
  | Some name => if name =? "" then None else Some name
  | None => None
  end.

(** [rules['user_agents'][name][field].append(value)]; the entry exists
    whenever [name] is the current user agent. *)
Definition append_rule (to_disallow : bool) (name value : string)
    (agents : dict agent_rules) : dict agent_rules :=
  match dict_get name agents with
  | Some r =>
      dict_set name
        (if to_disallow
         then {| disallow := disallow r ++ [value]; allow := allow r |}
         else {| disallow := disallow r; allow := allow r ++ [value] |})
        agents
  | None => agents
  end.

(** The chain of tests on the key of a line. *)
Definition apply_entry (st : loop_state) (key value : string) : loop_state :=
  let (r, current) := st in
  if key =? "user-agent" then
    ({| user_agents :=
          if dict_mem value (user_agents r) then user_agents r
          else dict_set value {| disallow := []; allow := [] |} (user_agents r);
        sitemaps := sitemaps r; crawl_delay := crawl_delay r |},
     Some value)
  else
    match key =? "disallow", key =? "allow", current_agent current with
    | true, _, Some name =>
        ({| user_agents := append_rule true name value (user_agents r);
            sitemaps := sitemaps r; crawl_delay := crawl_delay r |}, current)
    | false, true, Some name =>
        ({| user_agents := append_rule false name value (user_agents r);
            sitemaps := sitemaps r; crawl_delay := crawl_delay r |}, current)
    | _, _, _ =>
        if key =? "sitemap" then
          ({| user_agents := user_agents r;
              sitemaps := sitemaps r ++ [value];
              crawl_delay := crawl_delay r |}, current)
        else if key =? "crawl-delay" then
          match float_of value with
          | Some delay =>
              ({| user_agents := user_agents r; sitemaps := sitemaps r;
                  crawl_delay := Some delay |}, current)
          | None => st
          end
        else st
    end.

(** The body of the loop over the lines. *)
Definition parse_line (st : loop_state) (raw : string) : loop_state :=
  match entry_of_line raw with
  | Some (key, value) => apply_entry st key value
  | None => st
  end.

Definition initial : loop_state :=
  ({| user_agents := []; sitemaps := []; crawl_delay := None |}, None).

Definition parse_lines (lines : list string) : rules :=
  fst (fold_left parse_line lines initial).

(** [parse_robots_txt(robots_content)] *)
Definition parse_robots_txt (robots_content : string) : rules :=
  parse_lines (split_char "010" robots_content).

(** The entries of a list of lines, in order. *)
Definition entries (lines : list string) : list (string * string) :=
  flat_map
    (fun raw => match entry_of_line raw with Some e => [e] | None => [] end)
    lines.

(** The values of the entries with key [key], in order. *)
Definition values_of (key : string) (es : list (string * string))
  : list string :=
  map snd (filter (fun e => fst e =? key) es).

(** The last value that [float] accepts, if any. *)
Definition last_float (vs : list string) : option F :=
  fold_left
    (fun acc v => match float_of v with Some f => Some f | None => acc end)
    vs None.

End Parser.

(** The strings of [l] without repetition, in order of first
    occurrence. *)
Fixpoint first_occurrences (l : list string) : list string :=
  match l with
  | [] => []
  | x :: l' => x :: filter (fun y => negb (y =? x)) (first_occurrences l')
  end.

(** A line that adds a rule to the current user agent, or nothing at
    all: it has no entry, or its key is [disallow] or [allow]. *)
Definition rule_line (raw : string) : bool :=
  match entry_of_line raw with
  | Some (key, _) => (key =? "disallow") || (key =? "allow")
  | None => true
  end.

(** What [float] gives on a string of decimal digits; in this sample
    every other string is taken as rejected. *)
Definition float_of_digits (s : string) : option nat :=
  if negb (s =? "") && forallb_string is_digit s
  then match NilEmpty.uint_of_string s with
       | Some u => Some (Nat.of_uint u)
       | None => None
       end
  else None.

End Robots.

(* ================================================================== *)
(** ** utils.py: [retry_on_failure]                                    *)
(* ================================================================== *)

Module Retry.
Import Py.

(** What a run of the wrapper has done: the number of calls of the
    wrapped function, and the factors [attempt + 1] of the sleeps (each
    sleep lasts [delay] times its factor). *)
Record run : Type := {
  calls : nat;
  sleeps : list nat
}.

Definition start : run := {| calls := 0; sleeps := [] |}.

Section Wrapper.

Variable A : Type.

(** The wrapped function applied to the arguments of the wrapper: the
    outcome of each of its calls, numbered from 0. *)
Variable func : nat -> result A.

Variable max_attempts : Z.
Variable delay : Q.

(** The exception with which [time.sleep] refuses the length
    [delay * factor] when that length is not negative, if it does:
    [OverflowError] for a length that its clock cannot count (some 9.2e9
    seconds where the clock counts nanoseconds in 64 bits). *)
Variable refused : nat -> option exn.

(** [time.sleep(delay * (attempt + 1))]: a negative length is refused,
    and so is a length that the clock cannot count. *)
Definition sleep (factor : nat) (s : run) : result unit * run :=
  if (Qnum delay <? 0)%Z
  then (Raise (ValueError "sleep length must be non-negative"), s)
  else match refused factor with
       | Some e => (Raise e, s)
       | None =>
           (Ok tt, {| calls := calls s; sleeps := sleeps s ++ [factor] |})
       end.

(** The loop [for attempt in range(max_attempts)] from [attempt] on, with
    [remaining] attempts left, followed by [raise last_exception]. *)
Fixpoint attempts (remaining attempt : nat) (last_exception : option exn)
    (s : run) : result A * run :=
  match remaining with
  | O =>
      (match last_exception with
       | Some e => Raise e
       | None => Raise (TypeError "exceptions must derive from BaseException")
       end, s)
  | S remaining' =>
      let called := {| calls := S (calls s); sleeps := sleeps s |} in
      match func (calls s) with
      | Ok a => (Ok a, called)
      | Raise e =>
          if (Z.of_nat attempt <? max_attempts - 1)%Z then
            match sleep (S attempt) called with
            | (Ok _, slept) => attempts remaining' (S attempt) (Some e) slept
            | (Raise e', s') => (Raise e', s')
            end
          else attempts remaining' (S attempt) (Some e) called
      end
  end.

(** The wrapper that [retry_on_failure(max_attempts, delay)] makes of
    [func], applied to its arguments. *)
Definition wrapper (s : run) : result A * run :=
  attempts (Z.to_nat max_attempts) 0 None s.

(** The exception of the call [n], if it raised. *)
Definition failure_of (n : nat) : option exn :=
  match func n with
  | Ok _ => None
  | Raise e => Some e
  end.

End Wrapper.

(** A function that fails twice and then answers. *)
Definition third_time_lucky (n : nat) : result string :=
  match n with
  | 0%nat => Raise (RequestError "timeout")
  | 1%nat => Raise (RequestError "reset")
  | _ => Ok "page"
  end.

(** A function that fails at every call, with the number of the call as
    its message. *)
Definition always_failing (n : nat) : result string :=
  Raise (RequestError (Protection.str_nat n)).

End Retry.

(* ================================================================== *)
(** ** The labels that the synthesizer gives to a protection report    *)
(* ================================================================== *)

Module Localization.
Import Py.

(** The four tiers, and the key of the text of a tier. *)
Definition tiers : list string := ["LOW"; "MEDIUM"; "HIGH"; "CRITICAL"].

Definition tier_key (level : string) : string := "protection_" ++ lower level.

(** The label of a bypass method of the protection analyzer: of the five
    entries of [bypass_map] only [requests] and [cloudscraper] are names
    of methods that the analyzer tries. *)
Definition bypass_label (get_text : string -> string) (method : string)
  : string :=
  if method =? "requests" then get_text "bypass_requests"
  else if method =? "cloudscraper" then get_text "bypass_cloudscraper"
  else method.

(** A report with the total and the tier that the short circuit sets. *)
Definition blocked_report : Protection.report :=
  {| Protection.url := "https://example.com";
     Protection.timestamp := "2025-09-14 12:00:00";
     Protection.mechanisms :=
       [ ("basic_access",
          {| Protection.detected := false; Protection.score := 0;
             Protection.description := "HTTP 503" |}) ];
     Protection.bypass_methods := [];
     Protection.total_score := 100;
     Protection.complexity_level := "CRITICAL";
     Protection.best_method := None;
     Protection.bypass_success_rate := None |}.

End Localization.

(* ================================================================== *)
(** ** The string primitives                                           *)
(* ================================================================== *)

Section StringFacts.
Import Py.

Lemma prefix_spec p s :
  String.prefix p s = true <-> exists post, s = p ++ post.
Proof.
  revert s. induction p as [| c p IH]; intros s; simpl.
  - split; [intros _; now exists s | intros _; now destruct s].
  - destruct s as [| d s]; simpl;
      [split; [discriminate | intros [post H]; discriminate] |].
    destruct (ascii_dec c d) as [<- | Hcd].
    + rewrite IH. split; intros [post H]; exists post.
      * now rewrite H.
      * now injection H.
    + split; [discriminate | intros [post H]]. injection H as H _. congruence.
Qed.

(** [contains] decides whether [needle] occurs in [s]. *)
Lemma contains_spec needle s :
  contains needle s = true <-> exists pre post, s = pre ++ needle ++ post.
Proof.
  induction s as [| c s IH]; cbn [contains].
  - destruct (String.prefix needle "") eqn:E.
    + split; [intros _ | reflexivity].
      apply prefix_spec in E as [post E]. now exists "", post.
    + split; [discriminate | intros (pre & post & H)].
      destruct pre; [| discriminate]. simpl in H.
      assert (String.prefix needle "" = true) by (apply prefix_spec; eauto).
      congruence.
  - destruct (String.prefix needle (String c s)) eqn:E.
    + split; [intros _ | reflexivity].
      apply prefix_spec in E as [post E]. now exists "", post.
    + rewrite IH. split; intros (pre & post & H).
      * exists (String c pre), post. simpl. now rewrite H.
      * destruct pre as [| c' pre]; simpl in H.
        -- assert (String.prefix needle (String c s) = true)
             by (apply prefix_spec; eauto).
           congruence.
        -- injection H as _ H. eauto.
Qed.

Lemma lower_app a b : lower (a ++ b) = lower a ++ lower b.
Proof. induction a as [| c a IH]; simpl; [reflexivity | now rewrite IH]. Qed.

Lemma lower_split s a b :
  lower s = a ++ b -> exists a' b', s = a' ++ b' /\ lower a' = a /\ lower b' = b.
Proof.
  revert s. induction a as [| c a IH]; intros s H; simpl in H.
  - now exists "", s.
  - destruct s as [| d s]; [discriminate |]. simpl in H.
    injection H as Hc H. destruct (IH _ H) as (a' & b' & -> & <- & <-).
    exists (String d a'), b'. simpl. now rewrite Hc.
Qed.

(** Looking for a word in the lowered text finds its occurrences in the
    text whatever their case. *)
Lemma contains_lower_spec word s :
  contains word (lower s) = true <->
  exists pre mid post, s = pre ++ mid ++ post /\ lower mid = word.
Proof.
  rewrite contains_spec. split.
  - intros (pre & post & H).
    apply lower_split in H as (pre' & rest & -> & _ & H).
    apply lower_split in H as (mid & post' & -> & Hmid & _).
    now exists pre', mid, post'.
  - intros (pre & mid & post & -> & <-).
    exists (lower pre), (lower post). now rewrite !lower_app.
Qed.

Lemma lower_drop n s : lower (drop n s) = drop n (lower s).
Proof.
  revert s. induction n as [| n IH]; intros [| c s]; simpl; auto.
Qed.

Lemma string_length_app (a b : string) :
  String.length (a ++ b) = String.length a + String.length b.
Proof. induction a as [| c a IH]; simpl; [reflexivity | now rewrite IH]. Qed.

Lemma drop_app_length (a b : string) : drop (String.length a) (a ++ b) = b.
Proof. induction a as [| c a IH]; simpl; [now destruct b | exact IH]. Qed.

Lemma take_app_length (a b : string) : take (String.length a) (a ++ b) = a.
Proof.
  induction a as [| c a IH]; simpl; [now destruct b | now rewrite IH].
Qed.

Lemma forallb_string_app p (a b : string) :
  forallb_string p (a ++ b) = forallb_string p a && forallb_string p b.
Proof.
  induction a as [| c a IH]; simpl; [reflexivity |].
  now rewrite IH, Bool.andb_assoc.
Qed.

(** Characters and bytes: a text of ASCII characters has as many
    characters as bytes, and a cut keeps at most the characters asked
    for. *)
Lemma len_chars_app (a b : string) :
  len_chars (a ++ b) = len_chars a + len_chars b.
Proof.
  induction a as [| c a IH]; simpl; [reflexivity |]. rewrite IH. lia.
Qed.

Lemma len_chars_le (s : string) : len_chars s <= String.length s.
Proof.
  induction s as [| c s IH]; simpl; [lia |].
  destruct (is_continuation c); lia.
Qed.

Lemma len_chars_take_chars n s : len_chars (take_chars n s) <= n.
Proof.
  revert n. induction s as [| c s IH]; intros n; cbn [take_chars len_chars].
  - lia.
  - destruct (is_continuation c) eqn:E; cbn [len_chars]; rewrite ?E.
    + specialize (IH n). lia.
    + destruct n as [| n]; cbn [len_chars]; rewrite ?E;
        [lia | specialize (IH n); lia].
Qed.

Lemma len_chars_take_chars_eq n s :
  n <= len_chars s -> len_chars (take_chars n s) = n.
Proof.
  revert n. induction s as [| c s IH]; intros n; cbn [take_chars len_chars].
  - lia.
  - destruct (is_continuation c) eqn:E; cbn [len_chars]; rewrite ?E.
    + intros H. rewrite IH; lia.
    + destruct n as [| n]; cbn [len_chars]; rewrite ?E; [lia |].
      intros H. rewrite IH; lia.
Qed.

Lemma take_chars_all n s : len_chars s <= n -> take_chars n s = s.
Proof.
  revert n. induction s as [| c s IH]; intros n; cbn [take_chars len_chars].
  - reflexivity.
  - destruct (is_continuation c) eqn:E.
    + intros H. rewrite IH; [reflexivity | lia].
    + destruct n as [| n]; [lia |]. intros H. rewrite IH; [reflexivity | lia].
Qed.

Lemma forallb_take_chars p n s :
  forallb_string p s = true -> forallb_string p (take_chars n s) = true.
Proof.
  revert n. induction s as [| c s IH]; intros n H; cbn [take_chars];
    [reflexivity |].
  cbn [forallb_string] in H. apply Bool.andb_true_iff in H as [Hc Hs].
  destruct (is_continuation c); [| destruct n as [| n]; [reflexivity |]];
    cbn [forallb_string]; rewrite Hc; cbn [andb]; now apply IH.
Qed.

(** A match of a pattern without [<] covers no [<]. *)
Lemma lower_char_lt c :
  Ascii.eqb (lower_char c) "<" = true -> c = "<"%char.
Proof.
  destruct c as [[] [] [] [] [] [] [] []]; vm_compute; intros H;
    solve [discriminate H | reflexivity].
Qed.

Lemma behind_variant_free variants s rest :
  Forall (fun v => forallb_string not_lt v = true) variants ->
  behind_variant variants s = Some rest ->
  exists m, s = m ++ rest /\ forallb_string not_lt m = true.
Proof.
  induction variants as [| v variants IH]; intros Hv H; [discriminate |].
  inversion Hv as [| ? ? Hfree Hrest]; subst.
  cbn [behind_variant] in H.
  destruct (String.prefix v s) eqn:E.
  - apply prefix_spec in E as [post ->]. injection H as <-.
    exists v. now rewrite drop_app_length.
  - now apply IH.
Qed.

Lemma folded_to_free p :
  Forall (fun v => forallb_string not_lt v = true) (folded_to p).
Proof.
  unfold folded_to.
  destruct (Ascii.eqb (lower_char p) "i");
    [repeat constructor |].
  destruct (Ascii.eqb (lower_char p) "s"); [repeat constructor |].
  destruct (Ascii.eqb (lower_char p) "k"); repeat constructor.
Qed.

Lemma match_char_ci_free p s rest :
  Ascii.eqb (lower_char p) "<" = false ->
  match_char_ci p s = Some rest ->
  exists m, s = m ++ rest /\ forallb_string not_lt m = true.
Proof.
  intros Hp H. destruct s as [| c t]; [discriminate |].
  cbn [match_char_ci] in H.
  destruct (Ascii.eqb (lower_char c) (lower_char p)) eqn:E.
  - injection H as <-. exists (String c ""). split; [reflexivity |].
    cbn [forallb_string]. rewrite Bool.andb_true_r. unfold not_lt.
    destruct (Ascii.eqb c "<") eqn:Ec; [| reflexivity].
    apply Ascii.eqb_eq in Ec. subst c. apply Ascii.eqb_eq in E.
    rewrite <- E in Hp. discriminate Hp.
  - exact (behind_variant_free _ _ _ (folded_to_free p) H).
Qed.

Lemma match_ci_free pattern : forall s rest,
  forallb_string (fun p => negb (Ascii.eqb (lower_char p) "<")) pattern = true ->
  match_ci pattern s = Some rest ->
  exists m, s = m ++ rest /\ forallb_string not_lt m = true.
Proof.
  induction pattern as [| p pattern IH]; intros s rest Hp H.
  - injection H as <-. now exists "".
  - cbn [forallb_string] in Hp. apply Bool.andb_true_iff in Hp as [Hp1 Hp2].
    apply Bool.negb_true_iff in Hp1.
    cbn [match_ci] in H.
    destruct (match_char_ci p s) as [mid |] eqn:E; [| discriminate].
    destruct (match_char_ci_free _ _ _ Hp1 E) as (m1 & -> & H1).
    destruct (IH _ _ Hp2 H) as (m2 & -> & H2).
    exists (m1 ++ m2). split.
    + clear. induction m1 as [| c m1 IHm]; simpl; [reflexivity | now rewrite IHm].
    + now rewrite forallb_string_app, H1, H2.
Qed.

(** A match of [<script] starts with [<] and covers no other [<]. *)
Lemma match_script_shape s rest :
  match_ci "<script" s = Some rest ->
  exists m, s = String "<" (m ++ rest) /\ forallb_string not_lt m = true.
Proof.
  intros H. destruct s as [| c t]; [discriminate |].
  change (match_ci "<script" (String c t))
    with (match match_char_ci "<" (String c t) with
          | Some r => match_ci "script" r
          | None => None
          end) in H.
  cbn [match_char_ci] in H.
  destruct (Ascii.eqb (lower_char c) (lower_char "<")) eqn:E.
  - apply lower_char_lt in E. subst c.
    destruct (match_ci_free "script" t rest eq_refl H) as (m & -> & Hm).
    now exists m.
  - discriminate H.
Qed.

(** The scan of [re.findall] counts every position at which [<script]
    matches, whatever the case: two matches cannot overlap. *)
Lemma findall_script_from s : forall k,
  forallb_string not_lt (take k s) = true ->
  findall_ci_from k "<script" s = occurrences_ci "<script" s.
Proof.
  induction s as [| c s IH]; intros k Hk; [reflexivity |].
  destruct k as [| k].
  - cbn [findall_ci_from occurrences_ci].
    destruct (match_ci "<script" (String c s)) as [rest |] eqn:E.
    + cbn [Nat.add]. f_equal. apply IH.
      destruct (match_script_shape _ _ E) as (m & Hs & Hm).
      injection Hs as _ ->.
      rewrite string_length_app.
      replace (String.length m + String.length rest - String.length rest)
        with (String.length m) by lia.
      now rewrite take_app_length.
    + apply IH. now destruct s.
  - cbn [findall_ci_from occurrences_ci].
    cbn [take forallb_string] in Hk.
    apply Bool.andb_true_iff in Hk as [Hc Hk].
    destruct (match_ci "<script" (String c s)) as [rest |] eqn:E.
    + destruct (match_script_shape _ _ E) as (m & Hs & _).
      injection Hs as -> _. discriminate Hc.
    + now apply IH.
Qed.

Lemma count_script_tags s :
  count_findall_ci "<script" s = occurrences_ci "<script" s.
Proof. apply findall_script_from. reflexivity. Qed.

End StringFacts.

(* ================================================================== *)
(** ** Properties of the protection analyzer                           *)
(* ================================================================== *)

Section ProtectionFacts.
Import Py Protection.

Variable w : world.

Lemma returns_ret {A} (a : A) : returns (ret a).
Proof. intros s. now exists a, s. Qed.

Lemma returns_bind {A B} (m : M A) (k : A -> M B) :
  returns m -> (forall a, returns (k a)) -> returns (bindM m k).
Proof.
  intros Hm Hk s. unfold bindM.
  destruct (Hm s) as (a & s1 & ->). apply Hk.
Qed.

Lemma returns_try_catch {A} (body : M A) (handler : exn -> M A) :
  (forall e, returns (handler e)) -> returns (try_catch body handler).
Proof.
  intros Hh s. unfold try_catch.
  destruct (body s) as [[a | e] s1]; [now exists a, s1 | apply Hh].
Qed.

Lemma returns_for_each {A B} (f : A -> M B) (xs : list A) :
  (forall x, returns (f x)) -> returns (for_each f xs).
Proof.
  intros Hf. induction xs as [| x xs IH]; simpl.
  - apply returns_ret.
  - apply returns_bind; [apply Hf | intros y].
    apply returns_bind; [exact IH | intros ys; apply returns_ret].
Qed.

Lemma returns_if {A} (c : bool) (m1 m2 : M A) :
  returns m1 -> returns m2 -> returns (if c then m1 else m2).
Proof. now destruct c. Qed.

Lemma bindM_ok {A B} (m : M A) (k : A -> M B) s a s' :
  m s = (Ok a, s') -> bindM m k s = k a s'.
Proof. intros H. unfold bindM. now rewrite H. Qed.

Lemma sends_ret {A} (a : A) : sends 0 (ret a).
Proof. intros s. simpl. lia. Qed.

Lemma sends_bind {A B} n k (m : M A) (f : A -> M B) :
  returns m -> sends n m -> (forall a, sends k (f a)) ->
  sends (n + k) (bindM m f).
Proof.
  intros Hr Hm Hf s. specialize (Hm s).
  destruct (Hr s) as (a & s1 & E). rewrite (bindM_ok _ _ _ _ _ E).
  rewrite E in Hm. simpl in Hm. rewrite Hf. lia.
Qed.

(** A guarded request: one request is sent whether it succeeds or not. *)
Lemma sends_guarded_request {A} (f : response -> A) (h : exn -> A) :
  sends 1 (try_catch (r <~ http_request w ;; ret (f r)) (fun e => ret (h e))).
Proof.
  intros s. unfold try_catch, bindM, http_request, ret.
  destruct (http_get w (requests_sent s)); simpl; lia.
Qed.

Lemma returns_guarded {A} (body : M A) (h : exn -> A) :
  returns (try_catch body (fun e => ret (h e))).
Proof. apply returns_try_catch. intros e. apply returns_ret. Qed.

Lemma sends_for_each {A B} (f : A -> M B) (xs : list A) :
  (forall x, returns (f x)) -> (forall x, sends 1 (f x)) ->
  sends (List.length xs) (for_each f xs).
Proof.
  intros Hr Hs. induction xs as [| x xs IH]; simpl.
  - apply sends_ret.
  - change (S (List.length xs)) with (1 + List.length xs).
    apply sends_bind; [apply Hr | apply Hs | intros y].
    replace (List.length xs) with (List.length xs + 0) by lia.
    apply sends_bind;
      [apply returns_for_each, Hr | exact IH | intros; apply sends_ret].
Qed.

Lemma check_basic_access_returns : returns (check_basic_access w).
Proof. apply returns_guarded. Qed.

Lemma check_user_agent_protection_returns :
  returns (check_user_agent_protection w).
Proof.
  apply returns_bind; [| intros; apply returns_ret].
  apply returns_for_each. intros ua. apply returns_guarded.
Qed.

Lemma check_rate_limiting_returns : returns (check_rate_limiting w).
Proof.
  apply returns_bind; [| intros; apply returns_ret].
  apply returns_for_each. intros i. apply returns_guarded.
Qed.

Lemma check_cloudflare_protection_returns :
  returns (check_cloudflare_protection w).
Proof. apply returns_guarded. Qed.

Lemma check_javascript_protection_returns :
  returns (check_javascript_protection w).
Proof. apply returns_guarded. Qed.

Lemma check_captcha_protection_returns :
  returns (check_captcha_protection w).
Proof. apply returns_guarded. Qed.

Lemma check_cookie_requirements_returns :
  returns (check_cookie_requirements w).
Proof. apply returns_guarded. Qed.

Lemma http_method_returns d : returns (http_method w d).
Proof. apply returns_guarded. Qed.

Lemma chrome_method_returns : returns (chrome_method w).
Proof. apply returns_guarded. Qed.

Lemma test_bypass_methods_returns : returns (test_bypass_methods w).
Proof.
  unfold test_bypass_methods.
  apply returns_bind; [apply http_method_returns | intros m1].
  apply returns_bind; [apply http_method_returns | intros m2].
  apply returns_bind.
  { apply returns_if; [| apply returns_ret].
    apply returns_bind; [apply http_method_returns | intros; apply returns_ret]. }
  intros ms1. apply returns_bind.
  { apply returns_if; [| apply returns_ret].
    apply returns_bind; [apply http_method_returns | intros; apply returns_ret]. }
  intros ms2. apply returns_bind; [| intros; apply returns_ret].
  apply returns_if; [| apply returns_ret].
  apply returns_bind; [apply chrome_method_returns | intros; apply returns_ret].
Qed.

Lemma check_basic_access_sends : sends 1 (check_basic_access w).
Proof. apply sends_guarded_request. Qed.

Lemma check_user_agent_protection_sends :
  sends 4 (check_user_agent_protection w).
Proof.
  change 4 with (List.length user_agents + 0).
  apply sends_bind; [| | intros; apply sends_ret].
  - apply returns_for_each. intros ua. apply returns_guarded.
  - apply sends_for_each; intros ua.
    + apply returns_guarded.
    + apply sends_guarded_request.
Qed.

Lemma check_rate_limiting_sends : sends 10 (check_rate_limiting w).
Proof.
  change 10 with (List.length (seq 0 request_count) + 0).
  apply sends_bind; [| | intros; apply sends_ret].
  - apply returns_for_each. intros ua. apply returns_guarded.
  - apply sends_for_each; intros ua.
    + apply returns_guarded.
    + apply sends_guarded_request.
Qed.

Lemma check_cloudflare_protection_sends :
  sends 1 (check_cloudflare_protection w).
Proof. apply sends_guarded_request. Qed.


Lemma analyze_normal_path url s b s1 :
  check_basic_access w s = (Ok b, s1) ->
  accessible b = true ->
  exists ua s2 rl s3 cf s4 js s5 cp s6 ck s7 methods s8 r,
    check_user_agent_protection w s1 = (Ok ua, s2)
    /\ check_rate_limiting w s2 = (Ok rl, s3)
    /\ check_cloudflare_protection w s3 = (Ok cf, s4)
    /\ check_javascript_protection w s4 = (Ok js, s5)
    /\ check_captcha_protection w s5 = (Ok cp, s6)
    /\ check_cookie_requirements w s6 = (Ok ck, s7)
    /\ test_bypass_methods w s7 = (Ok methods, s8)
    /\ analyze w url s = (Ok r, s8)
    /\ mechanisms r = normal_mechanisms b ua rl cf js cp ck
    /\ bypass_methods r = methods
    /\ total_score r = sum_scores (mechanisms r)
    /\ complexity_level r = level_of_score (total_score r).
Proof.
  intros Hb Hacc.
  destruct (check_user_agent_protection_returns s1) as (ua & s2 & Hua).
  destruct (check_rate_limiting_returns s2) as (rl & s3 & Hrl).
  destruct (check_cloudflare_protection_returns s3) as (cf & s4 & Hcf).
  destruct (check_javascript_protection_returns s4) as (js & s5 & Hjs).
  destruct (check_captcha_protection_returns s5) as (cp & s6 & Hcp).
  destruct (check_cookie_requirements_returns s6) as (ck & s7 & Hck).
  destruct (test_bypass_methods_returns s7) as (methods & s8 & Hbp).
  exists ua, s2, rl, s3, cf, s4, js, s5, cp, s6, ck, s7, methods, s8.
  unfold analyze.
  rewrite (bindM_ok _ _ _ _ _ Hb). rewrite Hacc. cbv beta iota delta [negb].
  rewrite (bindM_ok _ _ _ _ _ Hua), (bindM_ok _ _ _ _ _ Hrl),
    (bindM_ok _ _ _ _ _ Hcf), (bindM_ok _ _ _ _ _ Hjs),
    (bindM_ok _ _ _ _ _ Hcp), (bindM_ok _ _ _ _ _ Hck),
    (bindM_ok _ _ _ _ _ Hbp).
  cbv zeta.
  match goal with
  | |- context [match ?l with [] => _ | _ :: _ => _ end] => destruct l
  end; eexists; repeat split; try eassumption; try reflexivity.
Qed.


Lemma reports_accessible_spec s b s1 :
  check_basic_access w s = (Ok b, s1) -> reports_accessible w s = accessible b.
Proof. intros H. unfold reports_accessible. now rewrite H. Qed.

Lemma short_circuit_shape url s :
  reports_accessible w s = false ->
  exists r s' f,
    analyze w url s = (Ok r, s') /\ mechanisms r = [("basic_access", f)].
Proof.
  intros Hacc.
  destruct (check_basic_access_returns s) as (b & s1 & Hb).
  rewrite (reports_accessible_spec _ _ _ Hb) in Hacc.
  unfold analyze. rewrite (bindM_ok _ _ _ _ _ Hb), Hacc.
  do 3 eexists. split; reflexivity.
Qed.

(** C1. When the basic-access probe reports the URL inaccessible,
    [analyze] returns a report with total score 100 and tier CRITICAL whose
    mechanisms hold the single key [basic_access], with [detected] false;
    the run ends in the state reached right after that probe, one request
    sent, so no other probe is evaluated. *)
Theorem inaccessible_site_short_circuit url s :
  reports_accessible w s = false ->
  exists r s' f,
    analyze w url s = (Ok r, s')
    /\ total_score r = 100%Z
    /\ complexity_level r = "CRITICAL"
    /\ mechanisms r = [("basic_access", f)]
    /\ detected f = false
    /\ bypass_methods r = []
    /\ snd (check_basic_access w s) = s'
    /\ requests_sent s' = requests_sent s + 1.
Proof.
  intros Hacc.
  destruct (check_basic_access_returns s) as (b & s1 & Hb).
  rewrite (reports_accessible_spec _ _ _ Hb) in Hacc.
  exists (set_complexity_level "CRITICAL"
            (set_total_score 100
               (set_mechanism "basic_access" (basic_access_finding b)
                  {| url := url; timestamp := strftime w; mechanisms := [];
                     bypass_methods := []; total_score := 0;
                     complexity_level := "LOW"; best_method := None;
                     bypass_success_rate := None |}))),
    s1, (basic_access_finding b).
  unfold analyze. rewrite (bindM_ok _ _ _ _ _ Hb), Hacc.
  repeat split; try reflexivity.
  - simpl. exact Hacc.
  - now rewrite Hb.
  - pose proof (check_basic_access_sends s) as H. now rewrite Hb in H.
Qed.

(** C2. On the normal path the tier is the step function of the total
    score: at least 80 is CRITICAL, 60 to 79 is HIGH, 40 to 59 is MEDIUM,
    below 40 is LOW. *)
Theorem tier_is_step_function_of_score url s :
  reports_accessible w s = true ->
  exists r s',
    analyze w url s = (Ok r, s')
    /\ ((80 <= total_score r)%Z -> complexity_level r = "CRITICAL")
    /\ ((60 <= total_score r < 80)%Z -> complexity_level r = "HIGH")
    /\ ((40 <= total_score r < 60)%Z -> complexity_level r = "MEDIUM")
    /\ ((total_score r < 40)%Z -> complexity_level r = "LOW").
Proof.
  intros Hacc.
  destruct (check_basic_access_returns s) as (b & s1 & Hb).
  rewrite (reports_accessible_spec _ _ _ Hb) in Hacc.
  destruct (analyze_normal_path url s b s1 Hb Hacc)
    as (ua & s2 & rl & s3 & cf & s4 & js & s5 & cp & s6 & ck & s7 & methods
        & s8 & r & _ & _ & _ & _ & _ & _ & _ & Hr & _ & _ & _ & Hlevel).
  exists r, s8. split; [exact Hr |]. rewrite Hlevel. unfold level_of_score.
  repeat split; intros H.
  - destruct (Z.leb_spec 80 (total_score r)); [reflexivity | lia].
  - destruct (Z.leb_spec 80 (total_score r)); [lia |].
    destruct (Z.leb_spec 60 (total_score r)); [reflexivity | lia].
  - destruct (Z.leb_spec 80 (total_score r)); [lia |].
    destruct (Z.leb_spec 60 (total_score r)); [lia |].
    destruct (Z.leb_spec 40 (total_score r)); [reflexivity | lia].
  - destruct (Z.leb_spec 80 (total_score r)); [lia |].
    destruct (Z.leb_spec 60 (total_score r)); [lia |].
    destruct (Z.leb_spec 40 (total_score r)); [lia | reflexivity].
Qed.

(** C3, as amended. On the normal path the total score is the sum of all
    recorded mechanism scores, the 10 points of [basic_access]
    included. *)
Theorem total_score_sums_every_mechanism url s :
  reports_accessible w s = true ->
  exists r s' f,
    analyze w url s = (Ok r, s')
    /\ total_score r = sum_scores (mechanisms r)
    /\ dict_get "basic_access" (mechanisms r) = Some f
    /\ score f = 10%Z
    /\ total_score r
       = (10 + sum_scores (dict_remove "basic_access" (mechanisms r)))%Z.
Proof.
  intros Hacc.
  destruct (check_basic_access_returns s) as (b & s1 & Hb).
  rewrite (reports_accessible_spec _ _ _ Hb) in Hacc.
  destruct (analyze_normal_path url s b s1 Hb Hacc)
    as (ua & s2 & rl & s3 & cf & s4 & js & s5 & cp & s6 & ck & s7 & methods
        & s8 & r & _ & _ & _ & _ & _ & _ & _ & Hr & Hm & _ & Htotal & _).
  exists r, s8, (basic_access_finding b).
  split; [exact Hr |]. split; [exact Htotal |].
  rewrite Htotal, Hm. unfold normal_mechanisms, basic_access_finding.
  rewrite Hacc. repeat split. unfold sum_scores.
  destruct (ua_protection_detected ua), (rl_protection_detected rl),
    (dr_detected cf), (js_required js), (dr_detected cp), (cookies_used ck);
    reflexivity.
Qed.

(** C6. [analyze] returns a report in every environment and from every
    state, whichever requests fail: when the first probe fails the report
    holds the [basic_access] finding alone, otherwise it holds a finding
    for each of the seven mechanisms. *)
Theorem probe_failures_are_findings url s :
  exists r s',
    analyze w url s = (Ok r, s')
    /\ keys (mechanisms r)
       = if reports_accessible w s
         then [ "basic_access"; "user_agent"; "rate_limiting"; "cloudflare";
                "javascript"; "captcha"; "cookies" ]
         else [ "basic_access" ].
Proof.
  destruct (reports_accessible w s) eqn:Hacc.
  - destruct (check_basic_access_returns s) as (b & s1 & Hb).
    rewrite (reports_accessible_spec _ _ _ Hb) in Hacc.
    destruct (analyze_normal_path url s b s1 Hb Hacc)
      as (ua & s2 & rl & s3 & cf & s4 & js & s5 & cp & s6 & ck & s7 & methods
          & s8 & r & _ & _ & _ & _ & _ & _ & _ & Hr & Hm & _).
    exists r, s8. split; [exact Hr |]. now rewrite Hm.
  - destruct (short_circuit_shape url s Hacc)
      as (r & s' & f & Hr & Hm).
    exists r, s'. split; [exact Hr |]. now rewrite Hm.
Qed.


Lemma javascript_heuristic s resp js s' :
  SELENIUM_AVAILABLE w = false ->
  http_get w (requests_sent s) = Ok resp ->
  check_javascript_protection w s = (Ok js, s') ->
  js_required js = (2 <=? sum_bools (js_indicators (text resp)))%nat.
Proof.
  intros Hsel Hget. unfold check_javascript_protection, try_catch, bindM.
  unfold http_request at 1. rewrite Hget, Hsel. unfold ret.
  intros H. injection H as <- _. reflexivity.
Qed.

Lemma requests_before_javascript s b s1 ua s2 rl s3 cf s4 :
  check_basic_access w s = (Ok b, s1) ->
  check_user_agent_protection w s1 = (Ok ua, s2) ->
  check_rate_limiting w s2 = (Ok rl, s3) ->
  check_cloudflare_protection w s3 = (Ok cf, s4) ->
  requests_sent s4 = requests_sent s + 16.
Proof.
  intros H1 H2 H3 H4.
  pose proof (check_basic_access_sends s) as E1. rewrite H1 in E1.
  pose proof (check_user_agent_protection_sends s1) as E2. rewrite H2 in E2.
  pose proof (check_rate_limiting_sends s2) as E3. rewrite H3 in E3.
  pose proof (check_cloudflare_protection_sends s3) as E4. rewrite H4 in E4.
  simpl in *. lia.
Qed.

(** C8. Without a headless browser, when the body fetched by the
    JavaScript probe (the 17th request of the run) is [body], the
    [javascript] finding is detected exactly when at least two of the five
    indicators hold: more than ten [<script] tags, [loading],
    [please wait] or [javascript] in the body whatever the case, fewer
    than 1000 characters; its score is 30 when detected and 10
    otherwise. *)
Theorem javascript_heuristic_without_browser url s resp :
  SELENIUM_AVAILABLE w = false ->
  reports_accessible w s = true ->
  http_get w (requests_sent s + 16) = Ok resp ->
  exists r s' f,
    analyze w url s = (Ok r, s')
    /\ dict_get "javascript" (mechanisms r) = Some f
    /\ (detected f = true <->
        2 <= sum_bools
               [ (10 <? count_findall_ci "<script" (text resp))%nat;
                 contains "loading" (lower (text resp));
                 contains "please wait" (lower (text resp));
                 contains "javascript" (lower (text resp));
                 (len_chars (text resp) <? 1000)%nat ])
    /\ score f = (if detected f then 30 else 10)%Z.
Proof.
  intros Hsel Hacc Hget.
  destruct (check_basic_access_returns s) as (b & s1 & Hb).
  rewrite (reports_accessible_spec _ _ _ Hb) in Hacc.
  destruct (analyze_normal_path url s b s1 Hb Hacc)
    as (ua & s2 & rl & s3 & cf & s4 & js & s5 & cp & s6 & ck & s7 & methods
        & s8 & r & Hua & Hrl & Hcf & Hjs & _ & _ & _ & Hr & Hm & _).
  rewrite <- (requests_before_javascript _ _ _ _ _ _ _ _ _ Hb Hua Hrl Hcf)
    in Hget.
  pose proof (javascript_heuristic _ _ _ _ Hsel Hget Hjs) as Hreq.
  exists r, s8.
  eexists. split; [exact Hr |]. rewrite Hm. split; [reflexivity |].
  cbn [detected score]. split; [| reflexivity].
  rewrite Hreq. unfold js_indicators. apply Nat.leb_le.
Qed.

End ProtectionFacts.

Import Py Protection.

(** C1 at a site that answers 503 to every request. *)
Lemma inaccessible_site_short_circuit_witness :
  exists r s' f,
    analyze unavailable_site "https://example.com" fresh = (Ok r, s')
    /\ total_score r = 100%Z
    /\ complexity_level r = "CRITICAL"
    /\ mechanisms r = [("basic_access", f)]
    /\ detected f = false
    /\ bypass_methods r = []
    /\ snd (check_basic_access unavailable_site fresh) = s'
    /\ requests_sent s' = requests_sent fresh + 1.
Proof.
  apply (inaccessible_site_short_circuit unavailable_site). reflexivity.
Defined.

(** C2 at a site that answers 200 to every request. *)
Lemma tier_is_step_function_of_score_witness :
  exists r s',
    analyze plain_site "https://example.com" fresh = (Ok r, s')
    /\ ((80 <= total_score r)%Z -> complexity_level r = "CRITICAL")
    /\ ((60 <= total_score r < 80)%Z -> complexity_level r = "HIGH")
    /\ ((40 <= total_score r < 60)%Z -> complexity_level r = "MEDIUM")
    /\ ((total_score r < 40)%Z -> complexity_level r = "LOW").
Proof.
  apply (tier_is_step_function_of_score plain_site). reflexivity.
Defined.

(** C3 as stated fails at a site that answers 200 to every request: the
    total is 35, the scores without [basic_access] add up to 25. *)
Lemma total_score_excluding_basic_access_fails :
  exists r s',
    analyze plain_site "https://example.com" fresh = (Ok r, s')
    /\ reports_accessible plain_site fresh = true
    /\ total_score r = 35%Z
    /\ sum_scores (dict_remove "basic_access" (mechanisms r)) = 25%Z
    /\ total_score r
       <> sum_scores (dict_remove "basic_access" (mechanisms r)).
Proof.
  do 2 eexists. split; [vm_compute; reflexivity |].
  repeat split; discriminate.
Qed.

Lemma total_score_sums_every_mechanism_witness :
  exists r s' f,
    analyze plain_site "https://example.com" fresh = (Ok r, s')
    /\ total_score r = sum_scores (mechanisms r)
    /\ dict_get "basic_access" (mechanisms r) = Some f
    /\ score f = 10%Z
    /\ total_score r
       = (10 + sum_scores (dict_remove "basic_access" (mechanisms r)))%Z.
Proof.
  apply (total_score_sums_every_mechanism plain_site). reflexivity.
Defined.

(** C8 at a page that shows a loader: three indicators hold. *)
Lemma javascript_heuristic_without_browser_witness :
  exists r s' f,
    analyze loader_site "https://example.com" fresh = (Ok r, s')
    /\ dict_get "javascript" (mechanisms r) = Some f
    /\ (detected f = true <->
        2 <= sum_bools
               [ (10 <? count_findall_ci "<script"
                          "<html>Loading... please wait</html>")%nat;
                 contains "loading" (lower "<html>Loading... please wait</html>");
                 contains "please wait"
                   (lower "<html>Loading... please wait</html>");
                 contains "javascript"
                   (lower "<html>Loading... please wait</html>");
                 (len_chars "<html>Loading... please wait</html>" <? 1000)%nat ])
    /\ score f = (if detected f then 30 else 10)%Z.
Proof.
  apply (javascript_heuristic_without_browser loader_site
           "https://example.com" fresh
           (page 200 "<html>Loading... please wait</html>"));
    reflexivity.
Defined.

Example loader_site_scores_30 :
  exists r s',
    analyze loader_site "https://example.com" fresh = (Ok r, s')
    /\ option_map score (dict_get "javascript" (mechanisms r)) = Some 30%Z.
Proof. do 2 eexists. split; vm_compute; reflexivity. Qed.

(** The length of the body is counted in characters: a body of 611
    characters in 1211 bytes is short, which together with the word
    [javascript] makes two indicators. *)
Example cyrillic_site_is_short :
  String.length cyrillic_body = 1211
  /\ len_chars cyrillic_body = 611
  /\ js_indicators cyrillic_body = [false; false; false; true; true]
  /\ exists r s' f,
       analyze cyrillic_site "https://example.com" fresh = (Ok r, s')
       /\ dict_get "javascript" (mechanisms r) = Some f
       /\ detected f = true.
Proof.
  repeat split; try (vm_compute; reflexivity).
  do 3 eexists. split; [vm_compute; reflexivity |]. split; reflexivity.
Qed.

(** Eleven [<script] written with the long s are eleven script tags. *)
Example long_s_script_tags :
  count_findall_ci "<script"
    (repeat_string 11 ("<" ++ utf8 [197; 191] ++ "cript>"))
  = 11.
Proof. vm_compute. reflexivity. Qed.

Example dropping_site_report :
  exists r s',
    analyze dropping_site "https://example.com" fresh = (Ok r, s')
    /\ total_score r = 60%Z /\ complexity_level r = "HIGH"
    /\ map (fun kv => detected (snd kv)) (mechanisms r)
       = [true; true; true; false; false; false; false].
Proof. do 2 eexists. split; [vm_compute; reflexivity |]. repeat split. Qed.

(* ================================================================== *)
(** ** Properties of the structure analyzer                            *)
(* ================================================================== *)

Section DictFacts.
Import Py.
Context {V : Type}.

Lemma dict_get_set (k k' : string) (v : V) (d : dict V) :
  dict_get k (dict_set k' v d) = if k' =? k then Some v else dict_get k d.
Proof.
  induction d as [| [k0 v0] d IH]; simpl.
  - reflexivity.
  - destruct (k0 =? k') eqn:E0; simpl.
    + apply String.eqb_eq in E0. subst k0.
      destruct (k' =? k); reflexivity.
    + rewrite IH. destruct (k0 =? k) eqn:E1; [| reflexivity].
      apply String.eqb_eq in E1. subst k0.
      now rewrite String.eqb_sym, E0.
Qed.

Lemma dict_get_set_other (k k' : string) (v : V) (d : dict V) :
  (k' =? k) = false -> dict_get k (dict_set k' v d) = dict_get k d.
Proof. intros H. now rewrite dict_get_set, H. Qed.

End DictFacts.

Section SortFacts.
Import Py Structure.

Lemma insert_desc_perm x l : Permutation (x :: l) (insert_desc x l).
Proof.
  induction l as [| y l IH]; simpl; [reflexivity |].
  destruct (count x <? count y)%nat; [| reflexivity].
  rewrite perm_swap. now apply perm_skip.
Qed.

Lemma sorted_by_count_desc_perm l : Permutation l (sorted_by_count_desc l).
Proof.
  induction l as [| x l IH]; simpl; [constructor |].
  rewrite <- insert_desc_perm. now apply perm_skip.
Qed.

Lemma insert_desc_sorted x l :
  StronglySorted count_desc l -> StronglySorted count_desc (insert_desc x l).
Proof.
  induction l as [| y l IH]; simpl; intros Hs.
  - repeat constructor.
  - inversion Hs as [| ? ? Hl Hy]; subst.
    destruct (Nat.ltb_spec (count x) (count y)) as [Hlt | Hge].
    + constructor; [now apply IH |].
      rewrite <- insert_desc_perm. constructor; [unfold count_desc; lia | exact Hy].
    + constructor; [exact Hs |].
      constructor; [exact Hge |].
      eapply Forall_impl; [| exact Hy]. unfold count_desc. intros; lia.
Qed.

Lemma sorted_by_count_desc_sorted l :
  StronglySorted count_desc (sorted_by_count_desc l).
Proof.
  induction l as [| x l IH]; simpl; [constructor |].
  now apply insert_desc_sorted.
Qed.

Lemma with_count_insert n x l :
  with_count n (insert_desc x l) = with_count n (x :: l).
Proof.
  unfold with_count. induction l as [| y l IH]; simpl; [reflexivity |].
  destruct (Nat.ltb_spec (count x) (count y)) as [Hlt | Hge]; [| reflexivity].
  simpl. rewrite IH. simpl.
  destruct (Nat.eqb_spec (count x) n), (Nat.eqb_spec (count y) n);
    try reflexivity; lia.
Qed.

(** The sort is stable: candidates with equal counts keep their order. *)
Lemma sorted_by_count_desc_stable n l :
  with_count n (sorted_by_count_desc l) = with_count n l.
Proof.
  induction l as [| x l IH]; simpl; [reflexivity |].
  rewrite with_count_insert. unfold with_count in *. simpl. now rewrite IH.
Qed.

Lemma type_selectors_cons s p pats :
  type_selectors s (p :: pats)
  = (type_selectors s [p] ++ type_selectors s pats)%list.
Proof. unfold type_selectors. simpl. now rewrite app_nil_r. Qed.

Lemma type_selectors_single s p :
  type_selectors s [p]
  = match select p s with
    | [] => []
    | first :: _ =>
        [ {| selector := css_text p;
             count := List.length (select p s);
             sample_text := Some (take_chars 100 (strip (get_text first)));
             cand_description := None |} ]
    end.
Proof.
  unfold type_selectors. simpl. rewrite app_nil_r.
  now destruct (select p s).
Qed.

(** The candidates are collected in pattern order, one for each pattern
    that matches. *)
Lemma type_selectors_in_pattern_order s pats :
  map selector (type_selectors s pats)
  = map css_text
      (filter (fun p => negb (Nat.eqb (List.length (select p s)) 0)) pats).
Proof.
  induction pats as [| p pats IH]; [reflexivity |].
  rewrite type_selectors_cons, map_app, IH, type_selectors_single.
  simpl. now destruct (select p s).
Qed.

Lemma type_selectors_counts s pats :
  Forall (fun c => 0 < count c) (type_selectors s pats).
Proof.
  induction pats as [| p pats IH]; [constructor |].
  rewrite type_selectors_cons, type_selectors_single.
  apply Forall_app. split; [| exact IH].
  destruct (select p s); [constructor |].
  constructor; [simpl; lia | constructor].
Qed.

Lemma type_selectors_no_match s pats :
  (forall p, In p pats -> select p s = []) -> type_selectors s pats = [].
Proof.
  induction pats as [| p pats IH]; intros H; [reflexivity |].
  rewrite type_selectors_cons, type_selectors_single.
  rewrite (H p (or_introl eq_refl)). simpl. apply IH.
  intros q Hq. apply H. now right.
Qed.

Lemma fold_add_category_other s l d cat :
  (forall e, In e l -> (fst e =? cat) = false) ->
  dict_get cat (fold_left (add_category s) l d) = dict_get cat d.
Proof.
  revert d. induction l as [| e l IH]; simpl; intros d H; [reflexivity |].
  rewrite IH by (intros; apply H; now right).
  unfold add_category. cbv zeta.
  destruct (type_selectors s (snd e)); [reflexivity |].
  apply dict_get_set_other. apply H. now left.
Qed.

Lemma fold_add_category s l d cat pats :
  NoDup (keys l) -> In (cat, pats) l ->
  dict_get cat (fold_left (add_category s) l d)
  = match type_selectors s pats with
    | [] => dict_get cat d
    | _ => Some (sorted_by_count_desc (type_selectors s pats))
    end.
Proof.
  revert d. induction l as [| e l IH]; simpl; intros d Hnd Hin; [easy |].
  inversion Hnd as [| ? ? Hnotin Hnd']; subst.
  destruct Hin as [-> | Hin].
  - rewrite fold_add_category_other.
    + unfold add_category. cbv zeta. simpl.
      destruct (type_selectors s pats); [reflexivity |].
      now rewrite dict_get_set, String.eqb_refl.
    + intros e He. apply String.eqb_neq. intros <-.
      apply Hnotin. simpl. unfold keys. now apply in_map.
  - rewrite (IH _ Hnd' Hin).
    destruct (type_selectors s pats); [| reflexivity].
    unfold add_category. cbv zeta.
    destruct (type_selectors s (snd e)); [reflexivity |].
    apply dict_get_set_other. apply String.eqb_neq. intros E.
    apply Hnotin. rewrite E. unfold keys.
    change cat with (fst (cat, pats)). now apply in_map.
Qed.

Lemma fold_add_common_other s l d cat :
  forallb (fun e => negb ("common_" ++ fst e =? cat)) l = true ->
  dict_get cat (fold_left (add_common s) l d) = dict_get cat d.
Proof.
  revert d. induction l as [| e l IH]; simpl; intros d H; [reflexivity |].
  apply andb_prop in H as [He Hl]. rewrite (IH _ Hl).
  unfold add_common. cbv zeta.
  destruct (select (snd e) s); [reflexivity |].
  apply dict_get_set_other. now apply negb_true_iff.
Qed.

Lemma content_patterns_keys : NoDup (keys content_patterns).
Proof.
  unfold keys. simpl.
  repeat (constructor; [simpl; intuition discriminate |]). constructor.
Qed.

(** What [generate_selectors] records for a content category. *)
Lemma generate_selectors_category s ct cat pats :
  In (cat, pats) content_patterns ->
  dict_get cat (generate_selectors s ct)
  = match type_selectors s pats with
    | [] => None
    | _ => Some (sorted_by_count_desc (type_selectors s pats))
    end.
Proof.
  intros Hin. unfold generate_selectors. cbv zeta.
  rewrite fold_add_common_other.
  - now rewrite (fold_add_category s _ [] cat pats content_patterns_keys Hin).
  - simpl in Hin.
    repeat (destruct Hin as [Hin | Hin];
            [injection Hin as <- _; reflexivity |]).
    contradiction.
Qed.

End SortFacts.

Section SelectorClaims.
Import Py Structure.

(** C7, as amended. A content category none of whose patterns matches an
    element gets no key in the suggested selectors; [generate_selectors]
    returns all the same. *)
Theorem category_without_matches_is_omitted s ct cat pats :
  In (cat, pats) content_patterns ->
  (forall p, In p pats -> select p s = []) ->
  dict_get cat (generate_selectors s ct) = None
  /\ dict_mem cat (generate_selectors s ct) = false.
Proof.
  intros Hin Hnone. unfold dict_mem.
  rewrite (generate_selectors_category s ct cat pats Hin).
  now rewrite (type_selectors_no_match s pats Hnone).
Qed.

(** The operations on the document, loop by loop. *)
Lemma read_fold_reads {A B} (f : B -> A -> reading B) (g : soup -> B -> A -> B)
    (l : list A) :
  (forall b x s, f b x s = (g s b x, s)) ->
  forall b s, read_fold f l b s = (fold_left (g s) l b, s).
Proof.
  intros Hf. induction l as [| x l IH]; intros b s; [reflexivity |].
  cbn [read_fold fold_left]. unfold read_bind. rewrite Hf. apply IH.
Qed.

Lemma fold_left_app_flat_map {A B} (h : A -> list B) (l : list A) :
  forall acc,
    fold_left (fun acc x => (acc ++ h x)%list) l acc
    = (acc ++ flat_map h l)%list.
Proof.
  induction l as [| x l IH]; intros acc; cbn [fold_left flat_map].
  - now rewrite app_nil_r.
  - now rewrite IH, app_assoc.
Qed.

Lemma count_type_reads content_types entry s :
  OnDocument.count_type content_types entry s
  = (dict_set (fst entry)
       (List.length (distinct (elements_found s (snd entry)))) content_types,
     s).
Proof.
  unfold OnDocument.count_type, read_bind.
  rewrite (read_fold_reads _
             (fun s acc selector => (acc ++ select selector s)%list))
    by reflexivity.
  rewrite (read_fold_reads _
             (fun s acc keyword =>
                (acc ++ find_all_attr_re "class" keyword s
                     ++ find_all_attr_re "id" keyword s)%list))
    by reflexivity.
  unfold read_ret, elements_found.
  rewrite (fold_left_app_flat_map (fun selector => select selector s)).
  rewrite (fold_left_app_flat_map
             (fun keyword =>
                (find_all_attr_re "class" keyword s
                 ++ find_all_attr_re "id" keyword s)%list)).
  reflexivity.
Qed.

Lemma detect_content_types_reads s :
  OnDocument.detect_content_types s = (detect_content_types s, s).
Proof.
  unfold OnDocument.detect_content_types, detect_content_types.
  apply (read_fold_reads _
           (fun s content_types entry =>
              dict_set (fst entry)
                (List.length (distinct (elements_found s (snd entry))))
                content_types)).
  intros b x s0. apply count_type_reads.
Qed.

Lemma collect_pattern_reads acc pattern s :
  OnDocument.collect_pattern acc pattern s
  = ((acc ++ type_selectors s [pattern])%list, s).
Proof.
  unfold OnDocument.collect_pattern, read_bind, soup_select.
  rewrite type_selectors_single.
  destruct (select pattern s) as [| first rest] eqn:E.
  - unfold read_ret. now rewrite app_nil_r.
  - reflexivity.
Qed.

Lemma collect_patterns_reads pats s :
  read_fold OnDocument.collect_pattern pats [] s = (type_selectors s pats, s).
Proof.
  rewrite (read_fold_reads _
             (fun s acc pattern => (acc ++ type_selectors s [pattern])%list))
    by (intros; apply collect_pattern_reads).
  rewrite (fold_left_app_flat_map (fun pattern => type_selectors s [pattern])).
  cbn [app]. f_equal.
  induction pats as [| p pats IH]; [reflexivity |].
  cbn [flat_map]. now rewrite IH, <- type_selectors_cons.
Qed.

Lemma add_category_reads selectors entry s :
  OnDocument.add_category selectors entry s
  = (add_category s selectors entry, s).
Proof.
  unfold OnDocument.add_category, read_bind. rewrite collect_patterns_reads.
  unfold add_category. now destruct (type_selectors s (snd entry)).
Qed.

Lemma add_common_reads selectors entry s :
  OnDocument.add_common selectors entry s = (add_common s selectors entry, s).
Proof.
  unfold OnDocument.add_common, read_bind, soup_select, add_common.
  now destruct (select (snd entry) s).
Qed.

Lemma generate_selectors_reads content_types s :
  OnDocument.generate_selectors content_types s
  = (generate_selectors s content_types, s).
Proof.
  unfold OnDocument.generate_selectors, read_bind, generate_selectors.
  rewrite (read_fold_reads _ add_category)
    by (intros; apply add_category_reads).
  apply (read_fold_reads _ add_common). intros. apply add_common_reads.
Qed.

Lemma classification_run_reads s :
  classification_run s
  = ((detect_content_types s, generate_selectors s (detect_content_types s)),
     s).
Proof.
  unfold classification_run, read_bind.
  now rewrite detect_content_types_reads, generate_selectors_reads.
Qed.

(** Each candidate stands for one matching pattern, in pattern order,
    and its count is the number of elements that the pattern selects. *)
Lemma type_selectors_matches s pats :
  Forall2
    (fun p c =>
       selector c = css_text p /\ count c = List.length (select p s))
    (filter (fun p => negb (Nat.eqb (List.length (select p s)) 0)) pats)
    (type_selectors s pats).
Proof.
  induction pats as [| p pats IH]; [constructor |].
  rewrite type_selectors_cons, type_selectors_single. cbn [filter].
  destruct (select p s) as [| first rest] eqn:E; cbn [List.length Nat.eqb negb app].
  - exact IH.
  - constructor; [| exact IH]. cbn [selector count]. rewrite E.
    split; reflexivity.
Qed.

(** C9. Content detection and selector synthesis, run on a document and
    then again on the document that the first run leaves, leave the
    document as it was and give the same tallies and the same candidate
    lists both times.  For each content category the candidates stand
    for the patterns that match, in pattern order, each with the number
    of elements that its pattern selects as count; the recorded list is
    that list sorted by count in descending order, candidates with equal
    counts keeping their pattern order. *)
Theorem classification_is_repeatable_and_stably_sorted (s : soup) :
  (let first := classification_run s in
   let second := classification_run (snd first) in
   snd first = s /\ snd second = s /\ fst second = fst first)
  /\ Forall
       (fun entry =>
          let matching :=
            filter (fun p => negb (Nat.eqb (List.length (select p s)) 0))
              (snd entry) in
          let raw := type_selectors s (snd entry) in
          let out := sorted_by_count_desc raw in
          dict_get (fst entry) (snd (fst (classification_run s)))
          = match raw with [] => None | _ => Some out end
          /\ Forall2
               (fun p c =>
                  selector c = css_text p
                  /\ count c = List.length (select p s))
               matching raw
          /\ Permutation raw out
          /\ StronglySorted count_desc out
          /\ forall n, with_count n out = with_count n raw)
       content_patterns.
Proof.
  split.
  - cbv zeta. repeat (rewrite classification_run_reads; cbn [fst snd]).
    repeat split.
  - apply Forall_forall. intros [cat pats] Hin. cbv zeta.
    rewrite classification_run_reads. cbn [fst snd].
    repeat split.
    + apply generate_selectors_category, Hin.
    + apply type_selectors_matches.
    + apply sorted_by_count_desc_perm.
    + apply sorted_by_count_desc_sorted.
    + intros n. apply sorted_by_count_desc_stable.
Qed.

End SelectorClaims.

Section StructureClaims.
Import Py Structure.

Variable analyze_basic_info : soup -> result (dict pyval).
Variable analyze_dom_structure : soup -> result (dict pyval).
Variable analyze_links_and_forms : soup -> string -> result (dict pyval).
Variable analyze_scripts_and_styles : soup -> result (dict pyval).
Variable analyze_performance_indicators : soup -> result (dict pyval).
Variable evaluate_parsing_complexity : dict pyval -> result (dict pyval).

(** C4, as amended. When the page cannot be retrieved or parsed,
    [get_page_content] raises, and [analyze] catches it: it returns a
    dictionary holding the URL, the timestamp, the analysis type, the
    error message and [success = False], and none of the analysis
    fields. *)
Theorem fetch_failure_returns_error_record w url e :
  get_page_content w = Raise e ->
  analyze analyze_basic_info analyze_dom_structure analyze_links_and_forms
    analyze_scripts_and_styles analyze_performance_indicators
    evaluate_parsing_complexity w url
  = Ok [ ("url", VStr url); ("timestamp", VStr (strftime w));
         ("analysis_type", VStr "structure"); ("error", VStr (str_exn e));
         ("success", VBool false) ].
Proof. intros H. unfold analyze, step. rewrite H. reflexivity. Qed.

End StructureClaims.

Import Py Structure.

(** [get_page_content] raises exactly when the request fails, the status
    is an error status, no encoding is declared, or the parser fails. *)
Lemma get_page_content_raises w :
  (exists e, get_page_content w = Raise e) <->
  match fetch w with
  | Raise _ => True
  | Ok r =>
      (400 <= page_status r < 600)%Z \/ encoding r = None
      \/ exists e, parsed r = Raise e
  end.
Proof.
  unfold get_page_content, try_except, bind, raise_for_status.
  destruct (fetch w) as [r | e]; [| split; [trivial | intros _; eexists; reflexivity]].
  destruct (Z.leb_spec 400 (page_status r)) as [Hlo | Hlo];
    [destruct (Z.ltb_spec (page_status r) 600) as [Hhi | Hhi] |]; simpl.
  1: split; [intros _; left; lia | intros _; eexists; reflexivity].
  all: destruct (encoding r) as [enc |]; simpl.
  2, 4: split; [intros _; right; left; reflexivity | intros _; eexists; reflexivity].
  all: destruct (parsed r) as [doc | e]; simpl.
  2, 4: split; [intros _; right; right; eexists; reflexivity
               | intros _; eexists; reflexivity].
  all: split; [intros [e He]; discriminate
              | intros [H | [H | [e H]]]; try lia; discriminate].
Qed.

Lemma category_without_matches_is_omitted_witness :
  dict_get "products" (generate_selectors three_articles []) = None
  /\ dict_mem "products" (generate_selectors three_articles []) = false.
Proof.
  apply (category_without_matches_is_omitted three_articles [] "products"
           [class_contains "product"; class_contains "item";
            class_contains "card"]).
  - simpl. left. reflexivity.
  - intros p [<- | [<- | [<- | []]]]; reflexivity.
Defined.

(** C7 as stated fails on a document with three articles and nothing
    that matches a product pattern: the key [products] is missing, it is
    not mapped to an empty list. *)
Lemma no_product_match_gives_no_empty_list :
  Forall (fun p => select p three_articles = [])
    [class_contains "product"; class_contains "item"; class_contains "card"]
  /\ dict_get "products"
       (generate_selectors three_articles (detect_content_types three_articles))
     <> Some []
  /\ dict_mem "products"
       (generate_selectors three_articles (detect_content_types three_articles))
     = false.
Proof.
  split; [repeat constructor |]. split; [discriminate | reflexivity].
Qed.

Example three_articles_detection :
  dict_get "articles" (detect_content_types three_articles) = Some 3
  /\ dict_get "products" (detect_content_types three_articles) = Some 0
  /\ option_map (map (fun c => (selector c, count c)))
       (dict_get "articles" (generate_selectors three_articles []))
     = Some [("article", 3)].
Proof. repeat split. Qed.

Example blog_page_candidates :
  option_map (map (fun c => (selector c, count c)))
    (dict_get "articles" (generate_selectors blog_page []))
  = Some [ (css_text (class_contains "article"), 2);
           (css_text (class_contains "post"), 2);
           ("article", 1) ].
Proof. reflexivity. Qed.

Lemma fetch_failure_returns_error_record_witness :
  analyze not_modelled not_modelled (fun s _ => not_modelled s) not_modelled
    not_modelled not_modelled missing_page "https://example.com/nowhere"
  = Ok [ ("url", VStr "https://example.com/nowhere");
         ("timestamp", VStr (strftime missing_page));
         ("analysis_type", VStr "structure");
         ("error", VStr (str_exn (Exception "Ошибка загрузки страницы: HTTP error 404")));
         ("success", VBool false) ].
Proof.
  apply (fetch_failure_returns_error_record not_modelled not_modelled
           (fun s _ => not_modelled s) not_modelled not_modelled not_modelled
           missing_page). reflexivity.
Defined.

(** C4 as stated fails when the host cannot be resolved:
    [get_page_content] raises, yet [analyze] returns a value. *)
Lemma fetch_failure_is_not_raised :
  get_page_content unreachable_page
  = Raise (Exception "Ошибка загрузки страницы: Name or service not known")
  /\ analyze not_modelled not_modelled (fun s _ => not_modelled s)
       not_modelled not_modelled not_modelled unreachable_page
       "https://no-such-host.example"
     = Ok [ ("url", VStr "https://no-such-host.example");
            ("timestamp", VStr "2025-09-14 12:00:00");
            ("analysis_type", VStr "structure");
            ("error", VStr "Ошибка загрузки страницы: Name or service not known");
            ("success", VBool false) ].
Proof. split; reflexivity. Qed.

(* ================================================================== *)
(** ** Properties of URL validation and of the synthesizer             *)
(* ================================================================== *)

Section UrlFacts.
Import Py Utils.

Lemma startswith_nonempty s p :
  p <> "" -> startswith s p = true -> s <> "".
Proof.
  intros Hp H ->. destruct p; [now apply Hp | discriminate].
Qed.

Lemma startswith_append p s : startswith (p ++ s) p = true.
Proof.
  unfold startswith. induction p as [| c p IH]; simpl.
  - now destruct s.
  - destruct (ascii_dec c c); [exact IH | contradiction].
Qed.

Lemma normalized_scheme s :
  let url :=
    if startswith s "http://" || startswith s "https://"
    then s else "https://" ++ s in
  startswith url "http://" = true \/ startswith url "https://" = true.
Proof.
  cbv zeta. destruct (startswith s "http://") eqn:E1; simpl; [now left |].
  destruct (startswith s "https://") eqn:E2; [now right |].
  right. exact (startswith_append "https://" s).
Qed.

(** C10. [validate_url] either raises [ValueError] or returns a
    non-empty string that starts with [http://] or [https://]; what it
    returns is truthy, so the branch of [analyze_website] for a falsy
    result is never taken. *)
Theorem validate_url_never_returns_falsy (url : pyval) :
  ((exists msg, validate_url url = Raise (ValueError msg))
   \/ (exists s,
         validate_url url = Ok s
         /\ s <> ""
         /\ (startswith s "http://" = true \/ startswith s "https://" = true)
         /\ truthy (VStr s) = true))
  /\ Comprehensive.url_gate url <> Ok Comprehensive.FalsyResult.
Proof.
  assert (H : (exists msg, validate_url url = Raise (ValueError msg))
              \/ (exists s,
                    validate_url url = Ok s
                    /\ s <> ""
                    /\ (startswith s "http://" = true
                        \/ startswith s "https://" = true)
                    /\ truthy (VStr s) = true)).
  { unfold validate_url.
    destruct url as [| b | z | q | s | l | d];
      cbn [isinstance_str negb];
      try (rewrite orb_true_r; left; eexists; reflexivity).
    rewrite orb_false_r.
    destruct (negb (truthy (VStr s))); [left; eexists; reflexivity |].
    pose proof (normalized_scheme (strip s)) as Hscheme. cbv zeta in Hscheme.
    set (u := if startswith (strip s) "http://" || startswith (strip s) "https://"
              then strip s else "https://" ++ strip s) in *.
    assert (Hne : u <> "").
    { destruct Hscheme as [Hs | Hs];
        eapply startswith_nonempty; try exact Hs; discriminate. }
    unfold try_except, bind.
    destruct (urlparse u) as [parsed | e]; [| left; eexists; reflexivity].
    destruct (netloc parsed =? ""); [left; eexists; reflexivity |].
    destruct (negb (existsb _ _)); [left; eexists; reflexivity |].
    destruct (negb (domain_pattern_match _)); [left; eexists; reflexivity |].
    right. exists u. repeat split; try assumption.
    cbn [truthy]. apply negb_true_iff. now apply String.eqb_neq. }
  split; [exact H |].
  unfold Comprehensive.url_gate, bind.
  destruct H as [[msg ->] | (s & -> & _ & _ & Ht)]; [discriminate |].
  rewrite Ht. discriminate.
Qed.

End UrlFacts.

Section SynthesizerFacts.
Import Py Comprehensive.

Variable language : string.
Variable get_text : string -> string.

(** No report of the protection analyzer has a [complexity_score] key,
    before or after translation. *)
Lemma translated_report_has_no_complexity_score (r : Protection.report) :
  dict_get "complexity_score"
    (_translate_protection_results get_text (protection_dict r)) = None.
Proof.
  unfold _translate_protection_results, protection_dict.
  destruct (Protection.best_method r), (Protection.bypass_success_rate r);
    reflexivity.
Qed.

Lemma translated_report_keeps_total_score (r : Protection.report) :
  dict_get "total_score"
    (_translate_protection_results get_text (protection_dict r))
  = Some (VInt (Protection.total_score r)).
Proof.
  unfold _translate_protection_results, protection_dict.
  destruct (Protection.best_method r), (Protection.bypass_success_rate r);
    reflexivity.
Qed.

(** Whatever the total score of the report, the protection branch chosen
    by the synthesizer is the one for scores below 40. *)
Lemma recommendations_ignore_total_score (r : Protection.report)
    (rest : dict pyval) :
  protection_recommendations language
    (dict_set "protection"
       (VDict (_translate_protection_results get_text (protection_dict r)))
       rest)
  = Ok (low_recommendations language).
Proof.
  unfold protection_recommendations.
  rewrite dict_get_set, String.eqb_refl. simpl as_dict. unfold bind.
  unfold dict_get_default.
  rewrite translated_report_has_no_complexity_score. reflexivity.
Qed.

End SynthesizerFacts.

Import Py Comprehensive.

(** C5 at a site that answers 503: the report has total score 100 and
    tier CRITICAL, and the synthesizer, reading the key
    [complexity_score] that the report does not have, selects the
    recommendations and the estimate of the lowest tier. *)
Theorem critical_site_gets_low_tier_recommendations :
  exists results protection summary,
    fst (analyze_website "en" english "2025-09-14T12:00:00"
           (fun template error => template ++ ": " ++ error)
           Structure.not_modelled Structure.not_modelled
           (fun s _ => Structure.not_modelled s) Structure.not_modelled
           Structure.not_modelled Structure.not_modelled
           Protection.unavailable_site Structure.unreachable_page
           "https://example.com" "protection" Protection.fresh)
    = Ok results
    /\ dict_get "protection" results = Some (VDict protection)
    /\ dict_get "total_score" protection = Some (VInt 100)
    /\ dict_get "complexity_level" protection = Some (VStr "CRITICAL")
    /\ dict_get "complexity_score" protection = None
    /\ dict_get "recommendations" results
       = Some (VList [ VStr "✅ Simple scraping: use requests + BeautifulSoup";
                       VStr "🔧 Add User-Agent headers for stability" ])
    /\ dict_get "summary" results = Some (VDict summary)
    /\ dict_get "scraping_difficulty" summary = Some (VStr "LOW")
    /\ dict_get "protection_score" summary = Some (VInt 0).
Proof.
  do 3 eexists. split; [vm_compute; reflexivity |].
  split; [reflexivity |]. repeat split.
Qed.

(* ================================================================== *)
(** ** Further properties of the protection analyzer                   *)
(* ================================================================== *)

Section ProbeLoops.
Import Py Protection ProbeOutcomes.

Variable w : world.

Lemma after_requests_0 s : after_requests 0 s = s.
Proof. destruct s. unfold after_requests. simpl. now rewrite Nat.add_0_r. Qed.

Lemma after_requests_S n s :
  after_requests n (after_requests 1 s) = after_requests (S n) s.
Proof. unfold after_requests. simpl. f_equal. lia. Qed.

Lemma http_request_step s :
  http_request w s = (http_get w (requests_sent s), after_requests 1 s).
Proof.
  unfold http_request, after_requests. f_equal. f_equal. lia.
Qed.

Lemma guarded_request_step {A} (g : response -> A) (h : exn -> A) s :
  try_catch (r <~ http_request w ;; ret (g r)) (fun e => ret (h e)) s
  = (Ok match http_get w (requests_sent s) with
        | Ok r => g r
        | Raise e => h e
        end,
     after_requests 1 s).
Proof.
  unfold try_catch, bindM. rewrite http_request_step.
  now destruct (http_get w (requests_sent s)).
Qed.

Lemma for_each_guarded {A B} (g : A -> response -> B) (h : A -> exn -> B)
    (xs : list A) s :
  for_each
    (fun x =>
       try_catch (r <~ http_request w ;; ret (g x r)) (fun e => ret (h x e)))
    xs s
  = (Ok (guarded_results w g h (requests_sent s) xs),
     after_requests (List.length xs) s).
Proof.
  revert s. induction xs as [| x xs IH]; intros s.
  - simpl. unfold ret. now rewrite after_requests_0.
  - cbn [for_each guarded_results List.length].
    unfold bindM at 1. rewrite guarded_request_step.
    unfold bindM. rewrite IH. unfold ret.
    rewrite after_requests_S. simpl. now rewrite Nat.add_1_r.
Qed.

Lemma guarded_results_length {A B} (g : A -> response -> B) h n (xs : list A) :
  List.length (guarded_results w g h n xs) = List.length xs.
Proof.
  revert n. induction xs as [| x xs IH]; intros n; simpl; [reflexivity |].
  now rewrite IH.
Qed.

Lemma guarded_results_blocked {A} codes (g : A -> response -> attempt) h n xs :
  (forall x r, blocked (g x r) = mem_Z (status_code r) codes) ->
  (forall x e, blocked (h x e) = true) ->
  map blocked (guarded_results w g h n xs)
  = map (blocked_at w codes) (seq n (List.length xs)).
Proof.
  intros Hg Hh. revert n. induction xs as [| x xs IH]; intros n; simpl;
    [reflexivity |].
  rewrite IH. f_equal. unfold blocked_at.
  destruct (http_get w n); [apply Hg | apply Hh].
Qed.

Lemma guarded_results_label {A} (g : A -> response -> attempt) h n xs
    (name : A -> string) :
  (forall x r, label (g x r) = name x) ->
  (forall x e, label (h x e) = name x) ->
  map label (guarded_results w g h n xs) = map name xs.
Proof.
  intros Hg Hh. revert n. induction xs as [| x xs IH]; intros n; simpl;
    [reflexivity |].
  rewrite IH. f_equal. destruct (http_get w n); [apply Hg | apply Hh].
Qed.

Lemma count_blocked_map l :
  count_blocked l = List.length (filter (fun b : bool => b) (map blocked l)).
Proof.
  unfold count_blocked. induction l as [| a l IH]; simpl; [reflexivity |].
  destruct (blocked a); simpl; now rewrite IH.
Qed.

Lemma filter_map_id {A} (p : A -> bool) l :
  List.length (filter (fun b : bool => b) (map p l))
  = List.length (filter p l).
Proof.
  induction l as [| a l IH]; simpl; [reflexivity |].
  destruct (p a); simpl; now rewrite IH.
Qed.

Lemma positive_filter_existsb {A} (p : A -> bool) l :
  (0 <? List.length (filter p l))%nat = existsb p l.
Proof.
  induction l as [| a l IH]; simpl; [reflexivity |].
  destruct (p a); simpl; [reflexivity | exact IH].
Qed.

(** X1. The User-Agent probe sends exactly four requests, one per agent
    and in the order of the agent list, whether they succeed or not; an
    attempt is blocked when its request raises or is answered 403, 429 or
    503, and protection is detected when some attempt is blocked. *)
Theorem user_agent_probe_outcomes s :
  exists r,
    check_user_agent_protection w s = (Ok r, after_requests 4 s)
    /\ map label (ua_results r) = user_agents
    /\ map blocked (ua_results r)
       = map (blocked_at w [403; 429; 503]%Z) (seq (requests_sent s) 4)
    /\ ua_protection_detected r
       = existsb (blocked_at w [403; 429; 503]%Z) (seq (requests_sent s) 4).
Proof.
  pose (g := fun (ua : string) (response : response) =>
               {| label := ua; at_status_code := status_code response;
                  blocked := mem_Z (status_code response) [403; 429; 503]%Z;
                  at_error := None |}).
  pose (h := fun (ua : string) (e : exn) =>
               {| label := ua; at_status_code := 0%Z; blocked := true;
                  at_error := Some (str_exn e) |}).
  pose proof (for_each_guarded g h user_agents s) as Hloop.
  cbv beta delta [g h] in Hloop.
  assert (Hb : map blocked (guarded_results w g h (requests_sent s) user_agents)
               = map (blocked_at w [403; 429; 503]%Z)
                   (seq (requests_sent s) 4)).
  { apply (guarded_results_blocked [403; 429; 503]%Z); reflexivity. }
  unfold check_user_agent_protection.
  eexists. split.
  { rewrite (bindM_ok _ _ _ _ _ Hloop). unfold ret. reflexivity. }
  cbn [ua_results ua_protection_detected]. fold g h.
  split; [| split].
  - rewrite (guarded_results_label _ _ _ _ (fun ua => ua)) by reflexivity.
    apply map_id.
  - exact Hb.
  - rewrite count_blocked_map, Hb, filter_map_id. apply positive_filter_existsb.
Qed.

(** X2. The rate-limit probe sends exactly ten requests whether they
    succeed or not; the number of blocked requests is the number of those
    ten that raise or are answered 429 or 503, it is at most ten, and
    protection is detected when it is not zero. *)
Theorem rate_limit_probe_outcomes s :
  exists r,
    check_rate_limiting w s = (Ok r, after_requests 10 s)
    /\ List.length (rl_results r) = 10
    /\ blocked_requests r
       = List.length
           (filter (blocked_at w [429; 503]%Z) (seq (requests_sent s) 10))
    /\ blocked_requests r <= total_requests r
    /\ rl_protection_detected r
       = existsb (blocked_at w [429; 503]%Z) (seq (requests_sent s) 10).
Proof.
  pose (g := fun (i : nat) (response : response) =>
               {| label := str_nat (i + 1);
                  at_status_code := status_code response;
                  blocked := mem_Z (status_code response) [429; 503]%Z;
                  at_error := None |}).
  pose (h := fun (i : nat) (e : exn) =>
               {| label := str_nat (i + 1); at_status_code := 0%Z;
                  blocked := true; at_error := Some (str_exn e) |}).
  pose proof (for_each_guarded g h (seq 0 request_count) s) as Hloop.
  cbv beta delta [g h] in Hloop.
  assert (Hb : map blocked
                 (guarded_results w g h (requests_sent s) (seq 0 request_count))
               = map (blocked_at w [429; 503]%Z) (seq (requests_sent s) 10)).
  { apply (guarded_results_blocked [429; 503]%Z); reflexivity. }
  assert (Hc : count_blocked
                 (guarded_results w g h (requests_sent s) (seq 0 request_count))
               = List.length
                   (filter (blocked_at w [429; 503]%Z)
                      (seq (requests_sent s) 10))).
  { now rewrite count_blocked_map, Hb, filter_map_id. }
  unfold check_rate_limiting.
  eexists. split.
  { rewrite (bindM_ok _ _ _ _ _ Hloop). unfold ret. reflexivity. }
  cbn [rl_results blocked_requests total_requests rl_protection_detected].
  fold g h.
  split; [| split; [| split]].
  - now rewrite guarded_results_length.
  - exact Hc.
  - rewrite Hc.
    etransitivity; [apply filter_length_le |]. now rewrite length_seq.
  - rewrite Hc. apply positive_filter_existsb.
Qed.

End ProbeLoops.

Section ScoreFacts.
Import Py Protection ProbeOutcomes.

Variable w : world.

Lemma short_circuit_report url s :
  reports_accessible w s = false ->
  exists r s',
    analyze w url s = (Ok r, s')
    /\ total_score r = 100%Z /\ complexity_level r = "CRITICAL"
    /\ best_method r = None /\ bypass_success_rate r = None.
Proof.
  intros Hacc.
  destruct (check_basic_access_returns w s) as (b & s1 & Hb).
  rewrite (reports_accessible_spec _ _ _ _ Hb) in Hacc.
  unfold analyze. rewrite (bindM_ok _ _ _ _ _ Hb), Hacc.
  do 2 eexists. repeat split.
Qed.

Lemma normal_report url s :
  reports_accessible w s = true ->
  exists b ua rl cf js cp ck r s',
    analyze w url s = (Ok r, s')
    /\ mechanisms r = normal_mechanisms b ua rl cf js cp ck
    /\ accessible b = true
    /\ total_score r = sum_scores (mechanisms r)
    /\ complexity_level r = level_of_score (total_score r).
Proof.
  intros Hacc.
  destruct (check_basic_access_returns w s) as (b & s1 & Hb).
  rewrite (reports_accessible_spec _ _ _ _ Hb) in Hacc.
  destruct (analyze_normal_path w url s b s1 Hb Hacc)
    as (ua & s2 & rl & s3 & cf & s4 & js & s5 & cp & s6 & ck & s7 & methods
        & s8 & r & _ & _ & _ & _ & _ & _ & _ & Hr & Hm & _ & Htotal & Hlevel).
  exists b, ua, rl, cf, js, cp, ck, r, s8. auto.
Qed.

Ltac by_cases_on_findings ua rl cf js cp ck :=
  destruct (ua_protection_detected ua), (rl_protection_detected rl),
    (dr_detected cf), (js_required js), (dr_detected cp), (cookies_used ck).

(** X3. Every report has a total score between 35 and 150: the normal
    path adds at least 35 and at most 150 points, the short circuit sets
    100. *)
Theorem total_score_range url s :
  exists r s',
    analyze w url s = (Ok r, s') /\ (35 <= total_score r <= 150)%Z.
Proof.
  destruct (reports_accessible w s) eqn:Hacc.
  - destruct (normal_report url s Hacc)
      as (b & ua & rl & cf & js & cp & ck & r & s' & Hr & Hm & Hb & Ht & _).
    exists r, s'. split; [exact Hr |]. rewrite Ht, Hm.
    unfold normal_mechanisms, basic_access_finding. rewrite Hb.
    by_cases_on_findings ua rl cf js cp ck; vm_compute; split; discriminate.
  - destruct (short_circuit_report url s Hacc) as (r & s' & Hr & Ht & _).
    exists r, s'. split; [exact Hr |]. rewrite Ht. lia.
Qed.

(** X4. On the normal path the tier is LOW exactly when none of the six
    later probes detects anything; the total is then 35. *)
Theorem low_tier_iff_nothing_detected url s :
  reports_accessible w s = true ->
  exists r s',
    analyze w url s = (Ok r, s')
    /\ (complexity_level r = "LOW" <->
        existsb (fun kv => detected (snd kv))
          (dict_remove "basic_access" (mechanisms r)) = false)
    /\ (complexity_level r = "LOW" <-> total_score r = 35%Z).
Proof.
  intros Hacc.
  destruct (normal_report url s Hacc)
    as (b & ua & rl & cf & js & cp & ck & r & s' & Hr & Hm & Hb & Ht & Hl).
  exists r, s'. split; [exact Hr |]. rewrite Hl, Ht, Hm.
  unfold normal_mechanisms, basic_access_finding. rewrite Hb.
  by_cases_on_findings ua rl cf js cp ck; vm_compute;
    (split; split; intros H; solve [reflexivity | discriminate H]).
Qed.

(** X5. On the normal path a detected CAPTCHA alone brings the total to
    at least 75, hence the tier to HIGH or CRITICAL; together with a
    detected Cloudflare the tier is CRITICAL. *)
Theorem captcha_raises_the_tier url s :
  reports_accessible w s = true ->
  exists r s' captcha cloudflare,
    analyze w url s = (Ok r, s')
    /\ dict_get "captcha" (mechanisms r) = Some captcha
    /\ dict_get "cloudflare" (mechanisms r) = Some cloudflare
    /\ (detected captcha = true ->
        (75 <= total_score r)%Z
        /\ (complexity_level r = "HIGH" \/ complexity_level r = "CRITICAL"))
    /\ (detected captcha = true -> detected cloudflare = true ->
        complexity_level r = "CRITICAL").
Proof.
  intros Hacc.
  destruct (normal_report url s Hacc)
    as (b & ua & rl & cf & js & cp & ck & r & s' & Hr & Hm & Hb & Ht & Hl).
  exists r, s'. do 2 eexists. split; [exact Hr |]. rewrite Hl, Ht, Hm.
  split; [reflexivity |]. split; [reflexivity |].
  unfold normal_mechanisms, basic_access_finding. rewrite Hb.
  cbn [detected].
  by_cases_on_findings ua rl cf js cp ck;
    (split;
       [intros H;
        first [discriminate H | vm_compute; split; [discriminate | auto]]
       | intros H H';
         first [discriminate H | discriminate H' | reflexivity]]).
Qed.

End ScoreFacts.

Section FingerprintFacts.
Import Py Protection ProbeOutcomes.

Variable w : world.

Lemma string_app_assoc (a b c : string) : (a ++ b) ++ c = a ++ b ++ c.
Proof. induction a as [| x a IH]; simpl; [reflexivity | now rewrite IH]. Qed.

Lemma contains_longer a b s :
  contains (a ++ b) s = true -> contains b s = true.
Proof.
  rewrite !contains_spec. intros (pre & post & ->).
  exists (pre ++ a), post.
  now rewrite !string_app_assoc.
Qed.

Lemma header_get_spec name hs :
  header_get name hs <> None <->
  exists k v, In (k, v) hs /\ lower k = lower name.
Proof.
  induction hs as [| [k v] hs IH]; simpl.
  - split; [congruence | intros (k & v & [] & _)].
  - destruct (String.eqb_spec (lower k) (lower name)) as [E | E].
    + split; [intros _; exists k, v; auto | discriminate].
    + rewrite IH. split; intros (k' & v' & Hin & Hk).
      * exists k', v'. auto.
      * destruct Hin as [Heq | Hin]; [| eauto].
        injection Heq as <- <-. contradiction.
Qed.

(** X6. When its request is answered, the CAPTCHA probe detects exactly
    the bodies that contain, whatever the case, [captcha],
    [solve the puzzle], [verify you are human] or [geetest]: the
    indicators [recaptcha] and [hcaptcha] never decide, and a body in
    which one of them occurs counts at least two indicators. *)
Theorem captcha_indicators_reduce s resp :
  http_get w (requests_sent s) = Ok resp ->
  exists r,
    check_captcha_protection w s = (Ok r, after_requests 1 s)
    /\ dr_detected r
       = (contains "captcha" (lower (text resp))
          || contains "solve the puzzle" (lower (text resp))
          || contains "verify you are human" (lower (text resp))
          || contains "geetest" (lower (text resp)))
    /\ (contains "recaptcha" (lower (text resp)) = true
        \/ contains "hcaptcha" (lower (text resp)) = true ->
        exists n, dr_indicators_found r = Some n /\ 2 <= n).
Proof.
  intros Hget. unfold check_captcha_protection.
  rewrite guarded_request_step, Hget.
  eexists. split; [reflexivity |].
  cbn [dr_detected dr_indicators_found].
  pose proof (contains_longer "re" "captcha" (lower (text resp))) as Hre.
  pose proof (contains_longer "h" "captcha" (lower (text resp))) as Hh.
  change ("re" ++ "captcha") with "recaptcha" in Hre.
  change ("h" ++ "captcha") with "hcaptcha" in Hh.
  unfold any, sum_bools. cbn [existsb filter].
  destruct (contains "recaptcha" (lower (text resp)));
    destruct (contains "hcaptcha" (lower (text resp)));
    destruct (contains "captcha" (lower (text resp)));
    try (discriminate (Hre eq_refl)); try (discriminate (Hh eq_refl));
    destruct (contains "solve the puzzle" (lower (text resp)));
    destruct (contains "verify you are human" (lower (text resp)));
    destruct (contains "geetest" (lower (text resp)));
    (split; [reflexivity |]);
    (intros H;
     first [ destruct H as [H | H]; discriminate H
           | eexists; split; [reflexivity | simpl; lia] ]).
Qed.

(** X7. When its request is answered, the Cloudflare probe detects a
    response that carries a [cf-ray] header whatever the case of the
    header name, and a body in which [checking your browser] occurs
    whatever its case. *)
Theorem cloudflare_fingerprint_any_case s resp :
  http_get w (requests_sent s) = Ok resp ->
  (exists k v, In (k, v) (headers resp) /\ lower k = "cf-ray")
  \/ (exists pre mid post,
        text resp = pre ++ mid ++ post
        /\ lower mid = "checking your browser") ->
  exists r,
    check_cloudflare_protection w s = (Ok r, after_requests 1 s)
    /\ dr_detected r = true.
Proof.
  intros Hget H. unfold check_cloudflare_protection.
  rewrite guarded_request_step, Hget.
  eexists. split; [reflexivity |].
  cbn [dr_detected]. unfold any. cbn [existsb].
  destruct H as [H | H].
  - assert (Hm : header_mem "cf-ray" (headers resp) = true).
    { unfold header_mem.
      destruct (header_get "cf-ray" (headers resp)) eqn:E; [reflexivity |].
      exfalso. revert E. apply header_get_spec. exact H. }
    rewrite Hm. now rewrite orb_true_r.
  - apply contains_lower_spec in H. rewrite H.
    now rewrite !orb_true_r.
Qed.

Lemma http_method_step d s :
  exists m, http_method w d s = (Ok m, after_requests 1 s).
Proof.
  unfold http_method. rewrite guarded_request_step. eauto.
Qed.

Lemma test_bypass_methods_keys s :
  exists m s',
    test_bypass_methods w s = (Ok m, s') /\ keys m = methods_tried w.
Proof.
  unfold test_bypass_methods, methods_tried.
  destruct (http_method_step "Стандартный requests" s) as (m1 & H1).
  rewrite (bindM_ok _ _ _ _ _ H1).
  destruct (http_method_step "Requests с сессией" (after_requests 1 s))
    as (m2 & H2).
  rewrite (bindM_ok _ _ _ _ _ H2).
  set (s2 := after_requests 1 (after_requests 1 s)).
  destruct (UA_AVAILABLE w).
  - destruct (http_method_step "Fake User-Agent" s2) as (m3 & H3).
    rewrite (bindM_ok _ _ _ _ _ (bindM_ok _ _ _ _ _ H3)). unfold ret at 1.
    set (s3 := after_requests 1 s2).
    destruct (CLOUDSCRAPER_AVAILABLE w).
    + destruct (http_method_step "CloudScraper" s3) as (m4 & H4).
      rewrite (bindM_ok _ _ _ _ _ (bindM_ok _ _ _ _ _ H4)). unfold ret at 1.
      destruct (SELENIUM_AVAILABLE w).
      * destruct (chrome_method_returns w (after_requests 1 s3))
          as (m5 & s5 & H5).
        rewrite (bindM_ok _ _ _ _ _ (bindM_ok _ _ _ _ _ H5)).
        do 2 eexists. split; reflexivity.
      * do 2 eexists. split; reflexivity.
    + rewrite (bindM_ok _ _ _ _ _ (eq_refl : ret _ s3 = (Ok _, s3))).
      destruct (SELENIUM_AVAILABLE w).
      * destruct (chrome_method_returns w s3) as (m5 & s5 & H5).
        rewrite (bindM_ok _ _ _ _ _ (bindM_ok _ _ _ _ _ H5)).
        do 2 eexists. split; reflexivity.
      * do 2 eexists. split; reflexivity.
  - rewrite (bindM_ok _ _ _ _ _ (eq_refl : ret _ s2 = (Ok _, s2))).
    destruct (CLOUDSCRAPER_AVAILABLE w).
    + destruct (http_method_step "CloudScraper" s2) as (m4 & H4).
      rewrite (bindM_ok _ _ _ _ _ (bindM_ok _ _ _ _ _ H4)). unfold ret at 1.
      destruct (SELENIUM_AVAILABLE w).
      * destruct (chrome_method_returns w (after_requests 1 s2))
          as (m5 & s5 & H5).
        rewrite (bindM_ok _ _ _ _ _ (bindM_ok _ _ _ _ _ H5)).
        do 2 eexists. split; reflexivity.
      * do 2 eexists. split; reflexivity.
    + rewrite (bindM_ok _ _ _ _ _ (eq_refl : ret _ s2 = (Ok _, s2))).
      destruct (SELENIUM_AVAILABLE w).
      * destruct (chrome_method_returns w s2) as (m5 & s5 & H5).
        rewrite (bindM_ok _ _ _ _ _ (bindM_ok _ _ _ _ _ H5)).
        do 2 eexists. split; reflexivity.
      * do 2 eexists. split; reflexivity.
Qed.

(** X8. The bypass methods recorded are exactly the methods whose
    capability is available, in the fixed order of trial: [requests] and
    [requests_session] always, then [fake_useragent], [cloudscraper] and
    [undetected_chrome] when available.  A method that is not available
    is not recorded as a failure. *)
Theorem bypass_methods_follow_capabilities s :
  exists m s',
    test_bypass_methods w s = (Ok m, s')
    /\ keys m = methods_tried w.
Proof. exact (test_bypass_methods_keys s). Qed.


Lemma hd_filter_find {V} (p : string * V -> bool) (l : dict V) :
  hd_error (keys (filter p l)) = option_map fst (find p l).
Proof.
  induction l as [| kv l IH]; simpl; [reflexivity |].
  destruct (p kv); simpl; [reflexivity | exact IH].
Qed.

Lemma success_rate_range (a b : nat) :
  a <= b -> 0 < b ->
  (0 <= Qmult (Qmake (Z.of_nat a) (Pos.of_nat b)) (100 # 1) <= 100 # 1)%Q.
Proof.
  intros Hab Hb.
  assert (E : Z.pos (Pos.of_nat b) = Z.of_nat b).
  { rewrite <- positive_nat_Z. f_equal. apply Nat2Pos.id. lia. }
  unfold Qle, Qmult. cbn [Qnum Qden]. rewrite Pos.mul_1_r, E. split; nia.
Qed.

Lemma normal_report_methods url s :
  reports_accessible w s = true ->
  exists r s',
    analyze w url s = (Ok r, s')
    /\ keys (bypass_methods r) = methods_tried w
    /\ best_method r
       = Some (match keys (filter (fun kv => success (snd kv))
                             (bypass_methods r)) with
               | first :: _ => first
               | [] => "selenium"
               end)
    /\ bypass_success_rate r
       = Some (match keys (filter (fun kv => success (snd kv))
                             (bypass_methods r)) with
               | (_ :: _) as successful =>
                   Qmult (Qmake (Z.of_nat (List.length successful))
                            (Pos.of_nat (List.length (bypass_methods r))))
                     (100 # 1)
               | [] => 0 # 1
               end)%Q.
Proof.
  intros Hacc.
  destruct (check_basic_access_returns w s) as (b & s1 & Hb).
  rewrite (reports_accessible_spec _ _ _ _ Hb) in Hacc.
  destruct (check_user_agent_protection_returns w s1) as (ua & s2 & Hua).
  destruct (check_rate_limiting_returns w s2) as (rl & s3 & Hrl).
  destruct (check_cloudflare_protection_returns w s3) as (cf & s4 & Hcf).
  destruct (check_javascript_protection_returns w s4) as (js & s5 & Hjs).
  destruct (check_captcha_protection_returns w s5) as (cp & s6 & Hcp).
  destruct (check_cookie_requirements_returns w s6) as (ck & s7 & Hck).
  destruct (test_bypass_methods_keys s7) as (methods & s8 & Hbp & Hkeys).
  unfold analyze.
  rewrite (bindM_ok _ _ _ _ _ Hb). rewrite Hacc. cbv beta iota delta [negb].
  rewrite (bindM_ok _ _ _ _ _ Hua), (bindM_ok _ _ _ _ _ Hrl),
    (bindM_ok _ _ _ _ _ Hcf), (bindM_ok _ _ _ _ _ Hjs),
    (bindM_ok _ _ _ _ _ Hcp), (bindM_ok _ _ _ _ _ Hck),
    (bindM_ok _ _ _ _ _ Hbp).
  cbv zeta. cbn [bypass_methods set_bypass_methods set_total_score
                 set_complexity_level].
  destruct (keys (filter (fun kv => success (snd kv)) methods)) eqn:E;
    do 2 eexists; (split; [reflexivity |]);
    cbn [bypass_methods best_method bypass_success_rate set_best_method
         set_bypass_methods set_total_score set_complexity_level
         set_mechanism];
    rewrite E; repeat split; try exact Hkeys; reflexivity.
Qed.

(** X9. On the normal path the best method is the first successful
    method in the order of trial and the success rate lies between 0 and
    100; when no method succeeded the best method is [selenium], which
    is not the name of any method tried, and the rate is 0. *)
Theorem best_method_selection url s :
  reports_accessible w s = true ->
  exists r s' rate,
    analyze w url s = (Ok r, s')
    /\ bypass_success_rate r = Some rate
    /\ (0 <= rate <= 100 # 1)%Q
    /\ match find (fun kv => success (snd kv)) (bypass_methods r) with
       | Some (first, _) => best_method r = Some first
       | None =>
           best_method r = Some "selenium"
           /\ rate = (0 # 1)%Q
           /\ ~ In "selenium" (keys (bypass_methods r))
       end.
Proof.
  intros Hacc.
  destruct (normal_report_methods url s Hacc)
    as (r & s' & Hr & Hkeys & Hbest & Hrate).
  pose proof (hd_filter_find (fun kv => success (snd kv)) (bypass_methods r))
    as Hfind.
  exists r, s'. eexists. split; [exact Hr |]. split; [exact Hrate |].
  destruct (keys (filter (fun kv => success (snd kv)) (bypass_methods r)))
    as [| first rest] eqn:E.
  - split; [unfold Qle; simpl; lia |].
    destruct (find (fun kv => success (snd kv)) (bypass_methods r));
      [discriminate Hfind |].
    repeat split; [exact Hbest |].
    rewrite Hkeys. unfold methods_tried.
    destruct (UA_AVAILABLE w), (CLOUDSCRAPER_AVAILABLE w),
      (SELENIUM_AVAILABLE w); simpl; intuition discriminate.
  - split.
    + apply success_rate_range.
      * rewrite <- E. unfold keys. rewrite length_map. apply filter_length_le.
      * assert (H : List.length (keys (bypass_methods r)) >= 2).
        { rewrite Hkeys. unfold methods_tried. rewrite length_app. simpl. lia. }
        unfold keys in H. rewrite length_map in H. lia.
    + destruct (find (fun kv => success (snd kv)) (bypass_methods r))
        as [[k v] |]; [| discriminate Hfind].
      simpl in Hfind. injection Hfind as <-. exact Hbest.
Qed.

End FingerprintFacts.

(* ================================================================== *)
(** ** Further properties of the structure analyzer                    *)
(* ================================================================== *)

Section TreeFacts.
Import Py Structure StructurePasses.

(** Induction on nodes, with the hypothesis for every child. *)
Lemma node_children_ind (P : node -> Prop) :
  (forall s, P (Text s)) ->
  (forall name attrs children,
      Forall P children -> P (Element name attrs children)) ->
  forall n, P n.
Proof.
  intros Htext Helem.
  fix IH 1. intros [name attrs children | s]; [| apply Htext].
  apply Helem. induction children as [| c cs IHcs]; constructor.
  - apply IH.
  - exact IHcs.
Qed.

Lemma attrs_eqb_refl a : attrs_eqb a a = true.
Proof.
  induction a as [| [k v] a IH]; simpl; [reflexivity |].
  now rewrite !String.eqb_refl, IH.
Qed.

Lemma node_eqb_refl n : node_eqb n n = true.
Proof.
  induction n as [s | name attrs children IH] using node_children_ind; simpl.
  - apply String.eqb_refl.
  - rewrite String.eqb_refl, attrs_eqb_refl. simpl.
    induction IH as [| c cs Hc _ IHcs]; [reflexivity |].
    now rewrite Hc, IHcs.
Qed.

Lemma distinct_incl l : incl (distinct l) l.
Proof.
  induction l as [| x l IH]; simpl; [easy |].
  intros y [-> | Hy]; [now left | right].
  apply filter_In in Hy as [Hy _]. now apply IH.
Qed.

Lemma distinct_NoDup l : NoDup (distinct l).
Proof.
  induction l as [| x l IH]; simpl; constructor.
  - intros H. apply filter_In in H as [_ H].
    now rewrite node_eqb_refl in H.
  - now apply NoDup_filter.
Qed.

Lemma select_incl p s : incl (select p s) (find_all s).
Proof. intros x H. unfold select in H. now apply filter_In in H. Qed.

Lemma find_all_attr_re_incl a k s : incl (find_all_attr_re a k s) (find_all s).
Proof. intros x H. unfold find_all_attr_re in H. now apply filter_In in H. Qed.

Lemma elements_found_incl s config :
  incl (elements_found s config) (find_all s).
Proof.
  unfold elements_found. intros x H. apply in_app_or in H as [H | H];
    apply in_flat_map in H as (y & _ & H).
  - now apply select_incl in H.
  - apply in_app_or in H as [H | H]; now apply find_all_attr_re_incl in H.
Qed.

Lemma dict_set_values {V} (P : V -> Prop) k v (d : dict V) :
  P v -> Forall P (values d) -> Forall P (values (dict_set k v d)).
Proof.
  intros Hv. unfold values.
  induction d as [| [k' v'] d IH]; simpl; intros Hd.
  - now constructor.
  - inversion Hd as [| ? ? Hv' Hd']; subst.
    destruct (k' =? k); simpl; constructor; auto.
Qed.

Lemma fold_dict_set_values {V E} (P : V -> Prop) (key : E -> string)
    (value : E -> V) (l : list E) (d : dict V) :
  (forall e, P (value e)) -> Forall P (values d) ->
  Forall P
    (values (fold_left (fun acc e => dict_set (key e) (value e) acc) l d)).
Proof.
  intros Hv. revert d. induction l as [| e l IH]; simpl; intros d Hd;
    [exact Hd |].
  apply IH. now apply dict_set_values.
Qed.

Lemma detect_content_types_keys (s : soup) :
  keys (detect_content_types s)
  = [ "products"; "articles"; "navigation"; "forms"; "lists"; "media";
      "text_content" ].
Proof. reflexivity. Qed.

(** X10. Content detection reports all seven categories, in the order
    of the pattern table, also those without any match; each count is at
    most the number of elements of the document. *)
Theorem content_types_always_complete (s : soup) :
  keys (detect_content_types s)
  = [ "products"; "articles"; "navigation"; "forms"; "lists"; "media";
      "text_content" ]
  /\ Forall (fun n => n <= List.length (find_all s))
       (values (detect_content_types s)).
Proof.
  split; [apply detect_content_types_keys |].
  unfold detect_content_types.
  apply (fold_dict_set_values (fun n => n <= List.length (find_all s)) fst
           (fun entry =>
              List.length (distinct (elements_found s (snd entry))))).
  - intros entry. apply NoDup_incl_length; [apply distinct_NoDup |].
    intros x Hx. apply distinct_incl in Hx.
    now apply elements_found_incl in Hx.
  - constructor.
Qed.

Lemma depth_fold children d :
  Forall depth_bounded children ->
  forall acc extra,
    d <= acc -> acc <= d + extra ->
    let result :=
      fold_left
        (fun max_depth child =>
           match child with
           | Element _ _ _ =>
               Nat.max max_depth (calculate_max_depth child (S d))
           | Text _ => max_depth
           end)
        children acc in
    d <= result
    /\ result <= d + extra + List.length (flat_map elements_of children).
Proof.
  induction 1 as [| c cs Hc _ IH]; intros acc extra Hlo Hhi; cbn zeta.
  - simpl. lia.
  - cbn [fold_left flat_map]. rewrite length_app.
    destruct c as [name attrs ch | t].
    + destruct (Hc (S d)) as [H1 H2].
      specialize (IH (Nat.max acc
                        (calculate_max_depth (Element name attrs ch) (S d)))
                    (extra + List.length (elements_of (Element name attrs ch)))).
      cbn zeta in IH. lia.
    + specialize (IH acc extra Hlo Hhi). cbn zeta in IH. simpl. lia.
Qed.

Lemma depth_bounded_all n : depth_bounded n.
Proof.
  induction n as [s | name attrs children IH] using node_children_ind;
    intros k.
  - simpl. auto.
  - pose proof (depth_fold children k IH k 0 (le_n k)) as H.
    cbn zeta in H. cbn [calculate_max_depth elements_of List.length].
    lia.
Qed.

(** X11. The nesting depth of a document is at most its number of
    elements (so it is 0 for a document without elements). *)
Theorem nesting_depth_at_most_elements (s : soup) :
  max_nesting_depth s <= List.length (find_all s).
Proof.
  unfold max_nesting_depth, find_all.
  destruct (depth_bounded_all (document s) 0) as [_ H].
  cbn [document elements_of List.length] in H. lia.
Qed.

End TreeFacts.

Section SelectorInvariants.
Import Py Structure StructurePasses.

Lemma take_length n s : String.length (take n s) <= n.
Proof.
  revert s. induction n as [| n IH]; intros [| c s]; simpl; try lia.
  specialize (IH s). lia.
Qed.

Lemma dict_get_In {V} k (v : V) d : dict_get k d = Some v -> In v (values d).
Proof.
  unfold values. induction d as [| [k' v'] d IH]; simpl; [discriminate |].
  destruct (k' =? k); [intros [= ->]; now left | auto].
Qed.

(** A property of candidate lists kept by both loops of
    [generate_selectors]. *)
Lemma generate_selectors_values (P : list candidate -> Prop) s ct :
  (forall pats, type_selectors s pats <> [] ->
                P (sorted_by_count_desc (type_selectors s pats))) ->
  (forall entry : string * css,
      select (snd entry) s <> [] ->
      P [ {| selector := css_text (snd entry);
             count := List.length (select (snd entry) s);
             sample_text := None;
             cand_description :=
               Some ("Все " ++ replace_char "_" " " (fst entry)) |} ]) ->
  Forall P (values (generate_selectors s ct)).
Proof.
  intros Hcat Hcommon. unfold generate_selectors. cbv zeta.
  assert (H1 : forall l d, Forall P (values d) ->
                           Forall P (values (fold_left (add_category s) l d))).
  { induction l as [| e l IH]; simpl; intros d Hd; [exact Hd |].
    apply IH. unfold add_category. cbv zeta.
    destruct (type_selectors s (snd e)) eqn:E; [exact Hd |].
    apply dict_set_values; [| exact Hd].
    rewrite <- E. apply Hcat. rewrite E. discriminate. }
  assert (H2 : forall l d, Forall P (values d) ->
                           Forall P (values (fold_left (add_common s) l d))).
  { induction l as [| e l IH]; simpl; intros d Hd; [exact Hd |].
    apply IH. unfold add_common. cbv zeta.
    destruct (select (snd e) s) eqn:E; [exact Hd |].
    apply dict_set_values; [| exact Hd].
    rewrite <- E. apply Hcommon. rewrite E. discriminate. }
  apply H2, H1. constructor.
Qed.



(** X13. No key of the suggested selectors holds an empty list: the
    first candidate of a recorded key always exists. *)
Theorem suggested_lists_are_not_empty s ct :
  Forall (fun l => exists first rest, l = first :: rest)
    (values (generate_selectors s ct)).
Proof.
  apply generate_selectors_values.
  - intros pats Hne.
    pose proof (sorted_by_count_desc_perm (type_selectors s pats)) as Hperm.
    destruct (sorted_by_count_desc (type_selectors s pats)) as [| c l];
      [| eauto].
    apply Permutation_sym, Permutation_nil in Hperm. contradiction.
  - intros entry _. eauto.
Qed.

End SelectorInvariants.

Section StructureNotes.
Import Py Structure StructurePasses.

Variable language : string.

Lemma dict_get_map {A B} (f : A -> B) k (d : dict A) :
  dict_get k (map (fun kv => (fst kv, f (snd kv))) d)
  = option_map f (dict_get k d).
Proof.
  induction d as [| [k' v] d IH]; simpl; [reflexivity |].
  destruct (k' =? k); [reflexivity | exact IH].
Qed.

Lemma dict_get_absent {V} k (d : dict V) :
  ~ In k (keys d) -> dict_get k d = None.
Proof.
  unfold keys. induction d as [| [k' v] d IH]; simpl; intros H;
    [reflexivity |].
  destruct (String.eqb_spec k' k) as [-> | Hne]; [tauto |].
  apply IH. tauto.
Qed.

(** X14. For the content types reported by content detection, the
    recommendations hold the note on products exactly when the products
    tally is not zero, and never the note on pagination: no [pagination]
    category is ever reported. *)
Theorem structure_notes_follow_tallies (s : soup) (rest : dict pyval) :
  Comprehensive.structure_recommendations language
    [ ("structure",
       VDict (dict_set "content_types"
                (content_types_value (detect_content_types s)) rest)) ]
  = Ok (if (0 <? dict_get_default "products" 0 (detect_content_types s))%nat
        then [ if language =? "ru"
               then "🛒 Обнаружены товары: используйте готовые селекторы"
               else "🛒 Products detected: use provided selectors" ]
        else [])
  /\ dict_get "pagination" (detect_content_types s) = None.
Proof.
  assert (Hpag : dict_get "pagination" (detect_content_types s) = None).
  { apply dict_get_absent. rewrite detect_content_types_keys.
    simpl. intuition discriminate. }
  split; [| exact Hpag].
  unfold Comprehensive.structure_recommendations.
  cbn [dict_get]. rewrite String.eqb_refl.
  cbn [Comprehensive.as_dict bind].
  unfold Comprehensive.content_type_signal, dict_get_default.
  rewrite dict_get_set, String.eqb_refl.
  unfold content_types_value. cbn [Comprehensive.as_dict bind].
  pose proof (fun k => dict_get_map (fun n => VInt (Z.of_nat n)) k
                         (detect_content_types s)) as Hmap.
  cbv beta in Hmap. rewrite !Hmap, Hpag. cbn [option_map truthy].
  destruct (dict_get "products" (detect_content_types s)) as [n |];
    cbn [option_map truthy]; [| reflexivity].
  destruct n as [| n]; reflexivity.
Qed.

End StructureNotes.

Section ComplexityFacts.
Import Py Structure StructurePasses.

(** X15. Whatever the results dictionary holds,
    [evaluate_parsing_complexity] either raises [TypeError] or
    [AttributeError] (a field of the wrong type) or returns a score
    between 0 and 100 with the level of that score; every listed factor
    accounts for at least 10 points, and a score of 70 or more (VERY_HIGH)
    comes with at least three listed factors. *)
Theorem parsing_complexity_is_bounded (results : dict pyval) :
  match evaluate_parsing_complexity results with
  | Ok d =>
      exists score factors,
        dict_get "score" d = Some (VInt score)
        /\ dict_get "factors" d = Some (VList (map VStr factors))
        /\ dict_get "level" d = Some (VStr (fst (level_of score)))
        /\ (0 <= score <= 100)%Z
        /\ (10 * Z.of_nat (List.length factors) <= score)%Z
        /\ ((score < 70)%Z \/ 3 <= List.length factors)
  | Raise e => exists msg, e = TypeError msg \/ e = AttributeError msg
  end.
Proof.
  unfold evaluate_parsing_complexity, bind.
  destruct (len (dict_get_default "scripts" (VList []) results))
    as [js_count | e0] eqn:E0;
    [| destruct (dict_get_default "scripts" (VList []) results);
       simpl in E0; try discriminate E0; injection E0 as <-; eauto ].
  set (frameworks := dict_get_default "frameworks_detected" (VDict []) results).
  assert (Hfw : (exists names, keys_of frameworks = Ok names)
                \/ exists msg, keys_of frameworks = Raise (AttributeError msg)).
  { destruct frameworks; simpl; eauto. }
  set (performance := dict_get_default "performance" (VDict []) results).
  assert (Hperf : (exists loading,
                      get_of "loading_complexity" performance = Ok loading)
                  \/ exists msg,
                       get_of "loading_complexity" performance
                       = Raise (AttributeError msg)).
  { destruct performance; simpl; eauto. }
  assert (Hgt : forall v n,
             (exists b, gt_int v n = Ok b)
             \/ exists msg, gt_int v n = Raise (TypeError msg)).
  { intros v n. destruct v; simpl; eauto. }
  destruct (Hgt (dict_get_default "forms_count" (VInt 0) results) 3%Z)
    as [[many_forms E1] | [msg1 E1]];
    destruct (Hgt (dict_get_default "max_nesting_depth" (VInt 0) results) 15%Z)
      as [[deep E2] | [msg2 E2]];
    destruct Hperf as [[loading E3] | [msg3 E3]];
    destruct Hfw as [[names E4] | [msg4 E4]];
    rewrite E1, ?E2, ?E3, ?E4 || rewrite E1;
    destruct (truthy frameworks);
    destruct (10 <? js_count)%nat; try destruct (5 <? js_count)%nat;
    cbv beta iota zeta; rewrite ?E2, ?E3, ?E4; cbv beta iota zeta;
    eauto;
    try destruct many_forms; try destruct (is_str "HIGH" loading);
    try destruct deep;
    cbv beta iota zeta; cbn [level_of Z.add Z.leb Pos.add Pos.succ];
    eauto;
    do 2 eexists; (split; [reflexivity |]); (split; [reflexivity |]);
    (split; [reflexivity |]);
    rewrite ?length_app; cbn [List.length Nat.add Z.of_nat Pos.of_succ_nat
                              Pos.succ Z.mul Pos.mul Pos.add];
    lia.
Qed.

End ComplexityFacts.

(* ================================================================== *)
(** ** Properties of the text helpers of utils.py                      *)
(* ================================================================== *)

Section TextFacts.
Import Py UtilsText.

Lemma take_length_le n s : String.length (take n s) <= n.
Proof.
  revert s. induction n as [| n IH]; intros [| c s]; simpl; try lia.
  specialize (IH s). lia.
Qed.

Lemma take_all n s : String.length s <= n -> take n s = s.
Proof.
  revert s. induction n as [| n IH]; intros [| c s]; simpl; intros H;
    try reflexivity; try lia.
  rewrite IH by lia. reflexivity.
Qed.

Lemma forallb_take p n s :
  forallb_string p s = true -> forallb_string p (take n s) = true.
Proof.
  revert s. induction n as [| n IH]; intros [| c s]; simpl; auto.
  intros H. apply andb_prop in H as [-> H]. now apply IH.
Qed.

Lemma forallb_lstrip_char p c s :
  forallb_string p s = true -> forallb_string p (lstrip_char c s) = true.
Proof.
  induction s as [| d s IH]; simpl; [auto |]. intros H.
  destruct (Ascii.eqb d c); [| exact H].
  apply andb_prop in H as [_ H]. now apply IH.
Qed.

Lemma forallb_rstrip_char p c s :
  forallb_string p s = true -> forallb_string p (rstrip_char c s) = true.
Proof.
  induction s as [| d s IH]; simpl; [auto |]. intros H.
  apply andb_prop in H as [Hd H]. specialize (IH H).
  destruct (rstrip_char c s) as [| e t].
  - destruct (Ascii.eqb d c); simpl; [reflexivity | now rewrite Hd].
  - simpl in *. now rewrite Hd.
Qed.

Lemma rstrip_char_cons c d s :
  rstrip_char c (String d s)
  = match rstrip_char c s with
    | EmptyString => if Ascii.eqb d c then EmptyString else String d EmptyString
    | t' => String d t'
    end.
Proof. reflexivity. Qed.

Lemma lstrip_char_length c s :
  len_chars (lstrip_char c s) <= len_chars s.
Proof.
  induction s as [| d s IH]; cbn [lstrip_char len_chars]; [lia |].
  destruct (Ascii.eqb d c); cbn [len_chars]; lia.
Qed.

Lemma rstrip_char_length c s :
  len_chars (rstrip_char c s) <= len_chars s.
Proof.
  induction s as [| d s IH]; [cbn; lia |].
  rewrite rstrip_char_cons. cbn [len_chars].
  destruct (rstrip_char c s) as [| e t]; [destruct (Ascii.eqb d c) |];
    cbn [len_chars] in *; lia.
Qed.

(** The first character, when there is one. *)
Lemma lstrip_char_head c s :
  match lstrip_char c s with
  | EmptyString => True
  | String d _ => Ascii.eqb d c = false
  end.
Proof.
  induction s as [| d s IH]; simpl; [exact I |].
  destruct (Ascii.eqb d c) eqn:E; [exact IH | exact E].
Qed.

Lemma rstrip_char_head c s :
  match s with
  | EmptyString => True
  | String d _ => Ascii.eqb d c = false
  end ->
  match rstrip_char c s with
  | EmptyString => s = EmptyString
  | String d _ => Ascii.eqb d c = false
  end.
Proof.
  destruct s as [| d s]; simpl; [reflexivity |]. intros H.
  destruct (rstrip_char c s); [rewrite H |]; exact H.
Qed.

Lemma rstrip_char_last c s :
  match last_char (rstrip_char c s) with
  | Some d => Ascii.eqb d c = false
  | None => rstrip_char c s = EmptyString
  end.
Proof.
  induction s as [| d s IH]; simpl; [reflexivity |].
  destruct (rstrip_char c s) as [| e t] eqn:E.
  - destruct (Ascii.eqb d c) eqn:Ed; simpl; [reflexivity | exact Ed].
  - change (last_char (String d (String e t))) with (last_char (String e t)).
    destruct (last_char (String e t)); [exact IH | discriminate IH].
Qed.

Lemma lstrip_char_fixed c s :
  match s with
  | EmptyString => True
  | String d _ => Ascii.eqb d c = false
  end -> lstrip_char c s = s.
Proof. destruct s as [| d s]; simpl; [reflexivity | now intros ->]. Qed.

Lemma rstrip_char_fixed c s :
  match last_char s with
  | Some d => Ascii.eqb d c = false
  | None => True
  end -> rstrip_char c s = s.
Proof.
  induction s as [| d s IH]; [reflexivity |]. intros H.
  destruct s as [| e t].
  - simpl in *. now rewrite H.
  - change (last_char (String d (String e t))) with (last_char (String e t)) in H.
    rewrite rstrip_char_cons, (IH H). reflexivity.
Qed.

Lemma replace_unsafe_clean s :
  forallb_string (fun c => negb (unsafe_char c)) (replace_unsafe s) = true.
Proof.
  induction s as [| c s IH]; simpl; [reflexivity |].
  rewrite IH. destruct (unsafe_char c) eqn:E; [reflexivity | now rewrite E].
Qed.

Lemma replace_unsafe_length s :
  String.length (replace_unsafe s) = String.length s.
Proof. induction s as [| c s IH]; simpl; [reflexivity | now rewrite IH]. Qed.

Lemma replace_unsafe_fixed s :
  forallb_string (fun c => negb (unsafe_char c)) s = true ->
  replace_unsafe s = s.
Proof.
  induction s as [| c s IH]; simpl; [reflexivity |]. intros H.
  apply andb_prop in H as [Hc H]. rewrite (IH H).
  apply negb_true_iff in Hc. now rewrite Hc.
Qed.

Lemma forallb_string_impl (p q : ascii -> bool) s :
  (forall c, p c = true -> q c = true) ->
  forallb_string p s = true -> forallb_string q s = true.
Proof.
  intros Hpq. induction s as [| c s IH]; simpl; [reflexivity |].
  intros H. apply andb_prop in H as [Hc H]. now rewrite (Hpq c Hc), IH.
Qed.

Lemma forallb_string_last p s c :
  forallb_string p s = true -> last_char s = Some c -> p c = true.
Proof.
  induction s as [| d s IH]; simpl; [discriminate |]. intros H.
  apply andb_prop in H as [Hd H].
  destruct s as [| e t]; [intros [= <-]; exact Hd | now apply IH].
Qed.

Lemma digit_or_underscore_safe c :
  is_digit c || Ascii.eqb c "_" = true ->
  negb (unsafe_char c) && negb (Ascii.eqb c ".") = true.
Proof.
  destruct c as [[] [] [] [] [] [] [] []]; vm_compute; auto.
Qed.


Lemma last_char_none s : last_char s = None -> s = "".
Proof.
  induction s as [| c s IH]; [reflexivity |]. simpl.
  destruct s; [discriminate | intros H; discriminate (IH H)].
Qed.

Lemma last_char_app a b :
  last_char (a ++ b)
  = match last_char b with
    | Some c => Some c
    | None => last_char a
    end.
Proof.
  induction a as [| c a IH]; simpl.
  - now destruct (last_char b).
  - destruct (a ++ b) as [| e t] eqn:E.
    + destruct a; [| discriminate]. simpl in E. now subst b.
    + rewrite IH. destruct (last_char b) eqn:Eb; [reflexivity |].
      destruct a; [| reflexivity]. simpl in E. subst b.
      discriminate (last_char_none _ Eb).
Qed.

Lemma truncated_clean s :
  let t := if (200 <? len_chars s)%nat then take_chars 200 s else s in
  len_chars t <= 200
  /\ (forall p, forallb_string p s = true -> forallb_string p t = true).
Proof.
  cbv zeta. destruct (Nat.ltb_spec 200 (len_chars s)).
  - split; [apply len_chars_take_chars | intros p; apply forallb_take_chars].
  - split; [lia | auto].
Qed.

(** X16. The name returned by [safe_filename] is never empty, holds none
    of the nine unsafe characters, has at most 200 characters (characters,
    not bytes) and neither starts nor ends with a dot, the time stamp
    being made of at most 195 digits and underscores. *)
Theorem safe_filename_is_safe stamp filename :
  stamp_like stamp = true ->
  String.length stamp <= 195 ->
  safe_name (safe_filename stamp filename).
Proof.
  intros Hstamp Hlen. unfold safe_filename. cbv zeta.
  destruct (truncated_clean (replace_unsafe filename)) as [Hl Hp].
  cbv zeta in Hl, Hp.
  set (y := if (200 <? len_chars (replace_unsafe filename))%nat
            then take_chars 200 (replace_unsafe filename)
            else replace_unsafe filename) in *.
  pose proof (Hp _ (replace_unsafe_clean filename)) as Hy.
  set (z := strip_char "." y).
  assert (Hz : forallb_string (fun c => negb (unsafe_char c)) z = true).
  { apply forallb_rstrip_char, forallb_lstrip_char, Hy. }
  assert (Hzl : len_chars z <= 200).
  { unfold z, strip_char.
    pose proof (rstrip_char_length "." (lstrip_char "." y)).
    pose proof (lstrip_char_length "." y). lia. }
  pose proof (rstrip_char_head "." _ (lstrip_char_head "." y)) as Hhead.
  pose proof (rstrip_char_last "." (lstrip_char "." y)) as Hlast.
  fold (strip_char "." y) in Hhead, Hlast. fold z in Hhead, Hlast.
  destruct (String.eqb_spec z "") as [E | E].
  - assert (Hs : forallb_string
                   (fun c => negb (unsafe_char c) && negb (Ascii.eqb c "."))
                   stamp = true).
    { eapply forallb_string_impl; [| exact Hstamp].
      apply digit_or_underscore_safe. }
    repeat split.
    + discriminate.
    + change ("file_" ++ stamp) with ("file_" ++ stamp)%string.
      rewrite forallb_string_app. apply andb_true_intro. split; [reflexivity |].
      eapply forallb_string_impl; [| exact Hs].
      intros c H. now apply andb_prop in H as [H _].
    + rewrite len_chars_app. pose proof (len_chars_le stamp) as Hle.
      change (len_chars "file_") with 5. lia.
    + rewrite last_char_app.
      destruct (last_char stamp) as [c |] eqn:El; [| reflexivity].
      pose proof (forallb_string_last _ _ _ Hs El) as H.
      apply andb_prop in H as [_ H]. now apply negb_true_iff in H.
  - repeat split; try assumption.
    + destruct z; [contradiction | exact Hhead].
    + destruct (last_char z); [exact Hlast | exact I].
Qed.

(** X17. A name that is already safe (not empty, no unsafe character, at
    most 200 characters, no dot at either end) is returned unchanged:
    [safe_filename] is idempotent. *)
Theorem safe_filename_keeps_safe_names stamp name :
  safe_name name -> safe_filename stamp name = name.
Proof.
  intros (Hne & Hclean & Hlen & Hhead & Hlast). unfold safe_filename. cbv zeta.
  rewrite (replace_unsafe_fixed _ Hclean).
  destruct (Nat.ltb_spec 200 (len_chars name)); [lia |].
  unfold strip_char. rewrite (lstrip_char_fixed _ _ Hhead).
  rewrite (rstrip_char_fixed _ _ Hlast).
  destruct (String.eqb_spec name ""); [contradiction | reflexivity].
Qed.

End TextFacts.

Section CleanTextFacts.
Import Py UtilsText.

Lemma lstrip_starts_clean s : starts_clean (lstrip s).
Proof.
  induction s as [| c s IH]; simpl; [exact I |].
  destruct (is_space c) eqn:E; [exact IH | exact E].
Qed.

Lemma rstrip_cons c s :
  rstrip (String c s)
  = match rstrip s with
    | EmptyString => if is_space c then EmptyString else String c EmptyString
    | t' => String c t'
    end.
Proof. reflexivity. Qed.

Lemma rstrip_starts_clean s : starts_clean s -> starts_clean (rstrip s).
Proof.
  destruct s as [| c s]; [auto |]. intros H. rewrite rstrip_cons.
  simpl in H. destruct (rstrip s); [rewrite H |]; exact H.
Qed.

Lemma rstrip_ends_clean s : ends_clean (rstrip s).
Proof.
  unfold ends_clean. induction s as [| c s IH]; [exact I |].
  rewrite rstrip_cons. destruct (rstrip s) as [| e t] eqn:E.
  - destruct (is_space c) eqn:Ec; simpl; [exact I | exact Ec].
  - change (last_char (String c (String e t))) with (last_char (String e t)).
    exact IH.
Qed.

Lemma lstrip_fixed s : starts_clean s -> lstrip s = s.
Proof. destruct s as [| c s]; simpl; [reflexivity | now intros ->]. Qed.

Lemma rstrip_fixed s : ends_clean s -> rstrip s = s.
Proof.
  unfold ends_clean. induction s as [| c s IH]; [reflexivity |]. intros H.
  destruct s as [| e t].
  - simpl in *. now rewrite H.
  - change (last_char (String c (String e t))) with (last_char (String e t)) in H.
    rewrite rstrip_cons, (IH H). reflexivity.
Qed.

Lemma strip_fixed s : starts_clean s -> ends_clean s -> strip s = s.
Proof.
  intros Hs He. unfold strip. rewrite (lstrip_fixed _ Hs). now apply rstrip_fixed.
Qed.

Lemma collapse_in_run_starts_clean s : starts_clean (collapse_from true s).
Proof.
  induction s as [| c s IH]; simpl; [exact I |].
  destruct (is_space c) eqn:E; [exact IH | exact E].
Qed.

Lemma collapse_starts_clean b s :
  starts_clean s -> starts_clean (collapse_from b s).
Proof.
  destruct s as [| c s]; [auto |]. unfold starts_clean.
  cbn [collapse_from]. intros H. rewrite H. exact H.
Qed.

Lemma collapse_from_cons b d s :
  collapse_from b (String d s)
  = if is_space d
    then if b then collapse_from true s else String " " (collapse_from true s)
    else String d (collapse_from false s).
Proof. reflexivity. Qed.

Lemma last_char_cons d s : s <> "" -> last_char (String d s) = last_char s.
Proof. destruct s; [contradiction | reflexivity]. Qed.

Lemma collapse_last b s c :
  last_char s = Some c -> is_space c = false ->
  last_char (collapse_from b s) = Some c.
Proof.
  revert b. induction s as [| d s IH]; intros b Hl Hc; [discriminate |].
  rewrite collapse_from_cons.
  destruct (String.eqb_spec s "") as [-> | Hne].
  - simpl in Hl. injection Hl as ->. rewrite Hc. reflexivity.
  - rewrite (last_char_cons _ _ Hne) in Hl.
    assert (Hne' : forall b', collapse_from b' s <> "").
    { intros b' E. specialize (IH b' Hl Hc). rewrite E in IH. discriminate. }
    destruct (is_space d); [destruct b |];
      rewrite ?last_char_cons by apply Hne'; now apply IH.
Qed.

Lemma collapse_ends_clean b s : ends_clean s -> ends_clean (collapse_from b s).
Proof.
  unfold ends_clean. destruct (last_char s) as [c |] eqn:E.
  - intros Hc. now rewrite (collapse_last b s c E Hc).
  - intros _. now rewrite (last_char_none _ E).
Qed.

Lemma collapse_plain b s : plain_spaces (collapse_from b s) = true.
Proof.
  unfold plain_spaces. revert b.
  induction s as [| c s IH]; intros b; simpl; [reflexivity |].
  destruct (is_space c) eqn:E.
  - destruct b; [apply IH |]. simpl. apply IH.
  - simpl. now rewrite E, IH.
Qed.

Lemma has_double_space_cons c d t :
  has_double_space (String c (String d t))
  = (is_space c && is_space d) || has_double_space (String d t).
Proof. reflexivity. Qed.

Lemma collapse_no_double b s : has_double_space (collapse_from b s) = false.
Proof.
  revert b. induction s as [| c s IH]; intros b; [reflexivity |].
  rewrite collapse_from_cons. destruct (is_space c) eqn:E.
  - destruct b; [apply IH |].
    pose proof (collapse_in_run_starts_clean s) as Hs. specialize (IH true).
    destruct (collapse_from true s) as [| d t]; [reflexivity |].
    unfold starts_clean in Hs.
    now rewrite has_double_space_cons, Hs, andb_false_r, IH.
  - specialize (IH false).
    destruct (collapse_from false s) as [| d t]; [reflexivity |].
    now rewrite has_double_space_cons, E, IH.
Qed.

Lemma collapse_fixed b s :
  plain_spaces s = true -> has_double_space s = false ->
  (b = true -> starts_clean s) ->
  collapse_from b s = s.
Proof.
  unfold plain_spaces. revert b.
  induction s as [| c s IH]; intros b Hp Hd Hb; [reflexivity |].
  cbn [forallb_string] in Hp. apply andb_prop in Hp as [Hc Hp].
  assert (Hd' : has_double_space s = false
                /\ (is_space c = true -> starts_clean s)).
  { destruct s as [| d t]; [split; [reflexivity | intros; exact I] |].
    rewrite has_double_space_cons in Hd.
    apply orb_false_elim in Hd as [H1 H2].
    split; [exact H2 |]. intros Hsp. rewrite Hsp in H1. exact H1. }
  destruct Hd' as [Hd' Hnext].
  rewrite collapse_from_cons. destruct (is_space c) eqn:E.
  - destruct b.
    + specialize (Hb eq_refl). unfold starts_clean in Hb. congruence.
    + cbn [negb orb] in Hc. apply Ascii.eqb_eq in Hc. subst c.
      now rewrite (IH true Hp Hd' (fun _ => Hnext eq_refl)).
  - rewrite (IH false Hp Hd'); [reflexivity | discriminate].
Qed.

Lemma len_chars_dots : len_chars "..." = 3.
Proof. reflexivity. Qed.

(** X18. With a limit of at least 3, the text returned by [clean_text]
    has at most that many characters (characters, not bytes). *)
Theorem clean_text_respects_limit text (m : Z) :
  (3 <= m)%Z ->
  (Z.of_nat (len_chars (clean_text text (Some m))) <= m)%Z.
Proof.
  intros Hm. unfold clean_text.
  destruct (text =? ""); [simpl; lia |]. cbv zeta.
  set (t := collapse_whitespace (strip text)).
  destruct (Z.eqb_spec m 0); [lia |]. cbn [negb andb].
  destruct (Z.ltb_spec m (Z.of_nat (len_chars t))); [| lia].
  rewrite len_chars_app, len_chars_dots. unfold slice_to.
  destruct (Z.leb_spec 0 (m - 3)); [| lia].
  pose proof (len_chars_take_chars (Z.to_nat (m - 3)) t). lia.
Qed.

(** X19. With a limit of 1 or 2, a text whose cleaned form (what
    [clean_text] returns without a limit) has more characters than the
    limit is not cut to the limit: the result is the cleaned form
    without its last [3 - limit] characters, followed by three dots, so
    it has [limit] characters more than the cleaned form. *)
Theorem clean_text_overflows_short_limit text (m : Z) :
  (0 < m < 3)%Z ->
  (m < Z.of_nat (len_chars (clean_text text None)))%Z ->
  clean_text text (Some m)
  = take_chars (len_chars (clean_text text None) - Z.to_nat (3 - m))
      (clean_text text None) ++ "..."
  /\ Z.of_nat (len_chars (clean_text text (Some m)))
     = (Z.of_nat (len_chars (clean_text text None)) + m)%Z
  /\ (m < Z.of_nat (len_chars (clean_text text (Some m))))%Z.
Proof.
  intros Hm Hlong. unfold clean_text in *.
  destruct (String.eqb_spec text "") as [E | E]; [simpl in Hlong; lia |].
  cbv zeta in *.
  set (t := collapse_whitespace (strip text)) in *.
  destruct (Z.eqb_spec m 0); [lia |]. cbn [negb andb].
  destruct (Z.ltb_spec m (Z.of_nat (len_chars t))); [| lia].
  unfold slice_to. destruct (Z.leb_spec 0 (m - 3)); [lia |].
  replace (- (m - 3))%Z with (3 - m)%Z by lia.
  assert (Hlen : len_chars (take_chars (len_chars t - Z.to_nat (3 - m)) t
                            ++ "...")
                 = len_chars t - Z.to_nat (3 - m) + 3).
  { rewrite len_chars_app, len_chars_dots, len_chars_take_chars_eq; lia. }
  split; [reflexivity |]. rewrite Hlen. split; lia.
Qed.

(** X20. Without a limit, the text returned by [clean_text] has no
    whitespace at either end, no two adjacent whitespace characters and
    no whitespace other than plain spaces; cleaning it again changes
    nothing. *)
Theorem clean_text_normalizes text :
  let cleaned := clean_text text None in
  strip cleaned = cleaned
  /\ has_double_space cleaned = false
  /\ plain_spaces cleaned = true
  /\ clean_text cleaned None = cleaned.
Proof.
  cbv zeta. unfold clean_text.
  destruct (String.eqb_spec text ""); [repeat split |].
  set (r := collapse_whitespace (strip text)).
  assert (Hs : starts_clean r).
  { apply collapse_starts_clean, rstrip_starts_clean, lstrip_starts_clean. }
  assert (He : ends_clean r).
  { apply collapse_ends_clean, rstrip_ends_clean. }
  assert (Hd : has_double_space r = false) by apply collapse_no_double.
  assert (Hp : plain_spaces r = true) by apply collapse_plain.
  assert (Hstrip : strip r = r) by now apply strip_fixed.
  repeat split; try assumption.
  destruct (String.eqb_spec r "") as [E | E]; [symmetry; exact E |].
  rewrite Hstrip. unfold collapse_whitespace at 1.
  apply collapse_fixed; try assumption. discriminate.
Qed.

End CleanTextFacts.

Section NumberFacts.
Import Py UtilsText.

Lemma digits_of_uint d :
  forallb_string is_digit (NilEmpty.string_of_uint d) = true.
Proof. induction d; simpl; auto. Qed.

Lemma digits_of_nonneg d :
  forallb_string is_digit (NilZero.string_of_uint d) = true.
Proof. destruct d; try reflexivity; apply (digits_of_uint (_ d)). Qed.

Lemma group_from_cons k c d t :
  group_from " " k (String c (String d t))
  = match k with
    | S (S k') => String c (group_from " " (S k') (String d t))
    | _ => String c (String " " (group_from " " 3 (String d t)))
    end.
Proof. destruct k as [| [| k]]; reflexivity. Qed.

Lemma ungroup k s :
  forallb_string is_digit s = true ->
  filter_string not_space (group_from " " k s) = s.
Proof.
  revert k. induction s as [| c s IH]; intros k H; [reflexivity |].
  cbn [forallb_string] in H. apply andb_prop in H as [Hc H].
  assert (Hn : not_space c = true).
  { destruct c as [[] [] [] [] [] [] [] []]; try discriminate Hc; reflexivity. }
  destruct s as [| d t]; [simpl; now rewrite Hn |].
  rewrite group_from_cons.
  destruct k as [| [| k]]; cbn [filter_string]; rewrite Hn;
    change (not_space " ") with false; cbv iota; now rewrite IH.
Qed.

Lemma group_length k s :
  String.length s <= String.length (group_from " " k s).
Proof.
  revert k. induction s as [| c s IH]; intros k; [simpl; lia |].
  destruct s as [| d t]; [simpl; lia |].
  rewrite group_from_cons.
  destruct k as [| [| k]]; cbn [String.length];
    [specialize (IH 3) | specialize (IH 3) | specialize (IH (S k))];
    cbn [String.length] in IH; lia.
Qed.

(** X21. Removing the spaces from [format_number n] gives back the
    decimal writing of [n]: the grouping adds separators and nothing
    else. *)
Theorem format_number_keeps_digits (n : Z) :
  filter_string not_space (format_number n) = Protection.str_Z n.
Proof.
  unfold format_number, group_thousands, Protection.str_Z.
  destruct n as [| p | p]; cbn [Z.ltb Z.compare Z.opp Z.to_int].
  - reflexivity.
  - apply ungroup. apply digits_of_nonneg.
  - cbn [NilZero.string_of_int append filter_string].
    change (not_space "-") with true. cbv iota. f_equal.
    apply ungroup. apply digits_of_nonneg.
Qed.

End NumberFacts.

(* ================================================================== *)
(** ** Properties of [parse_robots_txt]                                *)
(* ================================================================== *)

Section RobotsFacts.
Import Py Robots.

Variable F : Type.
Variable float_of : string -> option F.


Lemma split_char_cons sep c a :
  split_char sep (String c a)
  = if Ascii.eqb c sep then EmptyString :: split_char sep a
    else match split_char sep a with
         | [] => [String c EmptyString]
         | w :: ws => String c w :: ws
         end.
Proof. reflexivity. Qed.

Lemma split_char_not_nil sep a : split_char sep a <> [].
Proof.
  destruct a as [| c a]; [discriminate |].
  rewrite split_char_cons.
  destruct (Ascii.eqb c sep); [discriminate |].
  destruct (split_char sep a); discriminate.
Qed.

Lemma split_char_app sep a b :
  split_char sep (a ++ String sep b)
  = (split_char sep a ++ split_char sep b)%list.
Proof.
  induction a as [| c a IH].
  - cbn [String.append]. rewrite split_char_cons, Ascii.eqb_refl. reflexivity.
  - cbn [String.append]. rewrite !split_char_cons, IH.
    destruct (Ascii.eqb c sep); [reflexivity |].
    pose proof (split_char_not_nil sep a) as Hne.
    destruct (split_char sep a); [congruence | reflexivity].
Qed.

Lemma entries_app l1 l2 : entries (l1 ++ l2) = (entries l1 ++ entries l2)%list.
Proof. unfold entries. apply flat_map_app. Qed.

Lemma fold_parse_entries lines (st : loop_state F) :
  fold_left (Robots.parse_line F float_of) lines st
  = fold_left (fun st e => (Robots.apply_entry F float_of) st (fst e) (snd e)) (entries lines) st.
Proof.
  revert st. induction lines as [| raw lines IH]; intros st; [reflexivity |].
  cbn [fold_left entries flat_map]. fold (entries lines).
  rewrite IH. unfold Robots.parse_line.
  destruct (entry_of_line raw) as [[k v] |]; reflexivity.
Qed.

Lemma apply_entry_sitemaps (st : loop_state F) k v :
  sitemaps F (fst ((Robots.apply_entry F float_of) st k v))
  = (sitemaps F (fst st) ++ if k =? "sitemap" then [v] else [])%list.
Proof.
  destruct st as [r current]. unfold Robots.apply_entry.
  destruct (String.eqb_spec k "user-agent") as [-> | _];
    [simpl; now rewrite app_nil_r |].
  destruct (String.eqb_spec k "disallow") as [-> | _];
    [destruct (current_agent current); simpl; now rewrite app_nil_r |].
  destruct (String.eqb_spec k "allow") as [-> | _];
    [destruct (current_agent current); simpl; now rewrite app_nil_r |].
  assert (H : (if k =? "sitemap"
               then ({| user_agents := user_agents F r;
                        sitemaps := sitemaps F r ++ [v];
                        crawl_delay := crawl_delay F r |}, current)
               else if k =? "crawl-delay"
                    then match float_of v with
                         | Some delay =>
                             ({| user_agents := user_agents F r;
                                 sitemaps := sitemaps F r;
                                 crawl_delay := Some delay |}, current)
                         | None => (r, current)
                         end
                    else (r, current))
              = (if k =? "sitemap"
                 then ({| user_agents := user_agents F r;
                          sitemaps := sitemaps F r ++ [v];
                          crawl_delay := crawl_delay F r |}, current)
                 else if k =? "crawl-delay"
                      then match float_of v with
                           | Some delay =>
                               ({| user_agents := user_agents F r;
                                   sitemaps := sitemaps F r;
                                   crawl_delay := Some delay |}, current)
                           | None => (r, current)
                           end
                      else (r, current))) by reflexivity.
  clear H.
  destruct (current_agent current);
    destruct (k =? "sitemap"); simpl; try reflexivity;
    destruct (k =? "crawl-delay"); try destruct (float_of v); simpl;
    now rewrite app_nil_r.
Qed.

Lemma apply_entry_crawl_delay (st : loop_state F) k v :
  crawl_delay F (fst ((Robots.apply_entry F float_of) st k v))
  = if k =? "crawl-delay"
    then match float_of v with
         | Some f => Some f
         | None => crawl_delay F (fst st)
         end
    else crawl_delay F (fst st).
Proof.
  destruct st as [r current]. unfold Robots.apply_entry.
  destruct (String.eqb_spec k "user-agent") as [-> | _]; [reflexivity |].
  destruct (String.eqb_spec k "disallow") as [-> | _];
    [destruct (current_agent current); reflexivity |].
  destruct (String.eqb_spec k "allow") as [-> | _];
    [destruct (current_agent current); reflexivity |].
  destruct (String.eqb_spec k "sitemap") as [-> | _];
    [destruct (current_agent current); reflexivity |].
  destruct (current_agent current);
    destruct (k =? "crawl-delay"); try destruct (float_of v); reflexivity.
Qed.

Lemma fold_sitemaps es (st : loop_state F) :
  sitemaps F
    (fst (fold_left (fun st e => (Robots.apply_entry F float_of) st (fst e) (snd e)) es st))
  = (sitemaps F (fst st) ++ values_of "sitemap" es)%list.
Proof.
  revert st. induction es as [| [k v] es IH]; intros st; simpl.
  - unfold values_of. simpl. now rewrite app_nil_r.
  - rewrite IH, apply_entry_sitemaps. unfold values_of. simpl.
    destruct (k =? "sitemap"); simpl; now rewrite <- app_assoc.
Qed.

Lemma fold_crawl_delay es (st : loop_state F) :
  crawl_delay F
    (fst (fold_left (fun st e => (Robots.apply_entry F float_of) st (fst e) (snd e)) es st))
  = fold_left
      (fun acc v => match float_of v with Some f => Some f | None => acc end)
      (values_of "crawl-delay" es) (crawl_delay F (fst st)).
Proof.
  revert st. induction es as [| [k v] es IH]; intros st; simpl; [reflexivity |].
  rewrite IH, apply_entry_crawl_delay. unfold values_of. simpl.
  destruct (k =? "crawl-delay"); reflexivity.
Qed.

(** X22. The sitemaps recorded are the values of all [Sitemap] lines, in
    order, wherever they stand among the user-agent sections, and the
    crawl delay is that of the last [Crawl-delay] line whose value
    [float] accepts. *)
Theorem sitemaps_and_delay_ignore_sections (content : string) :
  let es := entries (split_char "010" content) in
  sitemaps F (parse_robots_txt F float_of content) = values_of "sitemap" es
  /\ crawl_delay F (parse_robots_txt F float_of content)
     = last_float F float_of (values_of "crawl-delay" es).
Proof.
  cbv zeta. unfold parse_robots_txt, parse_lines.
  rewrite fold_parse_entries. split.
  - now rewrite fold_sitemaps.
  - now rewrite fold_crawl_delay.
Qed.


Lemma rule_line_skipped (r : rules F) current raw :
  current_agent current = None ->
  rule_line raw = true ->
  (Robots.parse_line F float_of) (r, current) raw = (r, current).
Proof.
  intros Hc Hr. unfold Robots.parse_line, rule_line in *.
  destruct (entry_of_line raw) as [[k v] |]; [| reflexivity].
  unfold Robots.apply_entry. rewrite Hc.
  apply Bool.orb_true_iff in Hr as [Hr | Hr];
    apply String.eqb_eq in Hr; subst k; reflexivity.
Qed.

Lemma rule_lines_skipped (r : rules F) current pre :
  current_agent current = None ->
  forallb rule_line pre = true ->
  fold_left (Robots.parse_line F float_of) pre (r, current) = (r, current).
Proof.
  intros Hc. induction pre as [| raw pre IH]; intros H; [reflexivity |].
  cbn [forallb] in H. apply Bool.andb_true_iff in H as [H1 H2].
  cbn [fold_left]. rewrite (rule_line_skipped _ _ _ Hc H1). exact (IH H2).
Qed.

(** X23. [Disallow] and [Allow] lines that stand before the first
    [User-agent] line are dropped: a file that starts with such lines
    (and blank lines, comments and lines without a colon) is parsed as
    the file without them. *)
Theorem rules_before_first_agent_are_dropped (pre rest : string)
    (Hpre : forallb rule_line (split_char "010" pre) = true) :
  parse_robots_txt F float_of (pre ++ String "010" rest)
  = parse_robots_txt F float_of rest.
Proof.
  unfold parse_robots_txt, parse_lines.
  rewrite split_char_app, fold_left_app.
  unfold initial.
  rewrite (rule_lines_skipped _ None _ eq_refl Hpre). reflexivity.
Qed.

Lemma dict_get_not_in {V} k (d : dict V) :
  dict_get k d = None <-> ~ In k (keys d).
Proof.
  induction d as [| [k' v] d IH]; simpl.
  - split; [intros _ [] | reflexivity].
  - destruct (String.eqb_spec k' k) as [-> | Hne].
    + split; [discriminate | intros H; exfalso; apply H; now left].
    + rewrite IH. split.
      * intros H [E | Hin]; [exact (Hne E) | exact (H Hin)].
      * intros H Hin. apply H. now right.
Qed.

Lemma keys_dict_set_present {V} k (v : V) d :
  dict_get k d <> None -> keys (dict_set k v d) = keys d.
Proof.
  induction d as [| [k' v'] d IH]; simpl; intros H; [congruence |].
  destruct (String.eqb_spec k' k) as [-> | Hne]; simpl; [reflexivity |].
  now rewrite IH.
Qed.

Lemma keys_dict_set_absent {V} k (v : V) d :
  dict_get k d = None -> keys (dict_set k v d) = (keys d ++ [k])%list.
Proof.
  induction d as [| [k' v'] d IH]; simpl; intros H; [reflexivity |].
  destruct (String.eqb_spec k' k) as [-> | Hne]; [discriminate |].
  simpl. now rewrite IH.
Qed.

Lemma keys_append_rule b name value (agents : dict agent_rules) :
  keys (append_rule b name value agents) = keys agents.
Proof.
  unfold append_rule. destruct (dict_get name agents) eqn:E; [| reflexivity].
  apply keys_dict_set_present. congruence.
Qed.

(** The keys of a dictionary to which the names [vs] are added in turn,
    each one only when it is not yet a key. *)
Lemma apply_entry_keys (st : loop_state F) k v :
  keys (user_agents F (fst ((Robots.apply_entry F float_of) st k v)))
  = if k =? "user-agent"
    then if existsb (String.eqb v) (keys (user_agents F (fst st)))
         then keys (user_agents F (fst st))
         else (keys (user_agents F (fst st)) ++ [v])%list
    else keys (user_agents F (fst st)).
Proof.
  destruct st as [r current]. unfold Robots.apply_entry.
  destruct (k =? "user-agent") eqn:Eua.
  - cbn [fst user_agents]. unfold dict_mem.
    destruct (dict_get v (user_agents F r)) eqn:E.
    + assert (Hin : In v (keys (user_agents F r))).
      { destruct (in_dec string_dec v (keys (user_agents F r))) as [Hin | Hn];
          [exact Hin |].
        apply dict_get_not_in in Hn. congruence. }
      assert (Hex : existsb (String.eqb v) (keys (user_agents F r)) = true).
      { apply existsb_exists. exists v. split; [exact Hin |].
        apply String.eqb_refl. }
      now rewrite Hex.
    + assert (Hex : existsb (String.eqb v) (keys (user_agents F r)) = false).
      { destruct (existsb (String.eqb v) (keys (user_agents F r))) eqn:Ex;
          [| reflexivity].
        apply existsb_exists in Ex as [y [Hy Ey]].
        apply String.eqb_eq in Ey. subst y.
        apply dict_get_not_in in E. contradiction. }
      rewrite Hex. now apply keys_dict_set_absent.
  - destruct (k =? "disallow"), (k =? "allow"), (current_agent current);
      cbn [fst user_agents]; rewrite ?keys_append_rule;
      try reflexivity;
      destruct (k =? "sitemap"); try reflexivity;
      destruct (k =? "crawl-delay"); try reflexivity;
      destruct (float_of v); reflexivity.
Qed.

Lemma fold_keys es (st : loop_state F) :
  keys (user_agents F
    (fst (fold_left (fun st e => (Robots.apply_entry F float_of) st (fst e) (snd e)) es st)))
  = fold_left
      (fun ks v => if existsb (String.eqb v) ks then ks else (ks ++ [v])%list)
      (values_of "user-agent" es) (keys (user_agents F (fst st))).
Proof.
  revert st. induction es as [| [k v] es IH]; intros st; simpl; [reflexivity |].
  rewrite IH, apply_entry_keys. unfold values_of. simpl.
  destruct (k =? "user-agent"); reflexivity.
Qed.

Lemma filter_filter {A} (p q : A -> bool) l :
  filter p (filter q l) = filter (fun x => q x && p x) l.
Proof.
  induction l as [| x l IH]; simpl; [reflexivity |].
  destruct (q x); simpl; [destruct (p x) |]; now rewrite IH.
Qed.

Lemma existsb_eqb_app v (l1 l2 : list string) :
  existsb (String.eqb v) (l1 ++ l2)
  = existsb (String.eqb v) l1 || existsb (String.eqb v) l2.
Proof. apply existsb_app. Qed.

Lemma extend_first_occurrences vs : forall acc,
  fold_left
    (fun ks v => if existsb (String.eqb v) ks then ks else (ks ++ [v])%list)
    vs acc
  = (acc ++ filter (fun y => negb (existsb (String.eqb y) acc))
              (first_occurrences vs))%list.
Proof.
  induction vs as [| x vs IH]; intros acc.
  - simpl. now rewrite app_nil_r.
  - cbn [fold_left first_occurrences filter].
    destruct (existsb (String.eqb x) acc) eqn:Ex; cbn [negb].
    + rewrite IH, filter_filter. f_equal. apply filter_ext. intros y.
      destruct (String.eqb_spec y x) as [-> | Hne]; cbn [negb andb];
        [now rewrite Ex | reflexivity].
    + rewrite IH, <- app_assoc. cbn [app]. f_equal. f_equal.
      rewrite filter_filter. apply filter_ext. intros y.
      rewrite existsb_eqb_app. cbn [existsb]. rewrite Bool.orb_false_r.
      rewrite Bool.negb_orb. apply Bool.andb_comm.
Qed.

(** X24. The user agents of the result are the names of the
    [User-agent] lines, each one once, in the order of their first
    occurrence; no other line adds or removes an agent. *)
Theorem agents_are_first_occurrences (content : string) :
  keys (user_agents F (parse_robots_txt F float_of content))
  = first_occurrences
      (values_of "user-agent" (entries (split_char "010" content))).
Proof.
  unfold parse_robots_txt, parse_lines.
  rewrite fold_parse_entries, fold_keys.
  rewrite extend_first_occurrences.
  unfold initial. cbn [fst user_agents keys map app existsb negb].
  induction (first_occurrences _) as [| x l IH]; simpl; congruence.
Qed.

End RobotsFacts.

(* ================================================================== *)
(** ** Properties of [retry_on_failure]                                *)
(* ================================================================== *)

Section RetryFacts.
Import Py Retry.

Variable A : Type.
Variable func : nat -> result A.
Variable max_attempts : Z.
Variable delay : Q.
Variable refused : nat -> option exn.

Lemma attempts_S remaining attempt last s :
  attempts A func max_attempts delay refused (S remaining) attempt last s
  = match func (calls s) with
    | Ok a => (Ok a, {| calls := S (calls s); sleeps := sleeps s |})
    | Raise e =>
        if (Z.of_nat attempt <? max_attempts - 1)%Z then
          match sleep delay refused (S attempt)
                  {| calls := S (calls s); sleeps := sleeps s |} with
          | (Ok _, slept) =>
              attempts A func max_attempts delay refused remaining (S attempt)
                (Some e) slept
          | (Raise e', s') => (Raise e', s')
          end
        else attempts A func max_attempts delay refused remaining (S attempt)
               (Some e) {| calls := S (calls s); sleeps := sleeps s |}
    end.
Proof. reflexivity. Qed.

(** [j] failed attempts, each followed by its sleep. *)
Lemma failed_attempts j : forall remaining attempt last c l,
  (0 <= Qnum delay)%Z ->
  (forall i, (i < j)%nat -> refused (S attempt + i) = None) ->
  (forall i, (i < j)%nat -> failure_of A func (c + i) <> None) ->
  (Z.of_nat (attempt + j) <= max_attempts - 1)%Z ->
  attempts A func max_attempts delay refused (j + remaining) attempt last
    {| calls := c; sleeps := l |}
  = attempts A func max_attempts delay refused remaining (attempt + j)
      (match j with
       | O => last
       | S j' => failure_of A func (c + j')
       end)
      {| calls := c + j; sleeps := l ++ seq (S attempt) j |}.
Proof.
  induction j as [| j IH]; intros remaining attempt last c l Hd Hlong Hfail Hmax.
  - cbn [seq Nat.add]. now rewrite !Nat.add_0_r, app_nil_r.
  - cbn [Nat.add]. rewrite attempts_S. cbn [calls sleeps].
    pose proof (Hfail 0%nat ltac:(lia)) as H0. rewrite Nat.add_0_r in H0.
    unfold failure_of in H0.
    destruct (func c) as [a | e] eqn:Ec; [congruence |].
    assert (Hlt : (Z.of_nat attempt <? max_attempts - 1)%Z = true)
      by (apply Z.ltb_lt; lia).
    rewrite Hlt. unfold sleep.
    assert (Hneg : (Qnum delay <? 0)%Z = false) by (apply Z.ltb_ge; lia).
    rewrite Hneg.
    pose proof (Hlong 0%nat ltac:(lia)) as Hl0. rewrite Nat.add_0_r in Hl0.
    rewrite Hl0. cbn [calls sleeps].
    rewrite (IH remaining (S attempt) (Some e) (S c) (l ++ [S attempt])%list Hd).
    + replace (S attempt + j)%nat with (attempt + S j)%nat by lia.
      replace (S c + j)%nat with (c + S j)%nat by lia.
      rewrite <- app_assoc. cbn [app seq].
      f_equal. destruct j as [| j'].
      * unfold failure_of. rewrite Nat.add_0_r, Ec. reflexivity.
      * f_equal. lia.
    + intros i Hi. replace (S (S attempt) + i)%nat with (S attempt + S i)%nat
        by lia.
      apply Hlong. lia.
    + intros i Hi. replace (S c + i)%nat with (c + S i)%nat by lia.
      apply Hfail. lia.
    + lia.
Qed.

(** X25. With a delay that is not negative and sleeps that
    [time.sleep] accepts, when the call number [k] is the first that returns, and
    [k < max_attempts], the wrapper returns its value after exactly
    [k + 1] calls, having slept [delay], [2 * delay], ..., [k * delay] in
    between. *)
Theorem retry_returns_first_success (k : nat) (a : A)
    (Hdelay : (0 <= Qnum delay)%Z)
    (Hlong : forall i, (1 <= i <= k)%nat -> refused i = None)
    (Hmax : (Z.of_nat k < max_attempts)%Z)
    (Hfail : forall i, (i < k)%nat -> failure_of A func i <> None)
    (Hok : func k = Ok a) :
  wrapper A func max_attempts delay refused start
  = (Ok a, {| calls := S k; sleeps := seq 1 k |}).
Proof.
  unfold wrapper, start.
  replace (Z.to_nat max_attempts) with (k + S (Z.to_nat max_attempts - S k))%nat
    by lia.
  rewrite failed_attempts;
    [| exact Hdelay | intros i Hi; apply Hlong; lia | exact Hfail | lia].
  rewrite attempts_S. cbn [calls sleeps Nat.add app]. now rewrite Hok.
Qed.

(** X26. With a delay that is not negative and sleeps that
    [time.sleep] accepts, when the first [max_attempts] calls all raise, the wrapper
    raises the exception of the last of them, after exactly
    [max_attempts] calls and a sleep after every call but the last. *)
Theorem retry_exhausted_raises_last (n : nat) (e : exn)
    (Hdelay : (0 <= Qnum delay)%Z)
    (Hlong : forall i, (1 <= i <= n)%nat -> refused i = None)
    (Hmax : max_attempts = Z.of_nat (S n))
    (Hfail : forall i, (i < n)%nat -> failure_of A func i <> None)
    (Hlast : func n = Raise e) :
  wrapper A func max_attempts delay refused start
  = (Raise e, {| calls := S n; sleeps := seq 1 n |}).
Proof.
  unfold wrapper, start.
  replace (Z.to_nat max_attempts) with (n + 1)%nat by lia.
  rewrite failed_attempts;
    [| exact Hdelay | intros i Hi; apply Hlong; lia | exact Hfail | lia].
  rewrite attempts_S. cbn [calls sleeps Nat.add app]. rewrite Hlast.
  assert (Hge : (Z.of_nat n <? max_attempts - 1)%Z = false)
    by (apply Z.ltb_ge; lia).
  rewrite Hge. reflexivity.
Qed.

(** A sleep that is refused ends the run: when the first call raises,
    another attempt is allowed and the first sleep is refused, the
    wrapper raises the exception of [time.sleep] after that one call,
    whatever the later calls would give. *)
Lemma refused_sleep_ends_the_run (e e' : exn) :
  (0 <= Qnum delay)%Z -> (2 <= max_attempts)%Z ->
  func 0 = Raise e -> refused 1 = Some e' ->
  wrapper A func max_attempts delay refused start
  = (Raise e', {| calls := 1; sleeps := [] |}).
Proof.
  intros Hd Hmax Hfail Hlong. unfold wrapper, start.
  replace (Z.to_nat max_attempts) with (S (Z.to_nat max_attempts - 1)) by lia.
  rewrite attempts_S. cbn [calls sleeps]. rewrite Hfail.
  assert (Hlt : (Z.of_nat 0 <? max_attempts - 1)%Z = true)
    by (apply Z.ltb_lt; lia).
  rewrite Hlt. unfold sleep.
  assert (Hneg : (Qnum delay <? 0)%Z = false) by (apply Z.ltb_ge; lia).
  now rewrite Hneg, Hlong.
Qed.

(** The wrapped function is called at most [remaining] times, and every
    sleep follows a call of its own. *)
Lemma attempts_bounds remaining : forall attempt last s,
  let s' := snd (attempts A func max_attempts delay refused remaining attempt last s) in
  (calls s <= calls s' <= calls s + remaining)%nat
  /\ (List.length (sleeps s) <= List.length (sleeps s'))%nat
  /\ (List.length (sleeps s') - List.length (sleeps s)
      <= calls s' - calls s)%nat
  /\ ((0 < remaining)%nat -> (calls s < calls s')%nat)
  /\ ((max_attempts <= Z.of_nat attempt + Z.of_nat remaining)%Z ->
      (0 < remaining)%nat ->
      (List.length (sleeps s') - List.length (sleeps s)
       < calls s' - calls s)%nat).
Proof.
  induction remaining as [| remaining IH]; intros attempt last s; cbv zeta.
  - cbn [attempts snd]. repeat split; lia.
  - rewrite attempts_S.
    destruct (func (calls s)) as [a | e].
    + cbn [snd calls sleeps]. repeat split; lia.
    + destruct (Z.of_nat attempt <? max_attempts - 1)%Z eqn:Hlt.
      * unfold sleep.
        destruct (Qnum delay <? 0)%Z;
          [cbn [snd calls sleeps]; repeat split; lia |].
        destruct (refused (S attempt)).
        -- cbn [snd calls sleeps]. repeat split; lia.
        -- cbv beta iota. cbn [calls sleeps].
           match goal with
           | |- context [attempts _ _ _ _ _ _ ?a' ?l' ?s0] =>
               pose proof (IH a' l' s0) as H
           end.
           cbv zeta in H. cbn [calls sleeps] in H.
           rewrite length_app in H. cbn [List.length] in H.
           destruct H as (H1 & H2 & H3 & H4 & H5).
           apply Z.ltb_lt in Hlt.
           repeat split; lia.
      * cbn [calls sleeps].
        match goal with
        | |- context [attempts _ _ _ _ _ _ ?a' ?l' ?s0] =>
            pose proof (IH a' l' s0) as H
        end.
        cbv zeta in H. cbn [calls sleeps] in H.
        destruct H as (H1 & H2 & H3 & H4 & H5). repeat split; lia.
Qed.

(** X27. Whatever the wrapped function does, whatever the delay is and
    whichever sleeps are refused, the wrapper calls the function at most [max_attempts] times (never
    when [max_attempts] is not positive), and it sleeps fewer times than
    it calls: never before the first call and never after the last
    permitted one. *)
Theorem retry_effort_is_bounded :
  let s' := snd (wrapper A func max_attempts delay refused start) in
  (Z.of_nat (calls s') <= Z.max 0 max_attempts)%Z
  /\ (List.length (sleeps s') <= Nat.pred (calls s'))%nat.
Proof.
  cbv zeta. unfold wrapper.
  pose proof (attempts_bounds (Z.to_nat max_attempts) 0 None start) as H.
  cbv zeta in H. cbn [start calls sleeps List.length] in H.
  destruct H as (H1 & H2 & H3 & H4 & H5).
  split; [lia |].
  destruct (Z.to_nat max_attempts) as [| m] eqn:Em.
  - lia.
  - specialize (H5 ltac:(lia) ltac:(lia)). lia.
Qed.

End RetryFacts.

(* ================================================================== *)
(** ** The translation of the reports of the protection analyzer       *)
(* ================================================================== *)

Section TranslationFacts.
Import Py Protection ProbeOutcomes Comprehensive Localization.

Variable w : world.
Variable get_text : string -> string.

Lemma keys_map_values {V} (f : V -> pyval) (d : dict V) :
  keys (map_values f d) = keys d.
Proof.
  unfold keys, map_values. rewrite map_map. apply map_ext. reflexivity.
Qed.

Lemma level_of_score_cases (total : Z) :
  level_of_score total = "LOW" \/ level_of_score total = "MEDIUM"
  \/ level_of_score total = "HIGH" \/ level_of_score total = "CRITICAL".
Proof.
  unfold level_of_score.
  destruct (80 <=? total)%Z; [auto |].
  destruct (60 <=? total)%Z; [auto |].
  destruct (40 <=? total)%Z; auto.
Qed.

Lemma report_tier url s :
  exists r s',
    analyze w url s = (Ok r, s')
    /\ (complexity_level r = "LOW" \/ complexity_level r = "MEDIUM"
        \/ complexity_level r = "HIGH" \/ complexity_level r = "CRITICAL").
Proof.
  destruct (reports_accessible w s) eqn:Hacc.
  - destruct (normal_report w url s Hacc)
      as (b & ua & rl & cf & js & cp & ck & r & s' & Hr & _ & _ & _ & Hl).
    exists r, s'. split; [exact Hr |]. rewrite Hl. apply level_of_score_cases.
  - destruct (short_circuit_report w url s Hacc) as (r & s' & Hr & _ & Hl & _).
    exists r, s'. split; [exact Hr |]. auto.
Qed.

Lemma localized_tier (r : report) :
  (complexity_level r = "LOW" ->
   dict_get "complexity_level_localized"
     (_translate_protection_results get_text (protection_dict r))
   = Some (VStr (get_text "protection_low")))
  /\ (complexity_level r = "MEDIUM" ->
      dict_get "complexity_level_localized"
        (_translate_protection_results get_text (protection_dict r))
      = Some (VStr (get_text "protection_medium")))
  /\ (complexity_level r = "HIGH" ->
      dict_get "complexity_level_localized"
        (_translate_protection_results get_text (protection_dict r))
      = Some (VStr (get_text "protection_high")))
  /\ (complexity_level r = "CRITICAL" ->
      dict_get "complexity_level_localized"
        (_translate_protection_results get_text (protection_dict r))
      = Some (VStr (get_text "protection_critical"))).
Proof.
  destruct r as [u t mech methods total level best rate].
  cbn [complexity_level].
  repeat split; intros ->; destruct best, rate; reflexivity.
Qed.

Lemma localized_details (r : report) :
  dict_get "protection_details_localized"
    (_translate_protection_results get_text (protection_dict r))
  = Some (VDict []).
Proof.
  unfold _translate_protection_results, protection_dict.
  rewrite dict_get_set, String.eqb_refl.
  destruct (best_method r), (bypass_success_rate r); reflexivity.
Qed.

(** X28. In the translation of every report of the protection analyzer
    the tier of the report is one of the four tiers and the localized
    tier is the text, in the current language, of the key of that tier
    ([protection_low] for LOW and so on); the localized protection
    details are empty, the report having no [protection_details]. *)
Theorem localized_tier_is_a_tier_text url s :
  exists r s',
    analyze w url s = (Ok r, s')
    /\ In (complexity_level r) tiers
    /\ dict_get "complexity_level_localized"
         (_translate_protection_results get_text (protection_dict r))
       = Some (VStr (get_text (tier_key (complexity_level r))))
    /\ dict_get "protection_details_localized"
         (_translate_protection_results get_text (protection_dict r))
       = Some (VDict []).
Proof.
  destruct (report_tier url s) as (r & s' & Hr & Hl).
  exists r, s'. split; [exact Hr |].
  destruct (localized_tier r) as (H1 & H2 & H3 & H4).
  destruct Hl as [Hl | [Hl | [Hl | Hl]]];
    (split; [rewrite Hl; unfold tiers; simpl; tauto |]);
    (split; [| apply localized_details]).
  - rewrite (H1 Hl), Hl. reflexivity.
  - rewrite (H2 Hl), Hl. reflexivity.
  - rewrite (H3 Hl), Hl. reflexivity.
  - rewrite (H4 Hl), Hl. reflexivity.
Qed.

Lemma localized_methods (r : report) :
  dict_get "bypass_methods_localized"
    (_translate_protection_results get_text (protection_dict r))
  = Some (VList
            (map (fun method =>
                    VStr (dict_get_default method method
                            [ ("requests", get_text "bypass_requests");
                              ("cloudscraper", get_text "bypass_cloudscraper");
                              ("selenium", get_text "bypass_selenium");
                              ("undetected", get_text "bypass_undetected");
                              ("proxy", get_text "bypass_proxy") ]))
               (keys (bypass_methods r)))).
Proof.
  rewrite <- (keys_map_values bypass_value (bypass_methods r)).
  destruct r as [u t mech methods total level best rate].
  destruct best, rate; reflexivity.
Qed.

(** X29. On the normal path the localized bypass methods are the methods
    tried, in order, of which only [requests] and [cloudscraper] are
    translated: [requests_session], [fake_useragent] and
    [undetected_chrome] are not keys of the table and keep their
    names. *)
Theorem bypass_labels_of_methods_tried url s
    (Hacc : reports_accessible w s = true) :
  exists r s',
    analyze w url s = (Ok r, s')
    /\ dict_get "bypass_methods_localized"
         (_translate_protection_results get_text (protection_dict r))
       = Some (VList (map (fun method => VStr (bypass_label get_text method))
                        (methods_tried w))).
Proof.
  destruct (normal_report_methods w url s Hacc) as (r & s' & Hr & Hkeys & _).
  exists r, s'. split; [exact Hr |].
  rewrite localized_methods, Hkeys. unfold methods_tried.
  destruct (UA_AVAILABLE w), (CLOUDSCRAPER_AVAILABLE w), (SELENIUM_AVAILABLE w);
    reflexivity.
Qed.

End TranslationFacts.

Section SummaryFacts.
Import Py Protection Comprehensive.

Variable language : string.
Variable get_text : string -> string.
Variable now : string.

Lemma translated_report_level (r : report) :
  dict_get "complexity_level"
    (_translate_protection_results get_text (protection_dict r))
  = Some (VStr (complexity_level r)).
Proof.
  destruct r as [u t mech methods total level best rate].
  destruct best, rate; reflexivity.
Qed.

(** X30. For results that hold the report of the protection analyzer and
    no structure part, the summary repeats the tier of the report, but
    its score is 0 and its difficulty and time estimate are those of the
    lowest tier, whatever the total score of the report: the summary
    reads the key [complexity_score], which no report has. *)
Theorem summary_estimate_ignores_the_report (r : report) (rest : dict pyval)
    (url : pyval)
    (Hurl : dict_get "url" rest = Some url)
    (Hstructure : dict_get "structure" rest = None) :
  exists summary,
    _generate_summary language get_text now
      (dict_set "protection"
         (VDict (_translate_protection_results get_text (protection_dict r)))
         rest)
    = Ok summary
    /\ dict_get "protection_level" summary = Some (VStr (complexity_level r))
    /\ dict_get "protection_score" summary = Some (VInt 0)
    /\ dict_get "scraping_difficulty" summary
       = Some (VStr (get_text "protection_low"))
    /\ dict_get "estimated_development_time" summary
       = Some (VStr ("1-2 " ++ (if language =? "ru" then "дня" else "days"))).
Proof.
  unfold _generate_summary, dict_item, dict_get_default.
  rewrite !dict_get_set. cbn [String.eqb Ascii.eqb Bool.eqb].
  rewrite Hurl, Hstructure. cbn [bind as_dict].
  rewrite translated_report_level,
    (translated_report_has_no_complexity_score get_text).
  cbn [bind lt_int Z.ltb Z.compare difficulty_of fst snd].
  eexists. split; [reflexivity |].
  repeat split; reflexivity.
Qed.

End SummaryFacts.

(* ================================================================== *)
(** ** The properties at sample inputs                                 *)
(* ================================================================== *)

(** X4 at a site that answers 200 with a static page. *)
Lemma low_tier_iff_nothing_detected_witness :
  exists r s',
    Protection.analyze Protection.plain_site "https://example.com"
      Protection.fresh = (Ok r, s')
    /\ (Protection.complexity_level r = "LOW" <->
        existsb (fun kv => Protection.detected (snd kv))
          (dict_remove "basic_access" (Protection.mechanisms r)) = false)
    /\ (Protection.complexity_level r = "LOW" <->
        Protection.total_score r = 35%Z).
Proof.
  apply (low_tier_iff_nothing_detected Protection.plain_site).
  vm_compute. reflexivity.
Defined.

(** X5 at a page that embeds a reCAPTCHA widget. *)
Lemma captcha_raises_the_tier_witness :
  exists r s' captcha cloudflare,
    Protection.analyze ProbeOutcomes.captcha_site "https://example.com"
      Protection.fresh = (Ok r, s')
    /\ dict_get "captcha" (Protection.mechanisms r) = Some captcha
    /\ dict_get "cloudflare" (Protection.mechanisms r) = Some cloudflare
    /\ (Protection.detected captcha = true ->
        (75 <= Protection.total_score r)%Z
        /\ (Protection.complexity_level r = "HIGH"
            \/ Protection.complexity_level r = "CRITICAL"))
    /\ (Protection.detected captcha = true ->
        Protection.detected cloudflare = true ->
        Protection.complexity_level r = "CRITICAL").
Proof.
  apply (captcha_raises_the_tier ProbeOutcomes.captcha_site).
  vm_compute. reflexivity.
Defined.

(** X6 at the same page: the indicator [recaptcha] implies [captcha]. *)
Lemma captcha_indicators_reduce_witness :
  exists r,
    Protection.check_captcha_protection ProbeOutcomes.captcha_site
      Protection.fresh
    = (Ok r, ProbeOutcomes.after_requests 1 Protection.fresh)
    /\ Protection.dr_detected r
       = (contains "captcha"
            (lower "<html><div class='g-recaptcha'></div></html>")
          || contains "solve the puzzle"
               (lower "<html><div class='g-recaptcha'></div></html>")
          || contains "verify you are human"
               (lower "<html><div class='g-recaptcha'></div></html>")
          || contains "geetest"
               (lower "<html><div class='g-recaptcha'></div></html>"))
    /\ (contains "recaptcha"
          (lower "<html><div class='g-recaptcha'></div></html>") = true
        \/ contains "hcaptcha"
             (lower "<html><div class='g-recaptcha'></div></html>") = true ->
        exists n, Protection.dr_indicators_found r = Some n /\ 2 <= n).
Proof.
  apply (captcha_indicators_reduce ProbeOutcomes.captcha_site Protection.fresh
           (Protection.page 200 "<html><div class='g-recaptcha'></div></html>")).
  reflexivity.
Defined.

(** X7 at a site whose answers carry the header [CF-RAY] in capitals. *)
Lemma cloudflare_fingerprint_any_case_witness :
  exists r,
    Protection.check_cloudflare_protection ProbeOutcomes.cloudflare_site
      Protection.fresh
    = (Ok r, ProbeOutcomes.after_requests 1 Protection.fresh)
    /\ Protection.dr_detected r = true.
Proof.
  apply (cloudflare_fingerprint_any_case ProbeOutcomes.cloudflare_site
           Protection.fresh
           {| Protection.status_code := 200;
              Protection.headers := [("CF-RAY", "8c1e2f3a4b5c6d7e-FRA")];
              Protection.text :=
                "<html>Checking your browser before accessing</html>";
              Protection.cookies := [] |}).
  - reflexivity.
  - left. exists "CF-RAY", "8c1e2f3a4b5c6d7e-FRA". split.
    + left. reflexivity.
    + vm_compute. reflexivity.
Defined.

(** X9 at a site that answers 200 with a static page. *)
Lemma best_method_selection_witness :
  exists r s' rate,
    Protection.analyze Protection.plain_site "https://example.com"
      Protection.fresh = (Ok r, s')
    /\ Protection.bypass_success_rate r = Some rate
    /\ (0 <= rate <= 100 # 1)%Q
    /\ match find (fun kv => Protection.success (snd kv))
               (Protection.bypass_methods r) with
       | Some (first, _) => Protection.best_method r = Some first
       | None =>
           Protection.best_method r = Some "selenium"
           /\ rate = (0 # 1)%Q
           /\ ~ In "selenium" (keys (Protection.bypass_methods r))
       end.
Proof.
  apply (best_method_selection Protection.plain_site).
  vm_compute. reflexivity.
Defined.

(** X16 at a name with a path separator, a colon and a question mark. *)
Lemma safe_filename_is_safe_witness :
  UtilsText.safe_name
    (UtilsText.safe_filename "20250914_120000" "reports/site: v1?.txt").
Proof.
  apply (safe_filename_is_safe "20250914_120000" "reports/site: v1?.txt").
  - vm_compute. reflexivity.
  - simpl. lia.
Defined.

(** X17 at a name that needs no change. *)
Lemma safe_filename_keeps_safe_names_witness :
  UtilsText.safe_filename "20250914_120000" "report.txt" = "report.txt".
Proof.
  apply (safe_filename_keeps_safe_names "20250914_120000" "report.txt").
  unfold UtilsText.safe_name. repeat split.
  - discriminate.
  - simpl. lia.
Defined.

(** X18 at a text that is cut to 10 characters. *)
Lemma clean_text_respects_limit_witness :
  (Z.of_nat
     (len_chars
        (UtilsText.clean_text "  очень   длинный   текст  " (Some 10%Z)))
   <= 10)%Z.
Proof.
  apply (clean_text_respects_limit "  очень   длинный   текст  " 10). lia.
Defined.

(** X19 at a limit of 2: the last character is dropped, three dots are
    added and the result has 8 characters. *)
Lemma clean_text_overflows_short_limit_witness :
  UtilsText.clean_text "abcdef" (Some 2%Z)
  = take_chars (len_chars (UtilsText.clean_text "abcdef" None) - Z.to_nat (3 - 2))
      (UtilsText.clean_text "abcdef" None) ++ "..."
  /\ Z.of_nat (len_chars (UtilsText.clean_text "abcdef" (Some 2%Z)))
     = (Z.of_nat (len_chars (UtilsText.clean_text "abcdef" None)) + 2)%Z
  /\ (2 < Z.of_nat (len_chars (UtilsText.clean_text "abcdef" (Some 2%Z))))%Z.
Proof.
  apply (clean_text_overflows_short_limit "abcdef" 2).
  - lia.
  - vm_compute. reflexivity.
Defined.

(** X23 at a file whose first line is a [Disallow] line. *)
Lemma rules_before_first_agent_are_dropped_witness :
  Robots.parse_robots_txt nat Robots.float_of_digits
    ("Disallow: /early" ++ String "010" ("User-agent: *" ++ String "010" "Disallow: /private"))
  = Robots.parse_robots_txt nat Robots.float_of_digits
      ("User-agent: *" ++ String "010" "Disallow: /private").
Proof.
  apply (rules_before_first_agent_are_dropped nat Robots.float_of_digits
           "Disallow: /early"
           ("User-agent: *" ++ String "010" "Disallow: /private")).
  vm_compute. reflexivity.
Defined.

(** X25 at a function that fails twice and then answers, with three
    attempts allowed. *)
Lemma retry_returns_first_success_witness :
  Retry.wrapper string Retry.third_time_lucky 3 (1 # 1)%Q (fun _ => None)
    Retry.start
  = (Ok "page", {| Retry.calls := 3; Retry.sleeps := [1; 2] |}).
Proof.
  apply (retry_returns_first_success string Retry.third_time_lucky 3 (1 # 1)%Q
           (fun _ => None) 2 "page").
  - simpl. lia.
  - reflexivity.
  - lia.
  - intros i Hi. destruct i as [| [| i]]; [discriminate | discriminate | lia].
  - reflexivity.
Defined.

(** X26 at a function that always fails, with three attempts allowed. *)
Lemma retry_exhausted_raises_last_witness :
  Retry.wrapper string Retry.always_failing 3 (1 # 1)%Q (fun _ => None)
    Retry.start
  = (Raise (RequestError (Protection.str_nat 2)),
     {| Retry.calls := 3; Retry.sleeps := [1; 2] |}).
Proof.
  apply (retry_exhausted_raises_last string Retry.always_failing 3 (1 # 1)%Q
           (fun _ => None) 2 (RequestError (Protection.str_nat 2))).
  - simpl. lia.
  - reflexivity.
  - reflexivity.
  - intros i _. discriminate.
  - reflexivity.
Defined.

(** X29 at a site that answers 200, without optional libraries. *)
Lemma bypass_labels_of_methods_tried_witness :
  exists r s',
    Protection.analyze Protection.plain_site "https://example.com"
      Protection.fresh = (Ok r, s')
    /\ dict_get "bypass_methods_localized"
         (_translate_protection_results english (protection_dict r))
       = Some (VList
                 (map (fun method =>
                         VStr (Localization.bypass_label english method))
                    (ProbeOutcomes.methods_tried Protection.plain_site))).
Proof.
  apply (bypass_labels_of_methods_tried Protection.plain_site english).
  vm_compute. reflexivity.
Defined.

(** X30 at a report of total 100: the tier is CRITICAL and the estimate
    is that of the lowest tier. *)
Lemma summary_estimate_ignores_the_report_witness :
  exists summary,
    _generate_summary "en" english "2025-09-14T12:00:00"
      (dict_set "protection"
         (VDict (_translate_protection_results english
                   (protection_dict Localization.blocked_report)))
         [("url", VStr "https://example.com")])
    = Ok summary
    /\ dict_get "protection_level" summary
       = Some (VStr (Protection.complexity_level Localization.blocked_report))
    /\ dict_get "protection_score" summary = Some (VInt 0)
    /\ dict_get "scraping_difficulty" summary
       = Some (VStr (english "protection_low"))
    /\ dict_get "estimated_development_time" summary
       = Some (VStr ("1-2 " ++ (if "en" =? "ru" then "дня" else "days"))).
Proof.
  apply (summary_estimate_ignores_the_report "en" english "2025-09-14T12:00:00"
           Localization.blocked_report
           [("url", VStr "https://example.com")]
           (VStr "https://example.com")).
  - reflexivity.
  - reflexivity.
Defined.
